(** * gohive: the cursor and session engine of hive.go

    A shallow embedding of the hand-written client code of [hive.go]:
    the null bitmap reader, the column batch bookkeeping, the cursor
    (submission, polling, paging, row materialisation) and the session
    (connect, close).  Go [int] values are [Z], bytes are [Z] in
    [0, 256), slices are lists, nilable pointers are [option], and a
    run-time panic is an explicit outcome. *)

From Stdlib Require Import ZArith List String Ascii Bool Lia Arith DecimalString.
From Stdlib Require Import Permutation.
Import ListNotations.
Local Open Scope string_scope.
Local Open Scope list_scope.
Local Open Scope Z_scope.

(** ** Outcomes: a Go call either returns or panics; [OutOfFuel] is
    the model running out of loop iterations, not a behaviour of the
    program *)

Inductive outcome (A : Type) : Type :=
| Ok (a : A)
| Panic (reason : string)
| OutOfFuel.
Arguments Ok {A} a.
Arguments Panic {A} reason.
Arguments OutOfFuel {A}.

Definition obind {A B : Type} (m : outcome A) (k : A -> outcome B) : outcome B :=
  match m with
  | Ok a => k a
  | Panic r => Panic r
  | OutOfFuel => OutOfFuel
  end.

Notation "x <- m ;; k" := (obind m (fun x => k))
  (at level 61, m at next level, right associativity).
Notation "' pat <- m ;; k" := (obind m (fun x => match x with pat => k end))
  (at level 61, pat pattern, m at next level, right associativity).

Definition nil_dereference : string :=
  "invalid memory address or nil pointer dereference".
Definition index_out_of_range : string := "index out of range".

(** [*p] for a nilable pointer. *)
Definition deref {A : Type} (p : option A) : outcome A :=
  match p with
  | Some a => Ok a
  | None => Panic nil_dereference
  end.

(** [s[i]] for a slice and a Go [int] index. *)
Definition at_index {A : Type} (s : list A) (i : Z) : outcome A :=
  if i <? 0 then Panic index_out_of_range
  else match nth_error s (Z.to_nat i) with
       | Some a => Ok a
       | None => Panic index_out_of_range
       end.

Definition len {A : Type} (s : list A) : Z := Z.of_nat (List.length s).

(** Go [int] is 64 bits wide on the supported platforms. *)
Definition int_wrap (z : Z) : Z := (z + 2 ^ 63) mod 2 ^ 64 - 2 ^ 63.
(** [uint(z)] *)
Definition to_uint (z : Z) : Z := z mod 2 ^ 64.
(** [byte(z)] *)
Definition to_byte (z : Z) : Z := z mod 256.

Definition byte := Z.
Definition float64 := Z. (* the IEEE-754 bit pattern; values are only moved *)

(** ** Null bitmap *)

(** [isNull] of hive.go.  [position / 8] and [position % 8] truncate
    towards zero; the shift is evaluated at type [byte]. *)
Definition isNull (nulls : list byte) (position : Z) : outcome bool :=
  let index_ := Z.quot position 8 in
  if len nulls >? index_ then
    b <- at_index nulls index_ ;;
    Ok (negb (Z.land b (to_byte (Z.shiftl 1 (to_uint (Z.rem position 8)))) =? 0))
  else Ok false.

(** ** Thrift data (package hiveserver)

    The IDL-generated stubs are not part of the hand-written sources.
    The structures below carry the fields hive.go reads or writes. *)

(** Modelled from the spec: the status codes of the generated package
    hiveserver, "SUCCESS | SUCCESS_WITH_INFO | STILL_EXECUTING | ERROR |
    INVALID_HANDLE", under the names hive.go uses for them. *)
Inductive TStatusCode : Type :=
| SUCCESS_STATUS
| SUCCESS_WITH_INFO_STATUS
| STILL_EXECUTING_STATUS
| ERROR_STATUS
| INVALID_HANDLE_STATUS.

Definition TStatusCode_eqb (a b : TStatusCode) : bool :=
  match a, b with
  | SUCCESS_STATUS, SUCCESS_STATUS
  | SUCCESS_WITH_INFO_STATUS, SUCCESS_WITH_INFO_STATUS
  | STILL_EXECUTING_STATUS, STILL_EXECUTING_STATUS
  | ERROR_STATUS, ERROR_STATUS
  | INVALID_HANDLE_STATUS, INVALID_HANDLE_STATUS => true
  | _, _ => false
  end.

(** Modelled from the spec: the operation state codes of the
    generated package hiveserver, "INITIALIZED | RUNNING | FINISHED |
    CANCELED | CLOSED | ERROR | UNKNOWN | PENDING | TIMEDOUT". *)
Inductive TOperationState : Type :=
| INITIALIZED_STATE
| RUNNING_STATE
| FINISHED_STATE
| CANCELED_STATE
| CLOSED_STATE
| ERROR_STATE
| UNKNOWN_STATE
| PENDING_STATE
| TIMEDOUT_STATE.

Definition TOperationState_eqb (a b : TOperationState) : bool :=
  match a, b with
  | INITIALIZED_STATE, INITIALIZED_STATE
  | RUNNING_STATE, RUNNING_STATE
  | FINISHED_STATE, FINISHED_STATE
  | CANCELED_STATE, CANCELED_STATE
  | CLOSED_STATE, CLOSED_STATE
  | ERROR_STATE, ERROR_STATE
  | UNKNOWN_STATE, UNKNOWN_STATE
  | PENDING_STATE, PENDING_STATE
  | TIMEDOUT_STATE, TIMEDOUT_STATE => true
  | _, _ => false
  end.

(** Modelled from the spec: the generated structure [TStatus], with
    the fields that [DEFAULT_STATUS] of hive.go fills. *)
Record TStatus : Type := mkTStatus {
  StatusCode : TStatusCode;
  InfoMessages : list string;
  SqlState : option string;
  ErrorCode : option Z;
  ErrorMessage : option string
}.

(** Modelled from the spec: the accessors of [TStatus] are generated
    code that is not among the sources.  A failure status "carries an
    error message and semantic error code"; an unset optional field
    reads as the zero value of its type, as the stub generator emits. *)
Definition GetStatusCode (p : TStatus) : TStatusCode := StatusCode p.
Definition GetErrorCode (p : TStatus) : Z :=
  match ErrorCode p with Some c => c | None => 0 end.
Definition GetErrorMessage (p : TStatus) : string :=
  match ErrorMessage p with Some m => m | None => "" end.

(** Modelled from the spec: the opaque handles issued by the server
    (generated structures); of an operation handle the client reads
    only whether it has a result set. *)
Record TSessionHandle : Type := mkTSessionHandle { SessionId : Z }.

Record TOperationHandle : Type := mkTOperationHandle {
  OperationId : Z;
  HasResultSet : bool
}.

(** Go value kinds that a column vector can hold. *)
Inductive GoKind : Type :=
| KBinary | KByte | KI16 | KI32 | KI64 | KString | KDouble | KBool.

Definition GoKind_eqb (a b : GoKind) : bool :=
  match a, b with
  | KBinary, KBinary | KByte, KByte | KI16, KI16 | KI32, KI32
  | KI64, KI64 | KString, KString | KDouble, KDouble | KBool, KBool => true
  | _, _ => false
  end.

(** [[]byte] is a nilable slice; integers are kept as [Z]. *)
Definition GoVal (k : GoKind) : Type :=
  match k with
  | KBinary => option (list byte)
  | KByte | KI16 | KI32 | KI64 => Z
  | KString => string
  | KDouble => float64
  | KBool => bool
  end.

(** Modelled from the spec: the generated structures [TBoolColumn],
    [TByteColumn], ... : a value vector and its packed null bitmap. *)
Record TCol (V : Type) : Type := mkTCol {
  Values : list V;
  Nulls : list byte
}.
Arguments mkTCol {V} _ _.
Arguments Values {V} _.
Arguments Nulls {V} _.

(** Modelled from the spec: the generated structure [TColumn], "for
    each column, a typed value vector plus a packed null-bitmap".  It
    is a Thrift union: one nilable pointer per member, tested by the
    [IsSet...] accessors. *)
Record TColumn : Type := mkTColumn {
  BoolVal : option (TCol (GoVal KBool));
  ByteVal : option (TCol (GoVal KByte));
  I16Val : option (TCol (GoVal KI16));
  I32Val : option (TCol (GoVal KI32));
  I64Val : option (TCol (GoVal KI64));
  DoubleVal : option (TCol (GoVal KDouble));
  StringVal : option (TCol (GoVal KString));
  BinaryVal : option (TCol (GoVal KBinary))
}.

Definition is_set {A : Type} (p : option A) : bool :=
  match p with Some _ => true | None => false end.

(** Modelled from the spec: the generated responses and requests of
    the RPC service, with the fields hive.go reads or sets. *)
Record TRowSet : Type := mkTRowSet { Columns : list TColumn }.

Record TFetchResultsResp : Type := mkTFetchResultsResp {
  fetch_Status : option TStatus;
  HasMoreRows : option bool;
  Results : option TRowSet
}.

Record TExecuteStatementResp : Type := mkTExecuteStatementResp {
  exec_Status : option TStatus;
  exec_OperationHandle : option TOperationHandle
}.

Record TGetOperationStatusResp : Type := mkTGetOperationStatusResp {
  poll_Status : option TStatus;
  OperationState : option TOperationState;
  poll_ErrorMessage : option string;
  TaskStatus : option string
}.

(** [TCancelOperationResp], [TCloseOperationResp], [TCloseSessionResp]:
    a status and nothing else that the client reads. *)
Record TStatusResp : Type := mkTStatusResp { resp_Status : option TStatus }.

Record TOpenSessionResp : Type := mkTOpenSessionResp {
  open_Status : option TStatus;
  open_SessionHandle : option TSessionHandle
}.

Inductive TFetchOrientation : Type := FETCH_NEXT.

Record TFetchResultsReq : Type := mkTFetchResultsReq {
  fetch_OperationHandle : option TOperationHandle;
  Orientation : TFetchOrientation;
  MaxRows : Z;
  (** [None]: left as [NewTFetchResultsReq] made it. *)
  FetchType : option Z
}.

Record TExecuteStatementReq : Type := mkTExecuteStatementReq {
  exec_SessionHandle : option TSessionHandle;
  Statement : string;
  RunAsync : bool
}.

Record TGetOperationStatusReq : Type := mkTGetOperationStatusReq {
  poll_OperationHandle : option TOperationHandle;
  GetProgressUpdate : option bool
}.

Inductive TProtocolVersion : Type := HIVE_CLI_SERVICE_PROTOCOL_V6.

Record TOpenSessionReq : Type := mkTOpenSessionReq {
  ClientProtocol : TProtocolVersion;
  open_Configuration : option (list (string * string));
  open_Username : option string;
  open_Password : option string
}.

(** ** Destinations of [FetchOne]

    A destination is an [interface{}]: untyped nil, a [*T], a [**T], or
    a value of some other dynamic type.  A pointer destination is
    represented by what it points to, which is what the caller reads
    after the call. *)
Inductive dest : Type :=
| dest_nil
| dest_ptr (k : GoKind) (pointee : GoVal k)
| dest_ptrptr (k : GoKind) (pointee : option (GoVal k))
| dest_value (k : GoKind) (v : GoVal k)
| dest_other (type_name : string).

(** ** Errors

    An error made outside hive.go (by the RPC client, a transport, a
    dial hook) is known by its text, like one made by [errors.New].  The
    formatted errors of hive.go keep the data they print. *)
Inductive error : Type :=
| errors_New (msg : string)
| status_error (prefix : string) (st : TStatus)
| argument_count_error (ndests ncolumns : Z)
| unexpected_type_error (d : dest) (k : GoKind) (v : GoVal k) (i : Z)
| empty_column_error (col : TColumn)
| only_rows_error (n : Z)
| unrecognized_column_error (col : TColumn)
| HiveError (inner : error) (Message : string) (ErrorCode : Z).

(** [strings.Contains] *)
Fixpoint Contains (s substr : string) : bool :=
  if String.prefix substr s then true
  else match s with
       | EmptyString => false
       | String _ s' => Contains s' substr
       end.

(** [strings.Replace(s, " ", "", -1)] *)
Fixpoint remove_spaces (s : string) : string :=
  match s with
  | EmptyString => EmptyString
  | String a s' =>
      if Ascii.eqb a " "%char then remove_spaces s' else String a (remove_spaces s')
  end.

(** ** Contexts

    A [context.Context] is known to the client by whether and when its
    [Done] channel is seen closed.  [ctx_caller (Some k)] is a context
    that fires during the call: the polling loop of
    [WaitForCompletion] sees it after its [k]-th sleep, and
    [pollUntilData] takes the [ctx.Done()] arm of its [select] while its
    worker sees the stop flag at the start of iteration [k].
    [ctx_caller None] is a context that stays live for the whole call
    (or whose arm is not the one the [select] takes). *)
Inductive Context : Type :=
| ctx_Background
| ctx_TODO
| ctx_caller (fires : option nat)
| ctx_WithTimeout (parent : Context) (timeout : Z).

Fixpoint ctx_fires (ctx : Context) : option nat :=
  match ctx with
  | ctx_Background | ctx_TODO => None
  | ctx_caller f => f
  | ctx_WithTimeout parent _ => ctx_fires parent
  end.

Definition ctx_done_at (ctx : Context) (i : nat) : bool :=
  match ctx_fires ctx with
  | Some k => (k <=? i)%nat
  | None => false
  end.

(** ** Configuration, transports, connection, cursor *)

Definition DEFAULT_FETCH_SIZE : Z := 1000.
Definition ZOOKEEPER_DEFAULT_NAMESPACE : string := "hiveserver2".
Definition DEFAULT_MAX_LENGTH : Z := 16384000.

(** A caller-supplied dial hook and a [*tls.Config] are references;
    what a hook does when called belongs to the environment. *)
Record DialContextFunc : Type := mkDialContextFunc { hook_id : nat }.
Record TLSConfig_ref : Type := mkTLSConfig { tls_id : nat }.
Record NetConn : Type := mkNetConn { conn_id : nat }.

Record ConnectConfiguration : Type := mkConnectConfiguration {
  Username : string;
  Principal : string;
  Password : string;
  Service : string;
  HiveConfiguration : option (list (string * string));
  PollIntervalInMillis : Z;
  FetchSize : Z;
  TransportMode : string;
  HTTPPath : string;
  TLSConfig : option TLSConfig_ref;
  ZookeeperNamespace : string;
  Database : string;
  ConnectTimeout : Z;
  SocketTimeout : Z;
  HttpTimeout : Z;
  DialContext : option DialContextFunc;
  DisableKeepAlives : bool;
  MaxSize : Z
}.

Definition NewConnectConfiguration : ConnectConfiguration :=
  {| Username := "";
     Principal := "";
     Password := "";
     Service := "";
     HiveConfiguration := None;
     PollIntervalInMillis := 200;
     FetchSize := DEFAULT_FETCH_SIZE;
     TransportMode := "binary";
     HTTPPath := "cliservice";
     TLSConfig := None;
     ZookeeperNamespace := ZOOKEEPER_DEFAULT_NAMESPACE;
     Database := "";
     ConnectTimeout := 0;
     SocketTimeout := 0;
     HttpTimeout := 0;
     DialContext := None;
     DisableKeepAlives := false;
     MaxSize := DEFAULT_MAX_LENGTH |}.

Definition with_credentials (cfg : ConnectConfiguration) (user pass : string)
  : ConnectConfiguration :=
  {| Username := user;
     Principal := Principal cfg;
     Password := pass;
     Service := Service cfg;
     HiveConfiguration := HiveConfiguration cfg;
     PollIntervalInMillis := PollIntervalInMillis cfg;
     FetchSize := FetchSize cfg;
     TransportMode := TransportMode cfg;
     HTTPPath := HTTPPath cfg;
     TLSConfig := TLSConfig cfg;
     ZookeeperNamespace := ZookeeperNamespace cfg;
     Database := Database cfg;
     ConnectTimeout := ConnectTimeout cfg;
     SocketTimeout := SocketTimeout cfg;
     HttpTimeout := HttpTimeout cfg;
     DialContext := DialContext cfg;
     DisableKeepAlives := DisableKeepAlives cfg;
     MaxSize := MaxSize cfg |}.

(** [thrift.TConfiguration] as hive.go fills it. *)
Record TConfiguration : Type := mkTConfiguration {
  conf_ConnectTimeout : Z;
  conf_SocketTimeout : Z;
  conf_TLSConfig : option TLSConfig_ref
}.

(** [http.Client] as [getHTTPClient] builds it: an [http.Transport]
    wrapped in [CookieDedupTransport], and a cookie jar set later. *)
Record HttpClient : Type := mkHttpClient {
  http_Timeout : Z;
  TLSClientConfig : option TLSConfig_ref;
  client_DialContext : option DialContextFunc;
  client_DisableKeepAlives : bool;
  cookie_dedup : bool;
  Jar : option nat
}.

Inductive TTransport : Type :=
| TSocket (addr : string) (conf : TConfiguration) (ssl : bool)
| TSocketFromConn (netConn : option NetConn) (conf : TConfiguration) (ssl : bool)
| TBufferedTransport (inner : TTransport) (bufferSize : Z)
| TSaslTransport (inner : TTransport) (host mechanism : string)
                 (configuration : list (string * string)) (maxLength : Z)
| THttpClient (url : string) (options : HttpClient)
              (headers : list (string * string)).

(** [*hiveserver.TCLIServiceClient]: the RPC stub bound to a transport. *)
Record TCLIServiceClient : Type := mkTCLIServiceClient {
  client_transport : option TTransport
}.

Record Connection : Type := mkConnection {
  host : string;
  port : Z;
  username : string;
  database : string;
  auth : string;
  kerberosServiceName : string;
  password : string;
  sessionHandle : option TSessionHandle;
  client : option TCLIServiceClient;
  configuration : option ConnectConfiguration;
  transport : option TTransport
}.

Definition _RUNNING : Z := 0.
Definition _FINISHED : Z := 1.
Definition _NONE : Z := 2.
Definition _CONTEXT_DONE : Z := 3.
Definition _ERROR : Z := 4.
Definition _ASYNC_ENDED : Z := 5.

(** A log channel is a reference; what was sent on it is kept in the
    world. *)
Record LogChan : Type := mkLogChan { chan_id : nat }.

Record Cursor : Type := mkCursor {
  conn : option Connection;
  operationHandle : option TOperationHandle;
  queue : list TColumn;
  response : option TFetchResultsResp;
  columnIndex : Z;
  totalRows : Z;
  state : Z;
  newData : bool;
  Err : option error;
  description : option (list (list string));
  Logs : option LogChan
}.

Definition with_operationHandle (c : Cursor) (h : option TOperationHandle) : Cursor :=
  mkCursor (conn c) h (queue c) (response c) (columnIndex c) (totalRows c)
           (state c) (newData c) (Err c) (description c) (Logs c).
Definition with_queue (c : Cursor) (q : list TColumn) : Cursor :=
  mkCursor (conn c) (operationHandle c) q (response c) (columnIndex c)
           (totalRows c) (state c) (newData c) (Err c) (description c) (Logs c).
Definition with_response (c : Cursor) (r : option TFetchResultsResp) : Cursor :=
  mkCursor (conn c) (operationHandle c) (queue c) r (columnIndex c)
           (totalRows c) (state c) (newData c) (Err c) (description c) (Logs c).
Definition with_columnIndex (c : Cursor) (i : Z) : Cursor :=
  mkCursor (conn c) (operationHandle c) (queue c) (response c) i
           (totalRows c) (state c) (newData c) (Err c) (description c) (Logs c).
Definition with_totalRows (c : Cursor) (n : Z) : Cursor :=
  mkCursor (conn c) (operationHandle c) (queue c) (response c) (columnIndex c)
           n (state c) (newData c) (Err c) (description c) (Logs c).
Definition with_state (c : Cursor) (s : Z) : Cursor :=
  mkCursor (conn c) (operationHandle c) (queue c) (response c) (columnIndex c)
           (totalRows c) s (newData c) (Err c) (description c) (Logs c).
Definition with_newData (c : Cursor) (b : bool) : Cursor :=
  mkCursor (conn c) (operationHandle c) (queue c) (response c) (columnIndex c)
           (totalRows c) (state c) b (Err c) (description c) (Logs c).
Definition with_Err (c : Cursor) (e : option error) : Cursor :=
  mkCursor (conn c) (operationHandle c) (queue c) (response c) (columnIndex c)
           (totalRows c) (state c) (newData c) e (description c) (Logs c).
Definition with_description (c : Cursor) (d : option (list (list string))) : Cursor :=
  mkCursor (conn c) (operationHandle c) (queue c) (response c) (columnIndex c)
           (totalRows c) (state c) (newData c) (Err c) d (Logs c).

(** [Connection.Cursor] *)
Definition Connection_Cursor (c : Connection) : Cursor :=
  {| conn := Some c;
     operationHandle := None;
     queue := [];
     response := None;
     columnIndex := 0;
     totalRows := 0;
     state := 0;
     newData := false;
     Err := None;
     description := None;
     Logs := None |}.

(** ** Status helpers *)

Definition DEFAULT_SQL_STATE : string := "".
Definition DEFAULT_ERROR_CODE : Z := -1.
Definition DEFAULT_ERROR_MESSAGE : string := "unknown error".
Definition DEFAULT_STATUS : TStatus :=
  {| StatusCode := ERROR_STATUS;
     InfoMessages := [];
     SqlState := Some DEFAULT_SQL_STATE;
     ErrorCode := Some DEFAULT_ERROR_CODE;
     ErrorMessage := Some DEFAULT_ERROR_MESSAGE |}.

Definition safeStatus (status : option TStatus) : TStatus :=
  match status with
  | None => DEFAULT_STATUS
  | Some st => st
  end.

Definition success (status : TStatus) : bool :=
  let statusCode := GetStatusCode status in
  TStatusCode_eqb statusCode SUCCESS_STATUS
  || TStatusCode_eqb statusCode SUCCESS_WITH_INFO_STATUS.

(** Modelled from the spec: [resp.GetStatus()] on a response
    pointer is generated code; the accessor reads through the pointer,
    so a nil response panics. *)
Definition GetStatus {R : Type} (field : R -> option TStatus) (resp : option R)
  : outcome (option TStatus) :=
  r <- deref resp ;; Ok (field r).

(** ** Column batches *)

Definition IsSetBinaryVal (el : TColumn) : bool := is_set (BinaryVal el).
Definition IsSetByteVal (el : TColumn) : bool := is_set (ByteVal el).
Definition IsSetI16Val (el : TColumn) : bool := is_set (I16Val el).
Definition IsSetI32Val (el : TColumn) : bool := is_set (I32Val el).
Definition IsSetI64Val (el : TColumn) : bool := is_set (I64Val el).
Definition IsSetBoolVal (el : TColumn) : bool := is_set (BoolVal el).
Definition IsSetDoubleVal (el : TColumn) : bool := is_set (DoubleVal el).
Definition IsSetStringVal (el : TColumn) : bool := is_set (StringVal el).

Definition values_len {V : Type} (p : option (TCol V)) : Z :=
  match p with
  | Some col => len (Values col)
  | None => 0
  end.

(** [getTotalRows]: the body of the [range] loop returns on every
    path, so only the first element is ever visited. *)
Definition getTotalRows (columns : list TColumn) : Z * option error :=
  match columns with
  | el :: _ =>
      if IsSetBinaryVal el then (values_len (BinaryVal el), None)
      else if IsSetByteVal el then (values_len (ByteVal el), None)
      else if IsSetI16Val el then (values_len (I16Val el), None)
      else if IsSetI32Val el then (values_len (I32Val el), None)
      else if IsSetI64Val el then (values_len (I64Val el), None)
      else if IsSetBoolVal el then (values_len (BoolVal el), None)
      else if IsSetDoubleVal el then (values_len (DoubleVal el), None)
      else if IsSetStringVal el then (values_len (StringVal el), None)
      else (-1, Some (unrecognized_column_error el))
  | [] => (0, Some (errors_New "All columns seem empty"))
  end.

(** [Cursor.parseResults].  [response.Results.GetColumns()] reads
    through both pointers. *)
Definition parseResults (c : Cursor) (response : option TFetchResultsResp)
  : outcome (option error * Cursor) :=
  r <- deref response ;;
  rows <- deref (Results r) ;;
  let c := with_queue c (Columns rows) in
  let c := with_columnIndex c 0 in
  let '(n, err) := getTotalRows (queue c) in
  let c := with_totalRows c n in
  let c := with_newData c (totalRows c >? 0) in
  let c := if negb (newData c) then with_state c _FINISHED else c in
  Ok (err, c).

(** ** Row materialisation *)

(** One arm of the type dispatch of [FetchOne], for a populated vector
    of kind [k].  The binary arm has no [**T] form and tests the null
    bitmap for a pointer to [[]byte]; the other arms store into a [*T] without
    looking at the bitmap and test it only for [**T].  Returns the
    error, if any, and the destination as the call leaves it. *)
Definition fetch_into (k : GoKind) (col : TCol (GoVal k)) (nil_value : GoVal k)
           (columnIndex i : Z) (d : dest) : outcome (option error * dest) :=
  let mismatch :=
    v <- at_index (Values col) columnIndex ;;
    Ok (Some (unexpected_type_error d k v i), d) in
  match d with
  | dest_nil =>
      v <- at_index (Values col) columnIndex ;;
      Ok (None, dest_value k v)
  | dest_ptr k' _ =>
      if GoKind_eqb k' k then
        if GoKind_eqb k KBinary then
          null <- isNull (Nulls col) columnIndex ;;
          if null then Ok (None, dest_ptr k nil_value)
          else v <- at_index (Values col) columnIndex ;;
               Ok (None, dest_ptr k v)
        else
          v <- at_index (Values col) columnIndex ;;
          Ok (None, dest_ptr k v)
      else mismatch
  | dest_ptrptr k' _ =>
      if GoKind_eqb k' k && negb (GoKind_eqb k KBinary) then
        null <- isNull (Nulls col) columnIndex ;;
        if null then Ok (None, dest_ptrptr k None)
        else v <- at_index (Values col) columnIndex ;;
             Ok (None, dest_ptrptr k (Some v))
      else mismatch
  | dest_value _ _ | dest_other _ => mismatch
  end.

(** The body of the loop of [FetchOne] for column [i]: the first
    populated member wins, in the order the source tests them. *)
Definition FetchOne_column (col : TColumn) (columnIndex i : Z) (d : dest)
  : outcome (option error * dest) :=
  match BinaryVal col with
  | Some v => fetch_into KBinary v None columnIndex i d
  | None =>
  match ByteVal col with
  | Some v => fetch_into KByte v 0 columnIndex i d
  | None =>
  match I16Val col with
  | Some v => fetch_into KI16 v 0 columnIndex i d
  | None =>
  match I32Val col with
  | Some v => fetch_into KI32 v 0 columnIndex i d
  | None =>
  match I64Val col with
  | Some v => fetch_into KI64 v 0 columnIndex i d
  | None =>
  match StringVal col with
  | Some v => fetch_into KString v "" columnIndex i d
  | None =>
  match DoubleVal col with
  | Some v => fetch_into KDouble v 0 columnIndex i d
  | None =>
  match BoolVal col with
  | Some v => fetch_into KBool v false columnIndex i d
  | None => Ok (Some (empty_column_error col), d)
  end end end end end end end end.

(** [dests[i] = d] *)
Fixpoint set_index {A : Type} (s : list A) (i : nat) (a : A) : list A :=
  match s, i with
  | [], _ => []
  | _ :: s', O => a :: s'
  | x :: s', S i' => x :: set_index s' i' a
  end.

(** [for i := 0; i < len(c.queue); i++ { ... }] of [FetchOne], entered
    at index [i] with the columns from [i] on. *)
Fixpoint FetchOne_loop (cols : list TColumn) (i : Z) (columnIndex : Z)
         (dests : list dest) : outcome (option error * list dest) :=
  match cols with
  | [] => Ok (None, dests)
  | col :: cols' =>
      d <- at_index dests i ;;
      ' (err, d') <- FetchOne_column col columnIndex i d ;;
      let dests := set_index dests (Z.to_nat i) d' in
      match err with
      | Some e => Ok (Some e, dests)
      | None => FetchOne_loop cols' (i + 1) columnIndex dests
      end
  end.

(** ** The world outside the client *)

Section Client.

Variable S : Type.

(** What a call into the RPC stub returns: a response pointer, an
    error known by its text, and the world after the call. *)
Definition rpc (R : Type) : Type := (option R * option string * S)%type.

Record Env : Type := mkEnv {
  ExecuteStatement :
    TCLIServiceClient -> Context -> TExecuteStatementReq -> S -> rpc TExecuteStatementResp;
  GetOperationStatus :
    TCLIServiceClient -> Context -> TGetOperationStatusReq -> S -> rpc TGetOperationStatusResp;
  FetchResults :
    TCLIServiceClient -> Context -> TFetchResultsReq -> S -> rpc TFetchResultsResp;
  CancelOperation :
    TCLIServiceClient -> Context -> option TOperationHandle -> S -> rpc TStatusResp;
  CloseOperation :
    TCLIServiceClient -> Context -> option TOperationHandle -> S -> rpc TStatusResp;
  CloseSession :
    TCLIServiceClient -> Context -> option TSessionHandle -> S -> rpc TStatusResp;
  OpenSession :
    TCLIServiceClient -> Context -> TOpenSessionReq -> S -> rpc TOpenSessionResp;
  (** [time.Sleep], in milliseconds *)
  Sleep : Z -> S -> S;
  call_DialContext :
    DialContextFunc -> Context -> string -> string -> S -> option NetConn * option string * S;
  transport_Open : TTransport -> S -> option string * S;
  transport_IsOpen : TTransport -> S -> bool;
  transport_Close : TTransport -> S -> option string * S;
  (** [user.Current]: the user's [Name] *)
  user_Current : S -> option string * option string;
  cookiejar_New : S -> option nat * option string;
  (** [NewTHttpClientTransportFactoryWithOptions(url, opts).GetTransport(socket)] *)
  http_GetTransport :
    string -> HttpClient -> TTransport -> S -> option TTransport * option string;
  NewGSSAPIMechanism : string -> S -> option nat * option string;
  (** [gosasl.NewSaslClient(host, mechanism).Start()] *)
  saslClient_Start : string -> nat -> S -> list byte * option string * S;
  NewTSaslTransport :
    TTransport -> string -> string -> list (string * string) -> Z -> S ->
    option TTransport * option string;
  QueryEscape : string -> string;
  base64_EncodeToString : list byte -> string
}.

Variable env : Env.

(** The server and network, and what the cursor has sent on log
    channels (oldest first). *)
Record World : Type := mkWorld {
  server : S;
  sent : list (LogChan * list string)
}.

Definition with_server (w : World) (s : S) : World := mkWorld s (sent w).
Definition send (w : World) (ch : LogChan) (logs : list string) : World :=
  mkWorld (server w) (sent w ++ [(ch, logs)]).

(** [c.conn.client] and [c.conn.configuration] *)
Definition conn_client (c : Cursor) : outcome TCLIServiceClient :=
  cn <- deref (conn c) ;; deref (client cn).
Definition conn_configuration (c : Cursor) : outcome ConnectConfiguration :=
  cn <- deref (conn c) ;; deref (configuration cn).

Definition opt_error (e : option string) : option error :=
  match e with
  | Some m => Some (errors_New m)
  | None => None
  end.

(** ** Cursor: reset, cancel, poll, logs *)

(** [Cursor.resetState] *)
Definition resetState (c : Cursor) (w : World)
  : outcome (option error * Cursor * World) :=
  let c := with_response c None in
  let c := with_Err c None in
  let c := with_queue c [] in
  let c := with_columnIndex c 0 in
  let c := with_totalRows c 0 in
  let c := with_state c _NONE in
  let c := with_description c None in
  let c := with_newData c false in
  match operationHandle c with
  | Some h =>
      cl <- conn_client c ;;
      let '(responseClose, err, s) :=
        CloseOperation env cl ctx_Background (Some h) (server w) in
      let w := with_server w s in
      let c := with_operationHandle c None in
      match err with
      | Some e => Ok (Some (errors_New e), c, w)
      | None =>
          st <- GetStatus resp_Status responseClose ;;
          if negb (success (safeStatus st)) then
            Ok (Some (status_error "Error closing the operation: " (safeStatus st)), c, w)
          else Ok (None, c, w)
      end
  | None => Ok (None, c, w)
  end.

(** [Cursor.Close] *)
Definition Cursor_Close (c : Cursor) (w : World) : outcome (Cursor * World) :=
  ' (err, c, w) <- resetState c w ;;
  Ok (with_Err c err, w).

(** [Cursor.Cancel] *)
Definition Cancel (c : Cursor) (w : World) : outcome (Cursor * World) :=
  let c := with_Err c None in
  cl <- conn_client c ;;
  let '(responseCancel, err, s) :=
    CancelOperation env cl ctx_Background (operationHandle c) (server w) in
  let w := with_server w s in
  let c := with_Err c (opt_error err) in
  if is_set (Err c) then Ok (c, w)
  else
    st <- GetStatus resp_Status responseCancel ;;
    if negb (success (safeStatus st)) then
      Ok (with_Err c (Some (status_error "Error closing the operation: " (safeStatus st))), w)
    else Ok (c, w).

(** [Cursor.Poll] *)
Definition Poll (getProgress : bool) (c : Cursor) (w : World)
  : outcome (option TGetOperationStatusResp * Cursor * World) :=
  let c := with_Err c None in
  let progressGet := getProgress in
  let pollRequest :=
    {| poll_OperationHandle := operationHandle c;
       GetProgressUpdate := Some progressGet |} in
  cl <- conn_client c ;;
  let '(responsePoll, err, s) :=
    GetOperationStatus env cl ctx_Background pollRequest (server w) in
  let w := with_server w s in
  let c := with_Err c (opt_error err) in
  if is_set (Err c) then Ok (None, c, w)
  else
    st <- GetStatus poll_Status responsePoll ;;
    if negb (success (safeStatus st)) then
      Ok (None,
          with_Err c (Some (status_error "Error closing the operation: " (safeStatus st))),
          w)
    else Ok (responsePoll, c, w).

(** [logs = append(logs, col.StringVal.Values...)] over the columns *)
Fixpoint append_logs (logs : list string) (cols : list TColumn)
  : outcome (list string) :=
  match cols with
  | [] => Ok logs
  | col :: cols' =>
      sv <- deref (StringVal col) ;;
      append_logs (logs ++ Values sv) cols'
  end.

(** [Cursor.FetchLogs] *)
Definition FetchLogs (c : Cursor) (w : World)
  : outcome (list string * Cursor * World) :=
  cfg <- conn_configuration c ;;
  let logRequest :=
    {| fetch_OperationHandle := operationHandle c;
       Orientation := FETCH_NEXT;
       MaxRows := FetchSize cfg;
       FetchType := Some 1 |} in
  cl <- conn_client c ;;
  let '(resp, err, s) := FetchResults env cl ctx_Background logRequest (server w) in
  let w := with_server w s in
  let failed :=
    match err, resp with
    | Some _, _ => true
    | None, None => true
    | None, Some r => negb (is_set (Results r))
    end in
  if failed then Ok ([], with_Err c (opt_error err), w)
  else
    r <- deref resp ;;
    rows <- deref (Results r) ;;
    logs <- append_logs [] (Columns rows) ;;
    Ok (logs, c, w).

(** ** Cursor: result streaming *)

(** The worker of [pollUntilData]: [for true { ... }], entered at
    iteration [iter].  It returns what it sends on [rowsAvailable]. *)
Fixpoint pollWorker (fuel : nat) (iter : nat) (ctx : Context)
         (c : Cursor) (w : World) : outcome (option error * Cursor * World) :=
  match fuel with
  | O => OutOfFuel
  | Datatypes.S fuel' =>
      if ctx_done_at ctx iter then Ok (None, c, w)
      else
        cfg <- conn_configuration c ;;
        let fetchRequest :=
          {| fetch_OperationHandle := operationHandle c;
             Orientation := FETCH_NEXT;
             MaxRows := FetchSize cfg;
             FetchType := None |} in
        cl <- conn_client c ;;
        let '(responseFetch, err, s) :=
          FetchResults env cl ctx_Background fetchRequest (server w) in
        let w := with_server w s in
        match err with
        | Some e => Ok (Some (errors_New e), c, w)
        | None =>
            let c := with_response c responseFetch in
            st <- GetStatus fetch_Status responseFetch ;;
            if negb (TStatusCode_eqb (StatusCode (safeStatus st)) SUCCESS_STATUS) then
              Ok (Some (status_error "" (safeStatus st)), c, w)
            else
              ' (err, c) <- parseResults c responseFetch ;;
              match err with
              | Some e => Ok (Some e, c, w)
              | None =>
                  if len (queue c) >? 0 then Ok (None, c, w)
                  else
                    let w := with_server w (Sleep env (PollIntervalInMillis cfg) (server w)) in
                    pollWorker fuel' (Datatypes.S iter) ctx c w
              end
        end
  end.

(** [Cursor.pollUntilData].  The caller waits for the worker in both
    arms of the [select], so the worker's effects are complete when the
    call returns. *)
Definition pollUntilData (fuel : nat) (ctx : Context) (n : Z)
           (c : Cursor) (w : World) : outcome (option error * Cursor * World) :=
  ' (sent_err, c, w) <- pollWorker fuel 0 ctx c w ;;
  let err :=
    match ctx_fires ctx with
    | None => sent_err
    | Some _ => Some (errors_New "Context is done")
    end in
  match err with
  | Some e => Ok (Some e, c, w)
  | None =>
      if len (queue c) <? n then Ok (Some (only_rows_error (len (queue c))), c, w)
      else Ok (None, c, w)
  end.

(** [Cursor.HasMore] *)
Definition HasMore (fuel : nat) (ctx : Context) (c : Cursor) (w : World)
  : outcome (bool * Cursor * World) :=
  let c := with_Err c None in
  if negb (is_set (response c)) && negb (state c =? _FINISHED) then
    ' (err, c, w) <- pollUntilData fuel ctx 1 c w ;;
    let c := with_Err c err in
    Ok (negb (state c =? _FINISHED) || negb (totalRows c =? columnIndex c), c, w)
  else
    ' (c, w) <-
      (if (totalRows c =? columnIndex c) && negb (state c =? _FINISHED) then
         ' (err, c, w) <- pollUntilData fuel ctx 1 c w ;;
         Ok (with_Err c err, w)
       else Ok (c, w)) ;;
    Ok (negb (state c =? _FINISHED) || negb (totalRows c =? columnIndex c), c, w).

(** [Cursor.fetchIfEmpty] *)
Definition fetchIfEmpty (fuel : nat) (ctx : Context) (c : Cursor) (w : World)
  : outcome (Cursor * World) :=
  let c := with_Err c None in
  if totalRows c =? columnIndex c then
    let c := with_queue c [] in
    ' (more, c, w) <- HasMore fuel ctx c w ;;
    if negb more then
      Ok (with_Err c (Some (errors_New "No more rows are left")), w)
    else Ok (c, w)
  else Ok (c, w).

(** [Cursor.FetchOne].  Returns the destinations as the call leaves
    them. *)
Definition FetchOne (fuel : nat) (ctx : Context) (dests : list dest)
           (c : Cursor) (w : World) : outcome (list dest * Cursor * World) :=
  let c := with_Err c None in
  ' (c, w) <- fetchIfEmpty fuel ctx c w ;;
  if is_set (Err c) then Ok (dests, c, w)
  else if negb (len (queue c) =? len dests) then
    Ok (dests,
        with_Err c (Some (argument_count_error (len dests) (len (queue c)))),
        w)
  else
    ' (err, dests) <- FetchOne_loop (queue c) 0 (columnIndex c) dests ;;
    match err with
    | Some e => Ok (dests, with_Err c (Some e), w)
    | None => Ok (dests, with_columnIndex c (int_wrap (columnIndex c + 1)), w)
    end.

(** ** Cursor: submission and polling *)

(** Modelled from the spec: how [%v] prints the operation state is
    decided by generated code that is not among the sources; the names
    are those of the "Operation state codes" of the spec, with the
    suffix the constants of hive.go carry. *)
Definition TOperationState_String (st : TOperationState) : string :=
  match st with
  | INITIALIZED_STATE => "INITIALIZED_STATE"
  | RUNNING_STATE => "RUNNING_STATE"
  | FINISHED_STATE => "FINISHED_STATE"
  | CANCELED_STATE => "CANCELED_STATE"
  | CLOSED_STATE => "CLOSED_STATE"
  | ERROR_STATE => "ERROR_STATE"
  | UNKNOWN_STATE => "UNKNOWN_STATE"
  | PENDING_STATE => "PENDING_STATE"
  | TIMEDOUT_STATE => "TIMEDOUT_STATE"
  end.

Definition placeholder_message (st : TOperationState) : string :=
  ("gohive: operation in state (" ++ TOperationState_String st
   ++ ") without task status or error message")%string.

Definition is_brackets (msg : option string) : bool :=
  match msg with
  | Some m => String.eqb m "[]"
  | None => false
  end.

(** The message that [WaitForCompletion] builds for a terminal state
    other than [FINISHED]. *)
Definition completion_message (operationStatus : TGetOperationStatusResp)
           (st : TOperationState) : option string :=
  let msg := TaskStatus operationStatus in
  let msg :=
    if negb (is_set msg) || is_brackets msg then poll_ErrorMessage operationStatus
    else msg in
  let msg :=
    match poll_Status operationStatus with
    | Some s => if negb (is_set msg) then ErrorMessage s else msg
    | None => msg
    end in
  let msg :=
    if negb (is_set msg) then Some (placeholder_message st) else msg in
  msg.

(** The loop of [Cursor.WaitForCompletion], entered at iteration
    [iter]. *)
Fixpoint WaitForCompletion_loop (fuel : nat) (iter : nat) (ctx : Context)
         (c : Cursor) (w : World) : outcome (Cursor * World) :=
  match fuel with
  | O => OutOfFuel
  | Datatypes.S fuel' =>
      ' (operationStatus, c, w) <- Poll true c w ;;
      if is_set (Err c) then Ok (c, w)
      else
        os <- deref operationStatus ;;
        status <- deref (OperationState os) ;;
        let finished :=
          negb (TOperationState_eqb status INITIALIZED_STATE
                || TOperationState_eqb status RUNNING_STATE
                || TOperationState_eqb status PENDING_STATE) in
        if finished then
          if negb (TOperationState_eqb status FINISHED_STATE) then
            msg <- deref (completion_message os status) ;;
            Ok (with_Err c (Some (errors_New msg)), w)
          else Ok (c, w)
        else if is_set (Err c) then Ok (c, w)
        else
          let sleep_and_check (c : Cursor) (w : World) :=
            cfg <- conn_configuration c ;;
            let w := with_server w (Sleep env (PollIntervalInMillis cfg) (server w)) in
            if ctx_done_at ctx iter then
              let c := with_Err c (Some (errors_New
                         "Context was done before the query was executed")) in
              Ok (with_state c _CONTEXT_DONE, w)
            else WaitForCompletion_loop fuel' (Datatypes.S iter) ctx c w in
          match Logs c with
          | Some ch =>
              ' (logs, c, w) <- FetchLogs c w ;;
              if is_set (Err c) then Ok (c, w)
              else sleep_and_check c (send w ch logs)
          | None => sleep_and_check c w
          end
  end.

(** [Cursor.WaitForCompletion] *)
Definition WaitForCompletion (fuel : nat) (ctx : Context) (c : Cursor) (w : World)
  : outcome (Cursor * World) :=
  WaitForCompletion_loop fuel 0 ctx c w.

(** [Cursor.executeAsync] *)
Definition executeAsync (ctx : Context) (query : string) (c : Cursor) (w : World)
  : outcome (Cursor * World) :=
  ' (_, c, w) <- resetState c w ;;
  let c := with_state c _RUNNING in
  cn <- deref (conn c) ;;
  let executeReq :=
    {| exec_SessionHandle := sessionHandle cn;
       Statement := query;
       RunAsync := true |} in
  cl <- deref (client cn) ;;
  let '(responseExecute, err, s) := ExecuteStatement env cl ctx executeReq (server w) in
  let w := with_server w s in
  let c := with_Err c (opt_error err) in
  match err with
  | Some e =>
      if Contains e "context deadline exceeded" then
        let c := with_state c _CONTEXT_DONE in
        match responseExecute with
        | None => Ok (with_state c _ERROR, w)
        | Some r => Ok (with_operationHandle c (exec_OperationHandle r), w)
        end
      else Ok (c, w)
  | None =>
      st <- GetStatus exec_Status responseExecute ;;
      if negb (success (safeStatus st)) then
        let status := safeStatus st in
        Ok (with_Err c (Some (HiveError
                                (status_error "Error while executing query: " status)
                                (GetErrorMessage status)
                                (GetErrorCode status))), w)
      else
        r <- deref responseExecute ;;
        let c := with_operationHandle c (exec_OperationHandle r) in
        h <- deref (exec_OperationHandle r) ;;
        if negb (HasResultSet h) then Ok (with_state c _FINISHED, w)
        else Ok (c, w)
  end.

(** [Cursor.handleDoneContext] *)
Definition handleDoneContext (c : Cursor) (w : World) : outcome (Cursor * World) :=
  let originalError := Err c in
  let finish (c : Cursor) (w : World) :=
    ' (_, c, w) <- resetState c w ;;
    let c := with_Err c originalError in
    Ok (with_state c _FINISHED, w) in
  if is_set (operationHandle c) then
    ' (c, w) <- Cancel c w ;;
    if is_set (Err c) then Ok (c, w) else finish c w
  else finish c w.

(** [Cursor.Execute] *)
Definition Execute (fuel : nat) (ctx : Context) (query : string) (async : bool)
           (c : Cursor) (w : World) : outcome (Cursor * World) :=
  ' (c, w) <- executeAsync ctx query c w ;;
  if negb async then
    if is_set (Err c) then
      if state c =? _CONTEXT_DONE then handleDoneContext c w else Ok (c, w)
    else
      ' (c, w) <- WaitForCompletion fuel ctx c w ;;
      if is_set (Err c) then
        if state c =? _CONTEXT_DONE then handleDoneContext c w
        else if state c =? _ERROR then
          Ok (with_Err c (Some (errors_New
                "Probably the context was over when passed to execute. This probably resulted in the message being sent but we didn't get an operation handle so it's most likely a bug in thrift")), w)
        else Ok (c, w)
      else
        match Logs c with
        | Some ch =>
            ' (logs, c, w) <- FetchLogs c w ;;
            if is_set (Err c) then Ok (with_state c _ASYNC_ENDED, w)
            else Ok (with_state c _ASYNC_ENDED, send w ch logs)
        | None => Ok (with_state c _ASYNC_ENDED, w)
        end
  else Ok (c, w).

(** [Cursor.Exec] *)
Definition Exec (fuel : nat) (ctx : Context) (query : string) (c : Cursor) (w : World)
  : outcome (Cursor * World) :=
  Execute fuel ctx query false c w.

(** ** Session: close and connect *)

(** [Connection.Close] *)
Definition Connection_Close (c : Connection) (w : World)
  : outcome (option error * World) :=
  cl <- deref (client c) ;;
  let '(responseClose, err, s) :=
    CloseSession env cl ctx_Background (sessionHandle c) (server w) in
  let w := with_server w s in
  let after_transport (w : World) : outcome (option error * World) :=
    match err with
    | Some e => Ok (Some (errors_New e), w)
    | None =>
        st <- GetStatus resp_Status responseClose ;;
        if negb (success (safeStatus st)) then
          Ok (Some (status_error "Error closing the session: " (safeStatus st)), w)
        else Ok (None, w)
    end in
  match transport c with
  | Some t =>
      let '(errTransport, s) := transport_Close env t (server w) in
      let w := with_server w s in
      match errTransport with
      | Some e => Ok (Some (errors_New e), w)
      | None => after_transport w
      end
  | None => after_transport w
  end.

(** [%d] *)
Definition fmt_d (z : Z) : string := NilZero.string_of_int (Z.to_int z).

(** [dial] *)
Definition dial (ctx : Context) (addr : string) (dialFn : DialContextFunc)
           (timeout : Z) (s : S) : option NetConn * option string * S :=
  let dctx := if timeout >? 0 then ctx_WithTimeout ctx timeout else ctx in
  call_DialContext env dialFn dctx "tcp" addr s.

(** [getHTTPClient] *)
Definition getHTTPClient (configuration : ConnectConfiguration)
  : HttpClient * string * option error :=
  if is_set (TLSConfig configuration) then
    ({| http_Timeout := HttpTimeout configuration;
        TLSClientConfig := TLSConfig configuration;
        client_DialContext := DialContext configuration;
        client_DisableKeepAlives := DisableKeepAlives configuration;
        cookie_dedup := true;
        Jar := None |}, "https", None)
  else
    ({| http_Timeout := HttpTimeout configuration;
        TLSClientConfig := None;
        client_DialContext := DialContext configuration;
        client_DisableKeepAlives := DisableKeepAlives configuration;
        cookie_dedup := true;
        Jar := None |}, "http", None).

Definition with_Jar (h : HttpClient) (jar : option nat) : HttpClient :=
  {| http_Timeout := http_Timeout h;
     TLSClientConfig := TLSClientConfig h;
     client_DialContext := client_DialContext h;
     client_DisableKeepAlives := client_DisableKeepAlives h;
     cookie_dedup := cookie_dedup h;
     Jar := jar |}.

(** [THttpClient.SetHeader] *)
Definition SetHeader (headers : list (string * string)) (key value : string)
  : list (string * string) :=
  (key, value) :: filter (fun kv => negb (String.eqb (fst kv) key)) headers.

(** Lines 201-235 of [innerConnect]: the socket, from the dial hook or
    opened directly.  Every read of [configuration] here goes through
    the pointer. *)
Definition connect_socket (ctx : Context) (addr : string)
           (configuration : option ConnectConfiguration) (w : World)
  : outcome (option TTransport * option error * World) :=
  cfg <- deref configuration ;;
  match DialContext cfg with
  | Some dialFn =>
      let '(netConn, err, s) := dial ctx addr dialFn (ConnectTimeout cfg) (server w) in
      let w := with_server w s in
      match err with
      | Some e => Ok (None, Some (errors_New e), w)
      | None =>
          if is_set (TLSConfig cfg) then
            Ok (Some (TSocketFromConn netConn
                        {| conf_ConnectTimeout := ConnectTimeout cfg;
                           conf_SocketTimeout := SocketTimeout cfg;
                           conf_TLSConfig := TLSConfig cfg |} true), None, w)
          else
            Ok (Some (TSocketFromConn netConn
                        {| conf_ConnectTimeout := ConnectTimeout cfg;
                           conf_SocketTimeout := SocketTimeout cfg;
                           conf_TLSConfig := None |} false), None, w)
      end
  | None =>
      let socket :=
        if is_set (TLSConfig cfg) then
          TSocket addr {| conf_ConnectTimeout := ConnectTimeout cfg;
                          conf_SocketTimeout := SocketTimeout cfg;
                          conf_TLSConfig := TLSConfig cfg |} true
        else
          TSocket addr {| conf_ConnectTimeout := ConnectTimeout cfg;
                          conf_SocketTimeout := SocketTimeout cfg;
                          conf_TLSConfig := None |} false in
      let '(err, s) := transport_Open env socket (server w) in
      let w := with_server w s in
      match err with
      | Some e => Ok (Some socket, Some (errors_New e), w)
      | None => Ok (Some socket, None, w)
      end
  end.

(** Lines 242-252: the defaults of the user name and the password. *)
Definition connect_credentials (configuration : ConnectConfiguration) (w : World)
  : outcome (ConnectConfiguration * option error) :=
  ' (configuration, err) <-
    (if String.eqb (Username configuration) "" then
       let '(_user, err) := user_Current env (server w) in
       match err with
       | Some _ => Ok (configuration, Some (errors_New "Can't determine the username"))
       | None =>
           name <- deref _user ;;
           Ok (with_credentials configuration (remove_spaces name)
                                (Password configuration), None)
       end
     else Ok (configuration, None)) ;;
  match err with
  | Some e => Ok (configuration, Some e)
  | None =>
      if String.eqb (Password configuration) "" then
        Ok (with_credentials configuration (Username configuration) "x", None)
      else Ok (configuration, None)
  end.

(** Lines 254-342: the transport for [(TransportMode, auth)].  The
    URL is written as [Sprintf] renders it when the protocol and the
    HTTP path hold no formatting verb.  [NewTBufferedTransport] returns
    a non-nil transport, so the nil test that follows it in the source
    never fires. *)
Definition connect_transport (host : string) (port : Z) (auth : string)
           (configuration : ConnectConfiguration) (socket : option TTransport)
           (w : World) : outcome (option TTransport * option error * World) :=
  if String.eqb (TransportMode configuration) "http" then
    if String.eqb auth "NONE" then
      let '(httpClient, protocol, err) := getHTTPClient configuration in
      match err with
      | Some e => Ok (None, Some e, w)
      | None =>
          let '(jar, err) := cookiejar_New env (server w) in
          let httpClient := with_Jar httpClient jar in
          match err with
          | Some e => Ok (None, Some (errors_New e), w)
          | None =>
              sock <- deref socket ;;
              let '(transport, err) :=
                http_GetTransport env
                  (protocol ++ "://" ++ QueryEscape env (Username configuration)
                   ++ ":" ++ QueryEscape env (Password configuration)
                   ++ "@" ++ host ++ ":" ++ fmt_d port ++ "/"
                   ++ HTTPPath configuration)%string
                  httpClient sock (server w) in
              match err with
              | Some e => Ok (None, Some (errors_New e), w)
              | None => Ok (transport, None, w)
              end
          end
      end
    else if String.eqb auth "KERBEROS" then
      let '(mechanism, err) := NewGSSAPIMechanism env (Service configuration) (server w) in
      match err with
      | Some e => Ok (None, Some (errors_New e), w)
      | None =>
          mech <- deref mechanism ;;
          let '(token, err, s) := saslClient_Start env host mech (server w) in
          let w := with_server w s in
          match err with
          | Some e => Ok (None, Some (errors_New e), w)
          | None =>
              if len token =? 0 then
                Ok (None, Some (errors_New
                  "Gssapi init context returned an empty token. Probably the service is empty in the configuration"), w)
              else
                let '(httpClient, protocol, err) := getHTTPClient configuration in
                match err with
                | Some e => Ok (None, Some e, w)
                | None =>
                    let '(jar, err) := cookiejar_New env (server w) in
                    let httpClient := with_Jar httpClient jar in
                    match err with
                    | Some e => Ok (None, Some (errors_New e), w)
                    | None =>
                        sock <- deref socket ;;
                        let '(transport, err) :=
                          http_GetTransport env
                            (protocol ++ "://" ++ host ++ ":" ++ fmt_d port ++ "/"
                             ++ HTTPPath configuration)%string
                            httpClient sock (server w) in
                        let transport :=
                          match transport with
                          | Some (THttpClient url opts headers) =>
                              Some (THttpClient url opts
                                      (SetHeader headers "Authorization"
                                         ("Negotiate " ++ base64_EncodeToString env token)%string))
                          | other => other
                          end in
                        match err with
                        | Some e => Ok (None, Some (errors_New e), w)
                        | None => Ok (transport, None, w)
                        end
                    end
                end
          end
      end
    else Panic "Unrecognized auth"
  else if String.eqb (TransportMode configuration) "binary" then
    ' (transport, err) <-
      (if String.eqb auth "NOSASL" then
         sock <- deref socket ;;
         Ok (Some (TBufferedTransport sock 4096), None)
       else if String.eqb auth "NONE" || String.eqb auth "LDAP"
               || String.eqb auth "CUSTOM" then
         sock <- deref socket ;;
         let saslConfiguration :=
           [("username", Username configuration);
            ("password", Password configuration)] in
         let '(transport, err) :=
           NewTSaslTransport env sock host "PLAIN" saslConfiguration
                             (MaxSize configuration) (server w) in
         Ok (transport, opt_error err)
       else if String.eqb auth "KERBEROS" then
         sock <- deref socket ;;
         let saslConfiguration := [("service", Service configuration)] in
         let '(transport, err) :=
           NewTSaslTransport env sock host "GSSAPI" saslConfiguration
                             (MaxSize configuration) (server w) in
         Ok (transport, opt_error err)
       else if String.eqb auth "DIGEST-MD5" then
         sock <- deref socket ;;
         let saslConfiguration :=
           [("username", Username configuration);
            ("password", Password configuration);
            ("service", Service configuration)] in
         let '(transport, err) :=
           NewTSaslTransport env sock host "DIGEST-MD5" saslConfiguration
                             (MaxSize configuration) (server w) in
         Ok (transport, opt_error err)
       else Panic "Unrecognized auth") ;;
    match err with
    | Some e => Ok (None, Some e, w)
    | None =>
        t <- deref transport ;;
        if negb (transport_IsOpen env t (server w)) then
          let '(err, s) := transport_Open env t (server w) in
          let w := with_server w s in
          match err with
          | Some e => Ok (None, Some (errors_New e), w)
          | None => Ok (transport, None, w)
          end
        else Ok (transport, None, w)
    end
  else Panic ("Unrecognized transport mode " ++ TransportMode configuration)%string.

(** Lines 344-383: the RPC client, [OpenSession], and the initial
    database.  The deferred [cursor.Close()] runs once the result is
    fixed. *)
Definition connect_session (fuel : nat) (host : string) (port : Z) (auth : string)
           (configuration : ConnectConfiguration) (transport : option TTransport)
           (w : World) : outcome (option Connection * option error * World) :=
  let client := {| client_transport := transport |} in
  let openSession :=
    {| ClientProtocol := HIVE_CLI_SERVICE_PROTOCOL_V6;
       open_Configuration := HiveConfiguration configuration;
       open_Username := Some (Username configuration);
       open_Password := Some (Password configuration) |} in
  let '(response, err, s) := OpenSession env client ctx_Background openSession (server w) in
  let w := with_server w s in
  match err with
  | Some e => Ok (None, Some (errors_New e), w)
  | None =>
      let database :=
        if String.eqb (Database configuration) "" then "default"
        else Database configuration in
      r <- deref response ;;
      let connection :=
        {| host := host;
           port := port;
           username := "";
           database := database;
           auth := auth;
           kerberosServiceName := "";
           password := "";
           sessionHandle := open_SessionHandle r;
           client := Some client;
           configuration := Some configuration;
           transport := transport |} in
      if negb (String.eqb (Database configuration) "") then
        let cursor := Connection_Cursor connection in
        ' (cursor, w) <-
          Exec fuel ctx_Background ("USE " ++ Database configuration)%string cursor w ;;
        let result := Err cursor in
        ' (_, w) <- Cursor_Close cursor w ;;
        match result with
        | Some e => Ok (None, Some e, w)
        | None => Ok (Some connection, None, w)
        end
      else Ok (Some connection, None, w)
  end.

(** [innerConnect].  The socket is built from [configuration] before
    the test [configuration == nil] that would substitute the
    defaults. *)
Definition innerConnect (fuel : nat) (ctx : Context) (host : string) (port : Z)
           (auth : string) (configuration : option ConnectConfiguration) (w : World)
  : outcome (option Connection * option error * World) :=
  let addr := (host ++ ":" ++ fmt_d port)%string in
  ' (socket, err, w) <- connect_socket ctx addr configuration w ;;
  match err with
  | Some e => Ok (None, Some e, w)
  | None =>
      let configuration :=
        match configuration with
        | None => NewConnectConfiguration
        | Some cfg => cfg
        end in
      ' (configuration, err) <- connect_credentials configuration w ;;
      match err with
      | Some e => Ok (None, Some e, w)
      | None =>
          ' (transport, err, w) <-
            connect_transport host port auth configuration socket w ;;
          match err with
          | Some e => Ok (None, Some e, w)
          | None => connect_session fuel host port auth configuration transport w
          end
      end
  end.

(** [Connect] *)
Definition Connect (fuel : nat) (host : string) (port : Z) (auth : string)
           (configuration : option ConnectConfiguration) (w : World)
  : outcome (option Connection * option error * World) :=
  innerConnect fuel ctx_TODO host port auth configuration w.

End Client.

Arguments World : clear implicits.
Arguments Env : clear implicits.
Arguments ExecuteStatement {S} _.
Arguments GetOperationStatus {S} _.
Arguments FetchResults {S} _.
Arguments CancelOperation {S} _.
Arguments CloseOperation {S} _.
Arguments CloseSession {S} _.
Arguments OpenSession {S} _.
Arguments Sleep {S} _.
Arguments call_DialContext {S} _.
Arguments transport_Open {S} _.
Arguments transport_IsOpen {S} _.
Arguments transport_Close {S} _.
Arguments user_Current {S} _.
Arguments cookiejar_New {S} _.
Arguments http_GetTransport {S} _.
Arguments NewGSSAPIMechanism {S} _.
Arguments saslClient_Start {S} _.
Arguments NewTSaslTransport {S} _.
Arguments QueryEscape {S} _.
Arguments base64_EncodeToString {S} _.
Arguments resetState {S}.
Arguments Cursor_Close {S}.
Arguments Cancel {S}.
Arguments Poll {S}.
Arguments FetchLogs {S}.
Arguments pollWorker {S}.
Arguments pollUntilData {S}.
Arguments HasMore {S}.
Arguments fetchIfEmpty {S}.
Arguments FetchOne {S}.
Arguments WaitForCompletion_loop {S}.
Arguments WaitForCompletion {S}.
Arguments executeAsync {S}.
Arguments handleDoneContext {S}.
Arguments Execute {S}.
Arguments Exec {S}.
Arguments Connection_Close {S}.
Arguments dial {S}.
Arguments connect_socket {S}.
Arguments connect_credentials {S}.
Arguments connect_transport {S}.
Arguments connect_session {S}.
Arguments innerConnect {S}.
Arguments Connect {S}.
Arguments mkWorld {S} _ _.
Arguments server {S} _.
Arguments sent {S} _.
Arguments with_server {S} _ _.
Arguments send {S} _ _ _.

(** ** Call sequences

    Consecutive calls on one cursor, each with its own context (and,
    for [FetchOne], its own destinations).  The results of the calls
    are collected in order. *)

Section Sequences.

Variable S : Type.
Variable env : Env S.

Fixpoint HasMore_calls (calls : list (nat * Context)) (c : Cursor) (w : World S)
  : outcome (list bool * Cursor * World S) :=
  match calls with
  | [] => Ok ([], c, w)
  | (fuel, ctx) :: calls' =>
      ' (b, c, w) <- HasMore env fuel ctx c w ;;
      ' (bs, c, w) <- HasMore_calls calls' c w ;;
      Ok (b :: bs, c, w)
  end.

(** The error slot after each call. *)
Fixpoint FetchOne_calls (calls : list (nat * Context * list dest))
         (c : Cursor) (w : World S) : outcome (list (option error) * Cursor * World S) :=
  match calls with
  | [] => Ok ([], c, w)
  | (fuel, ctx, dests) :: calls' =>
      ' (_, c1, w) <- FetchOne env fuel ctx dests c w ;;
      ' (errs, c, w) <- FetchOne_calls calls' c1 w ;;
      Ok (Err c1 :: errs, c, w)
  end.

End Sequences.

(** ** Vocabulary of the statements *)

(** Some member of the union is populated. *)
Definition is_populated (el : TColumn) : bool :=
  IsSetBinaryVal el || IsSetByteVal el || IsSetI16Val el || IsSetI32Val el
  || IsSetI64Val el || IsSetBoolVal el || IsSetDoubleVal el || IsSetStringVal el.

(** [n] is the length of a populated value vector of [el]. *)
Definition populated_length (el : TColumn) (n : Z) : Prop :=
  (exists v, BinaryVal el = Some v /\ n = len (Values v))
  \/ (exists v, ByteVal el = Some v /\ n = len (Values v))
  \/ (exists v, I16Val el = Some v /\ n = len (Values v))
  \/ (exists v, I32Val el = Some v /\ n = len (Values v))
  \/ (exists v, I64Val el = Some v /\ n = len (Values v))
  \/ (exists v, BoolVal el = Some v /\ n = len (Values v))
  \/ (exists v, DoubleVal el = Some v /\ n = len (Values v))
  \/ (exists v, StringVal el = Some v /\ n = len (Values v)).

(** The message of a failed operation, in the words of the
    specification: the task status unless it is absent or "[]";
    otherwise the error message of the response; otherwise the error
    message of the nested status; otherwise a placeholder. *)
Definition spec_preferred_message (os : TGetOperationStatusResp)
           (st : TOperationState) : string :=
  let nested :=
    match poll_Status os with
    | Some s =>
        match ErrorMessage s with
        | Some m => m
        | None => placeholder_message st
        end
    | None => placeholder_message st
    end in
  let otherwise :=
    match poll_ErrorMessage os with
    | Some m => m
    | None => nested
    end in
  match TaskStatus os with
  | Some t => if String.eqb t "[]" then otherwise else t
  | None => otherwise
  end.

(** The table of the specification: the pairs of transport mode and
    authentication for which a transport is built. *)
Definition supported_combination (mode auth : string) : bool :=
  (String.eqb mode "binary"
   && (String.eqb auth "NOSASL" || String.eqb auth "NONE" || String.eqb auth "LDAP"
       || String.eqb auth "CUSTOM" || String.eqb auth "KERBEROS"
       || String.eqb auth "DIGEST-MD5"))
  || (String.eqb mode "http"
      && (String.eqb auth "NONE" || String.eqb auth "KERBEROS")).

(** The text of the panic for a pair outside the table. *)
Definition unrecognized_message (mode : string) : string :=
  if String.eqb mode "http" || String.eqb mode "binary" then "Unrecognized auth"
  else ("Unrecognized transport mode " ++ mode)%string.

(** The kind of the value vector that [FetchOne] reads from a column:
    the first populated member in the order of its dispatch. *)
Definition column_kind (col : TColumn) : option GoKind :=
  if IsSetBinaryVal col then Some KBinary
  else if IsSetByteVal col then Some KByte
  else if IsSetI16Val col then Some KI16
  else if IsSetI32Val col then Some KI32
  else if IsSetI64Val col then Some KI64
  else if IsSetStringVal col then Some KString
  else if IsSetDoubleVal col then Some KDouble
  else if IsSetBoolVal col then Some KBool
  else None.

Definition column_vector (col : TColumn) (k : GoKind) : option (TCol (GoVal k)) :=
  match k with
  | KBinary => BinaryVal col
  | KByte => ByteVal col
  | KI16 => I16Val col
  | KI32 => I32Val col
  | KI64 => I64Val col
  | KString => StringVal col
  | KDouble => DoubleVal col
  | KBool => BoolVal col
  end.

(** The destination types that match a vector of kind [k]: nil, [*T],
    and, except for binary, [**T]. *)
Definition matches_kind (k : GoKind) (d : dest) : bool :=
  match d with
  | dest_nil => true
  | dest_ptr k' _ => GoKind_eqb k' k
  | dest_ptrptr k' _ => GoKind_eqb k' k && negb (GoKind_eqb k KBinary)
  | dest_value _ _ | dest_other _ => false
  end.

Definition no_more_rows : error := errors_New "No more rows are left".

(** The cursor states on which [HasMore] answers [b] without polling. *)
Definition settled (c : Cursor) (b : bool) : Prop :=
  Err c = None
  /\ (is_set (response c) = true \/ state c = _FINISHED)
  /\ (totalRows c = columnIndex c -> state c = _FINISHED)
  /\ b = negb (state c =? _FINISHED) || negb (totalRows c =? columnIndex c).

(** ** Concrete batches, servers and cursors used as examples *)

Definition ragged_batch : list TColumn :=
  [ {| BoolVal := None; ByteVal := None; I16Val := None;
       I32Val := Some {| Values := [1; 2; 3]; Nulls := [0] |};
       I64Val := None; DoubleVal := None; StringVal := None; BinaryVal := None |};
    {| BoolVal := None; ByteVal := None; I16Val := None; I32Val := None;
       I64Val := None; DoubleVal := None;
       StringVal := Some {| Values := ["1"]; Nulls := [0] |};
       BinaryVal := None |} ].

Definition ok_status : TStatus :=
  {| StatusCode := SUCCESS_STATUS; InfoMessages := []; SqlState := None;
     ErrorCode := None; ErrorMessage := None |}.

Definition empty_column : TColumn := mkTColumn None None None None None None None None.

Definition i32_column (values : list Z) (nulls : list byte) : TColumn :=
  {| BoolVal := None; ByteVal := None; I16Val := None;
     I32Val := Some {| Values := values; Nulls := nulls |};
     I64Val := None; DoubleVal := None; StringVal := None; BinaryVal := None |}.

Definition string_column (values : list string) (nulls : list byte) : TColumn :=
  {| BoolVal := None; ByteVal := None; I16Val := None; I32Val := None;
     I64Val := None; DoubleVal := None;
     StringVal := Some {| Values := values; Nulls := nulls |};
     BinaryVal := None |}.

(** A batch of the table [(a INT, b STRING)]. *)
Definition batch (a : list Z) (b : list string) : TFetchResultsResp :=
  {| fetch_Status := Some ok_status;
     HasMoreRows := Some false;
     Results := Some {| Columns := [i32_column a [0]; string_column b [0]] |} |}.

(** A server given by its answers.  The state counts the calls of
    [FetchResults]. *)
Record Script : Type := mkScript {
  on_execute : option TExecuteStatementResp * option string;
  on_poll : option TGetOperationStatusResp * option string;
  on_fetch : nat -> option TFetchResultsResp * option string;
  on_close_session : option TStatusResp * option string;
  on_transport_open : option string;
  on_transport_close : option string
}.

Definition script_env (sc : Script) : Env nat :=
  {| ExecuteStatement := fun _ _ _ s => (fst (on_execute sc), snd (on_execute sc), s);
     GetOperationStatus := fun _ _ _ s => (fst (on_poll sc), snd (on_poll sc), s);
     FetchResults := fun _ _ _ s => (fst (on_fetch sc s), snd (on_fetch sc s), Datatypes.S s);
     CancelOperation := fun _ _ _ s => (Some {| resp_Status := Some ok_status |}, None, s);
     CloseOperation := fun _ _ _ s => (Some {| resp_Status := Some ok_status |}, None, s);
     CloseSession := fun _ _ _ s =>
       (fst (on_close_session sc), snd (on_close_session sc), s);
     OpenSession := fun _ _ _ s =>
       (Some {| open_Status := Some ok_status;
                open_SessionHandle := Some {| SessionId := 1 |} |}, None, s);
     Sleep := fun _ s => s;
     call_DialContext := fun _ _ _ _ s => (Some {| conn_id := 0 |}, None, s);
     transport_Open := fun _ s => (on_transport_open sc, s);
     transport_IsOpen := fun _ _ => false;
     transport_Close := fun _ s => (on_transport_close sc, s);
     user_Current := fun _ => (Some "hive user", None);
     cookiejar_New := fun _ => (Some 0%nat, None);
     http_GetTransport := fun url opts _ _ => (Some (THttpClient url opts []), None);
     NewGSSAPIMechanism := fun _ _ => (Some 0%nat, None);
     saslClient_Start := fun _ _ s => ([1], None, s);
     NewTSaslTransport := fun sock host mech conf maxLength _ =>
       (Some (TSaslTransport sock host mech conf maxLength), None);
     QueryEscape := fun x => x;
     base64_EncodeToString := fun _ => "" |}.

Definition select_handle : TOperationHandle :=
  {| OperationId := 7; HasResultSet := true |}.

Definition finished_poll : TGetOperationStatusResp :=
  {| poll_Status := Some ok_status;
     OperationState := Some FINISHED_STATE;
     poll_ErrorMessage := None;
     TaskStatus := None |}.

(** A healthy server for a [SELECT] whose result arrives as the
    batches [fetches] describes. *)
Definition select_script (fetches : nat -> option TFetchResultsResp * option string)
  : Script :=
  {| on_execute :=
       (Some {| exec_Status := Some ok_status;
                exec_OperationHandle := Some select_handle |}, None);
     on_poll := (Some finished_poll, None);
     on_fetch := fetches;
     on_close_session := (Some {| resp_Status := Some ok_status |}, None);
     on_transport_open := None;
     on_transport_close := None |}.

Definition example_socket : TTransport :=
  TSocket "hs2.example.com:10000"
          {| conf_ConnectTimeout := 0; conf_SocketTimeout := 0; conf_TLSConfig := None |}
          false.

Definition example_connection : Connection :=
  {| host := "hs2.example.com";
     port := 10000;
     username := "";
     database := "default";
     auth := "NONE";
     kerberosServiceName := "";
     password := "";
     sessionHandle := Some {| SessionId := 1 |};
     client := Some {| client_transport := Some example_socket |};
     configuration := Some NewConnectConfiguration;
     transport := Some example_socket |}.

Definition initial_world : World nat := mkWorld 0%nat [].

(** The first fetch fails in the transport, the next returns the empty
    batch of an empty table. *)
Definition flaky_fetches (n : nat) : option TFetchResultsResp * option string :=
  match n with
  | O => (None, Some "read tcp: i/o timeout")
  | _ => (Some (batch [] []), None)
  end.

(** Four rows served two at a time. *)
Definition paged_fetches (n : nat) : option TFetchResultsResp * option string :=
  match n with
  | O => (Some (batch [1; 2] ["1"; "2"]), None)
  | Datatypes.S O => (Some (batch [3; 4] ["3"; "4"]), None)
  | _ => (Some (batch [] []), None)
  end.

(** An empty table: every fetch returns the empty batch. *)
Definition empty_fetches (n : nat) : option TFetchResultsResp * option string :=
  (Some (batch [] []), None).

Definition empty_table_env : Env nat := script_env (select_script empty_fetches).
Definition flaky_env : Env nat := script_env (select_script flaky_fetches).
Definition paged_env : Env nat := script_env (select_script paged_fetches).

(** The cursor and the world after a synchronous [Exec] of a query. *)
Definition executed (env : Env nat) : Cursor * World nat :=
  match Exec env 5 ctx_Background "SELECT * FROM t"
             (Connection_Cursor example_connection) initial_world with
  | Ok cw => cw
  | _ => (Connection_Cursor example_connection, initial_world)
  end.

(** ... and after one more call of [HasMore]. *)
Definition asked_once (env : Env nat) : bool * Cursor * World nat :=
  match HasMore env 1 ctx_Background (fst (executed env)) (snd (executed env)) with
  | Ok r => r
  | _ => (false, fst (executed env), snd (executed env))
  end.

(** A cursor that has read its whole result. *)
Definition drained_cursor : Cursor :=
  with_state (Connection_Cursor example_connection) _FINISHED.

(** The server rejects the statement: table not found. *)
Definition table_not_found : TStatus :=
  {| StatusCode := ERROR_STATUS;
     InfoMessages := [];
     SqlState := Some "42S02";
     ErrorCode := Some 10001;
     ErrorMessage := Some "Error while compiling statement: FAILED: SemanticException [Error 10001]: Line 1:14 Table not found 'table_doesnt_exist'" |}.

Definition rejecting_script : Script :=
  {| on_execute := (Some {| exec_Status := Some table_not_found;
                            exec_OperationHandle := None |}, None);
     on_poll := (Some finished_poll, None);
     on_fetch := fun _ => (Some (batch [] []), None);
     on_close_session := (Some {| resp_Status := Some ok_status |}, None);
     on_transport_open := None;
     on_transport_close := None |}.

(** The operation ends in [ERROR_STATE]; the task status is the empty
    list and the response carries an error message. *)
Definition failed_poll : TGetOperationStatusResp :=
  {| poll_Status := Some ok_status;
     OperationState := Some ERROR_STATE;
     poll_ErrorMessage := Some "Error while processing statement: FAILED";
     TaskStatus := Some "[]" |}.

Definition failing_script : Script :=
  {| on_execute :=
       (Some {| exec_Status := Some ok_status;
                exec_OperationHandle := Some select_handle |}, None);
     on_poll := (Some failed_poll, None);
     on_fetch := fun _ => (Some (batch [] []), None);
     on_close_session := (Some {| resp_Status := Some ok_status |}, None);
     on_transport_open := None;
     on_transport_close := None |}.

Definition submitted_cursor : Cursor :=
  with_operationHandle (Connection_Cursor example_connection) (Some select_handle).

(** Both steps of closing a session fail. *)
Definition broken_close_script : Script :=
  {| on_execute := (None, Some "EOF");
     on_poll := (None, Some "EOF");
     on_fetch := fun _ => (None, Some "EOF");
     on_close_session := (None, Some "write tcp: broken pipe");
     on_transport_open := None;
     on_transport_close := Some "close tcp: use of closed network connection" |}.

Definition unknown_mode_configuration : ConnectConfiguration :=
  {| Username := "hive";
     Principal := "";
     Password := "secret";
     Service := "";
     HiveConfiguration := None;
     PollIntervalInMillis := 200;
     FetchSize := DEFAULT_FETCH_SIZE;
     TransportMode := "zookeeper";
     HTTPPath := "cliservice";
     TLSConfig := None;
     ZookeeperNamespace := ZOOKEEPER_DEFAULT_NAMESPACE;
     Database := "";
     ConnectTimeout := 0;
     SocketTimeout := 0;
     HttpTimeout := 0;
     DialContext := None;
     DisableKeepAlives := false;
     MaxSize := DEFAULT_MAX_LENGTH |}.

(** The first batch of two rows has been read with matching
    destinations. *)
Definition two_rows_read : Cursor * World nat :=
  match
    ' (_, c, w) <- FetchOne paged_env 1 ctx_Background
                     [dest_ptr KI32 0; dest_ptr KString ""]
                     (fst (executed paged_env)) (snd (executed paged_env)) ;;
    ' (_, c, w) <- FetchOne paged_env 1 ctx_Background
                     [dest_ptr KI32 0; dest_ptr KString ""] c w ;;
    Ok (c, w)
  with
  | Ok cw => cw
  | _ => executed paged_env
  end.

(** The first batch, loaded by [fetchIfEmpty] on the executed cursor. *)
Definition first_batch_loaded : Cursor * World nat :=
  match fetchIfEmpty paged_env 1 ctx_Background
                     (fst (executed paged_env)) (snd (executed paged_env)) with
  | Ok cw => cw
  | _ => executed paged_env
  end.

(** * Further operations of hive.go *)

(** ** Discovery: parsing the names of the server nodes *)

(** [strings.Split(s, sep)] for a separator of one character, which is
    how hive.go calls it.  The result is never empty: a string without
    the separator, the empty string included, yields itself. *)
Fixpoint Split (s : string) (sep : ascii) : list string :=
  match s with
  | EmptyString => [EmptyString]
  | String a s' =>
      if Ascii.eqb a sep then EmptyString :: Split s' sep
      else match Split s' sep with
           | x :: xs => String a x :: xs
           | [] => [String a EmptyString]
           end
  end.

(** A Go [map[string]V]: at most one entry per key; what is observed
    is the lookup and the number of entries. *)
Definition gomap (V : Type) : Type := list (string * V).

Fixpoint map_get {V : Type} (m : gomap V) (k : string) : option V :=
  match m with
  | [] => None
  | (k', v) :: m' => if String.eqb k' k then Some v else map_get m' k
  end.

(** [m[k] = v] *)
Definition map_set {V : Type} (m : gomap V) (k : string) (v : V) : gomap V :=
  (k, v) :: filter (fun kv => negb (String.eqb (fst kv) k)) m.

(** [m[k]] for a map of strings: a missing key reads as "". *)
Definition map_string (m : gomap string) (k : string) : string :=
  match map_get m k with
  | Some v => v
  | None => ""
  end.

(** The inner loop of [parseHiveServer2Info] over the parameters of
    one node name; [break] leaves the node and the flag as they are. *)
Fixpoint parse_params (params : list string) (node : gomap string)
         (validFormat : bool) : gomap string * bool :=
  match params with
  | [] => (node, validFormat)
  | param :: rest =>
      match Split param "="%char with
      | k :: v :: _ =>
          if String.eqb k "serverUri" then
            match Split v ":"%char with
            | [h; p] =>
                let node := map_set node "host" h in
                let node := map_set node "port" p in
                let validFormat :=
                  negb (Z.of_nat (String.length (map_string node "host")) =? 0)
                  && negb (Z.of_nat (String.length (map_string node "port")) =? 0) in
                parse_params rest node validFormat
            | _ => (node, validFormat)
            end
          else parse_params rest (map_set node k v) validFormat
      | _ => (node, validFormat)
      end
  end.

(** [parseHiveServer2Info]: the nodes are collected in the order of the
    names, which is what slicing the preallocated [results] at
    [actualCount] returns. *)
Fixpoint parseHiveServer2Info (hsInfos : list string) : list (gomap string) :=
  match hsInfos with
  | [] => []
  | hsInfo :: rest =>
      let '(node, validFormat) := parse_params (Split hsInfo ";"%char) [] false in
      if validFormat then node :: parseHiveServer2Info rest
      else parseHiveServer2Info rest
  end.

(** ** Cookie de-duplication *)

(** A request is known here by the cookies it carries, in the order of
    its [Cookie] header. *)
Definition Cookie : Type := (string * string)%type.

(** The first loop of [CookieDedupTransport.RoundTrip]. *)
Definition cookie_map (cookies : list Cookie) : gomap string :=
  fold_left (fun cookieMap cookie => map_set cookieMap (fst cookie) (snd cookie))
            cookies [].

Section CookieDedup.

(** The order in which [range] visits a map is not specified by Go: it
    is some rearrangement of the entries. *)
Variable range_order : gomap string -> gomap string.

(** The cookies of the request that [RoundTrip] hands to the wrapped
    round tripper: the header is emptied, then one cookie is added per
    entry of the map. *)
Definition RoundTrip_cookies (cookies : list Cookie) : list Cookie :=
  let cookieMap := cookie_map cookies in
  fold_left (fun added kv => added ++ [(fst kv, snd kv)]) (range_order cookieMap) [].

(** [CookieDedupTransport.RoundTrip]; [roundTripper] is the wrapped
    [http.RoundTripper], whose result is returned as it is. *)
Definition CookieDedup_RoundTrip {Req Resp W : Type}
           (set_cookies : Req -> list Cookie -> Req)
           (get_cookies : Req -> list Cookie)
           (roundTripper : Req -> W -> Resp * W) (req : Req) (w : W) : Resp * W :=
  roundTripper (set_cookies req (RoundTrip_cookies (get_cookies req))) w.

End CookieDedup.

(** ** Vocabulary for node names *)

(** [c] occurs in [s]. *)
Fixpoint has_char (c : ascii) (s : string) : bool :=
  match s with
  | EmptyString => false
  | String a s' => Ascii.eqb a c || has_char c s'
  end.

(** Free of the three separators of a node name. *)
Definition plain (s : string) : bool :=
  negb (has_char ";"%char s) && negb (has_char "="%char s)
  && negb (has_char ":"%char s).

(** The key of a parameter [key=value]. *)
Definition param_key (param : string) : string :=
  hd "" (Split param "="%char).

(** [;key=value;key=value...] *)
Fixpoint render_params (extra : list (string * string)) : string :=
  match extra with
  | [] => ""
  | (k, v) :: extra' => (";" ++ k ++ "=" ++ v ++ render_params extra')%string
  end.

(** A node name as the servers register it. *)
Definition render_info (host port : string) (extra : list (string * string)) : string :=
  ("serverUri=" ++ host ++ ":" ++ port ++ render_params extra)%string.

(** A further parameter that the parser stores under its own key. *)
Definition plain_param (kv : string * string) : bool :=
  negb (has_char ";"%char (fst kv)) && negb (has_char "="%char (fst kv))
  && negb (has_char ";"%char (snd kv)) && negb (has_char "="%char (snd kv))
  && negb (String.eqb (fst kv) "serverUri")
  && negb (String.eqb (fst kv) "host") && negb (String.eqb (fst kv) "port").

(** ** Further servers and cursors used as examples *)

(** [env] with other answers to [CancelOperation] and [CloseOperation]. *)
Definition with_cancel_close {S : Type} (env : Env S)
           (cancel close : option TStatusResp * option string) : Env S :=
  {| ExecuteStatement := ExecuteStatement env;
     GetOperationStatus := GetOperationStatus env;
     FetchResults := FetchResults env;
     CancelOperation := fun _ _ _ s => (fst cancel, snd cancel, s);
     CloseOperation := fun _ _ _ s => (fst close, snd close, s);
     CloseSession := CloseSession env;
     OpenSession := OpenSession env;
     Sleep := Sleep env;
     call_DialContext := call_DialContext env;
     transport_Open := transport_Open env;
     transport_IsOpen := transport_IsOpen env;
     transport_Close := transport_Close env;
     user_Current := user_Current env;
     cookiejar_New := cookiejar_New env;
     http_GetTransport := http_GetTransport env;
     NewGSSAPIMechanism := NewGSSAPIMechanism env;
     saslClient_Start := saslClient_Start env;
     NewTSaslTransport := NewTSaslTransport env;
     QueryEscape := QueryEscape env;
     base64_EncodeToString := base64_EncodeToString env |}.

Definition ok_response : option TStatusResp * option string :=
  (Some {| resp_Status := Some ok_status |}, None).

(** [CloseOperation] fails in the transport. *)
Definition close_fails_env : Env nat :=
  with_cancel_close paged_env ok_response (None, Some "write tcp: broken pipe").

(** A statement without a result set. *)
Definition ddl_handle : TOperationHandle :=
  {| OperationId := 8; HasResultSet := false |}.

Definition ddl_script : Script :=
  {| on_execute :=
       (Some {| exec_Status := Some ok_status;
                exec_OperationHandle := Some ddl_handle |}, None);
     on_poll := (Some finished_poll, None);
     on_fetch := fun _ => (None, Some "Expected state FINISHED, but found CLOSED");
     on_close_session := ok_response;
     on_transport_open := None;
     on_transport_close := None |}.

Definition ddl_env : Env nat := script_env ddl_script.

(** A statement that keeps running. *)
Definition running_poll : TGetOperationStatusResp :=
  {| poll_Status := Some ok_status;
     OperationState := Some RUNNING_STATE;
     poll_ErrorMessage := None;
     TaskStatus := None |}.

Definition running_script : Script :=
  {| on_execute :=
       (Some {| exec_Status := Some ok_status;
                exec_OperationHandle := Some select_handle |}, None);
     on_poll := (Some running_poll, None);
     on_fetch := fun _ => (Some (batch [] []), None);
     on_close_session := ok_response;
     on_transport_open := None;
     on_transport_close := None |}.

Definition running_env : Env nat := script_env running_script.

(** ... whose cancellation fails. *)
Definition cancel_fails_env : Env nat :=
  with_cancel_close running_env (None, Some "write tcp: broken pipe") ok_response.

(** The result of a call that returns, with a default for the cases
    that the examples do not meet. *)
Definition returned {A : Type} (default : A) (r : outcome A) : A :=
  match r with
  | Ok a => a
  | _ => default
  end.

Definition fresh_cursor : Cursor := Connection_Cursor example_connection.

(** A cursor whose context was found done, with its operation still
    open. *)
Definition interrupted_cursor : Cursor :=
  with_state
    (with_Err submitted_cursor
       (Some (errors_New "Context was done before the query was executed")))
    _CONTEXT_DONE.

(** ** Vocabulary for rows *)

(** The value that [FetchOne] reads from a column at a row index, as
    the interface value it stores into a nil destination. *)
Definition value_at (col : TColumn) (index : Z) : option dest :=
  match column_kind col with
  | Some k =>
      match column_vector col k with
      | Some vec =>
          if index <? 0 then None
          else match nth_error (Values vec) (Z.to_nat index) with
               | Some v => Some (dest_value k v)
               | None => None
               end
      | None => None
      end
  | None => None
  end.

(** The row counters are in order. *)
Definition in_bounds (c : Cursor) : Prop :=
  0 <= columnIndex c <= totalRows c.

(** The state that a batch whose first column has no populated vector
    leaves behind. *)
Definition stuck (c : Cursor) : Prop :=
  is_set (response c) = true
  /\ columnIndex c = 0
  /\ totalRows c = -1
  /\ exists el rest, queue c = el :: rest /\ is_populated el = false.

(** A batch whose first column has no populated vector. *)
Definition unpopulated_batch : TFetchResultsResp :=
  {| fetch_Status := Some ok_status;
     HasMoreRows := Some false;
     Results := Some {| Columns := [empty_column; string_column ["1"] [0]] |} |}.

Definition unpopulated_env : Env nat :=
  script_env (select_script (fun _ => (Some unpopulated_batch, None))).

(** The first column of the batch has no populated vector. *)
Definition first_unpopulated (columns : list TColumn) : Prop :=
  exists el rest, columns = el :: rest /\ is_populated el = false.

(** The counters after a poll, whatever it reports: untouched, or
    those of a parsed batch. *)
Definition polled (c c1 : Cursor) (e : option error) : Prop :=
  (columnIndex c1 = columnIndex c /\ totalRows c1 = totalRows c)
  \/ (columnIndex c1 = 0
      /\ (0 <= totalRows c1
          \/ (totalRows c1 = -1 /\ e <> None /\ state c1 = _FINISHED
              /\ first_unpopulated (queue c1)))).

(** The counters out of order: what a batch with an unpopulated first
    column leaves, together with an error. *)
Definition out_of_order (c : Cursor) : Prop :=
  columnIndex c = 0 /\ totalRows c = -1 /\ Err c <> None /\ state c = _FINISHED
  /\ first_unpopulated (queue c).

(** ** Result set metadata *)

(** Modelled from the spec: the generated structures of
    [GetResultSetMetadata], the "ordered sequence of (column_name,
    column_type_tag) pairs derived once per operation from server
    metadata".  A type id is known by the text of its [String()], which
    is what hive.go stores and compares. *)
Record TPrimitiveTypeEntry : Type := mkTPrimitiveTypeEntry { Type_String : string }.

Record TTypeEntry : Type := mkTTypeEntry {
  PrimitiveEntry : option TPrimitiveTypeEntry
}.

Record TTypeDesc : Type := mkTTypeDesc { Types : list TTypeEntry }.

Record TColumnDesc : Type := mkTColumnDesc {
  ColumnName : string;
  TypeDesc : option TTypeDesc
}.

Record TTableSchema : Type := mkTTableSchema { schema_Columns : list TColumnDesc }.

Record TGetResultSetMetadataResp : Type := mkTGetResultSetMetadataResp {
  meta_Status : option TStatus;
  Schema : option TTableSchema
}.

(** The inner loop of [Description] over the type entries of one
    column: every entry overwrites [m[i]], so the last one stays. *)
Fixpoint describe_types (name : string) (types : list TTypeEntry) (mi : list string)
  : outcome (list string) :=
  match types with
  | [] => Ok mi
  | typeDesc :: rest =>
      p <- deref (PrimitiveEntry typeDesc) ;;
      describe_types name rest [name; Type_String p]
  end.

(** The outer loop of [Description]. *)
Fixpoint describe_columns (columns : list TColumnDesc) : outcome (list (list string)) :=
  match columns with
  | [] => Ok []
  | column :: rest =>
      td <- deref (TypeDesc column) ;;
      mi <- describe_types (ColumnName column) (Types td) [] ;;
      m <- describe_columns rest ;;
      Ok (mi :: m)
  end.

(** ** Rows as maps and slices *)

(** A Go [interface{}] holding a column value, or nil. *)
Inductive any : Type :=
| any_nil
| any_val (k : GoKind) (v : GoVal k).

(** [strings.TrimRight(s, cutset)] for a cutset of one character. *)
Fixpoint TrimRight (s : string) (c : ascii) : string :=
  match s with
  | EmptyString => EmptyString
  | String a s' =>
      match TrimRight s' c with
      | EmptyString => if Ascii.eqb a c then EmptyString else String a EmptyString
      | t => String a t
      end
  end.

(** What [RowSlice] does to a decimal. *)
Definition trim_decimal (v : string) : string :=
  if Contains v "." then TrimRight (TrimRight v "0"%char) "."%char else v.

(** One arm of the type dispatch of [RowMap] and [RowSlice]: nil if
    the bitmap flags the row, the value of the vector otherwise. *)
Definition read_nullable (k : GoKind) (vec : option (TCol (GoVal k)))
           (columnIndex : Z) (post : GoVal k -> GoVal k) : outcome (option any) :=
  col <- deref vec ;;
  null <- isNull (Nulls col) columnIndex ;;
  if null then Ok (Some any_nil)
  else v <- at_index (Values col) columnIndex ;;
       Ok (Some (any_val k (post v))).

(** The body of the loop of [RowMap] and of [RowSlice] for one column:
    the value to store, or [None] when no arm matches the type.  The
    two functions differ in the decimal arm only, where [RowSlice]
    passes [trim_decimal] as [decimal]. *)
Definition row_value (decimal : string -> string) (col : TColumn)
           (columnType : string) (columnIndex : Z) : outcome (option any) :=
  if String.eqb columnType "BOOLEAN_TYPE" then
    read_nullable KBool (BoolVal col) columnIndex (fun v => v)
  else if String.eqb columnType "TINYINT_TYPE" then
    read_nullable KByte (ByteVal col) columnIndex (fun v => v)
  else if String.eqb columnType "SMALLINT_TYPE" then
    read_nullable KI16 (I16Val col) columnIndex (fun v => v)
  else if String.eqb columnType "INT_TYPE" then
    read_nullable KI32 (I32Val col) columnIndex (fun v => v)
  else if String.eqb columnType "BIGINT_TYPE" then
    read_nullable KI64 (I64Val col) columnIndex (fun v => v)
  else if String.eqb columnType "FLOAT_TYPE" then
    read_nullable KDouble (DoubleVal col) columnIndex (fun v => v)
  else if String.eqb columnType "DOUBLE_TYPE" then
    read_nullable KDouble (DoubleVal col) columnIndex (fun v => v)
  else if String.eqb columnType "STRING_TYPE" || String.eqb columnType "VARCHAR_TYPE"
          || String.eqb columnType "CHAR_TYPE" then
    read_nullable KString (StringVal col) columnIndex (fun v => v)
  else if String.eqb columnType "TIMESTAMP_TYPE" then
    read_nullable KString (StringVal col) columnIndex (fun v => v)
  else if String.eqb columnType "DATE_TYPE" then
    read_nullable KString (StringVal col) columnIndex (fun v => v)
  else if String.eqb columnType "BINARY_TYPE" then
    read_nullable KBinary (BinaryVal col) columnIndex (fun v => v)
  else if String.eqb columnType "ARRAY_TYPE" then
    read_nullable KString (StringVal col) columnIndex (fun v => v)
  else if String.eqb columnType "MAP_TYPE" then
    read_nullable KString (StringVal col) columnIndex (fun v => v)
  else if String.eqb columnType "STRUCT_TYPE" then
    read_nullable KString (StringVal col) columnIndex (fun v => v)
  else if String.eqb columnType "UNION_TYPE" then
    read_nullable KString (StringVal col) columnIndex (fun v => v)
  else if String.eqb columnType "DECIMAL_TYPE" then
    read_nullable KString (StringVal col) columnIndex decimal
  else Ok None.

(** The loop of [RowMap]; [d] has as many entries as there are
    columns. *)
Fixpoint RowMap_loop (cols : list TColumn) (d : list (list string))
         (columnIndex : Z) (m : gomap any) : outcome (gomap any) :=
  match cols with
  | [] => Ok m
  | col :: cols' =>
      match d with
      | [] => Panic index_out_of_range
      | di :: d' =>
          columnName <- at_index di 0 ;;
          columnType <- at_index di 1 ;;
          v <- row_value (fun s => s) col columnType columnIndex ;;
          RowMap_loop cols' d' columnIndex
                      (match v with
                       | Some a => map_set m columnName a
                       | None => m
                       end)
      end
  end.

(** The loop of [RowSlice]; an element that no arm sets stays nil. *)
Fixpoint RowSlice_loop (cols : list TColumn) (d : list (list string))
         (columnIndex : Z) : outcome (list any) :=
  match cols with
  | [] => Ok []
  | col :: cols' =>
      match d with
      | [] => Panic index_out_of_range
      | di :: d' =>
          columnType <- at_index di 1 ;;
          v <- row_value trim_decimal col columnType columnIndex ;;
          m <- RowSlice_loop cols' d' columnIndex ;;
          Ok (match v with
              | Some a => a
              | None => any_nil
              end :: m)
      end
  end.

Section Metadata.

Variable S : Type.
Variable env : Env S.

(** The RPC [GetResultSetMetadata] of the client stub. *)
Variable GetResultSetMetadata :
  TCLIServiceClient -> Context -> option TOperationHandle -> S ->
  option TGetResultSetMetadataResp * option string * S.

(** [Cursor.Description].  A description that was computed is
    returned as it is; [None] is the nil slice. *)
Definition Description (c : Cursor) (w : World S)
  : outcome (option (list (list string)) * Cursor * World S) :=
  match description c with
  | Some d => Ok (Some d, c, w)
  | None =>
      let c :=
        if negb (is_set (operationHandle c)) then
          with_Err c (Some (errors_New
            "Description can only be called after after a Poll or after an async request"))
        else c in
      cl <- conn_client c ;;
      let '(metaResponse, err, s) :=
        GetResultSetMetadata cl ctx_Background (operationHandle c) (server w) in
      let w := with_server w s in
      match err with
      | Some _ => Ok (None, with_Err c (opt_error err), w)
      | None =>
          r <- deref metaResponse ;;
          st <- deref (meta_Status r) ;;
          if negb (TStatusCode_eqb (StatusCode st) SUCCESS_STATUS) then
            Ok (None,
                with_Err c (Some (status_error "" (safeStatus (meta_Status r)))), w)
          else
            schema <- deref (Schema r) ;;
            m <- describe_columns (schema_Columns schema) ;;
            Ok (Some m, with_description c (Some m), w)
      end
  end.

Definition description_or_nil (d : option (list (list string))) : list (list string) :=
  match d with
  | Some m => m
  | None => []
  end.

(** [Cursor.RowMap].  The boolean tells whether the warning about
    columns with the same name was logged. *)
Definition RowMap (fuel : nat) (ctx : Context) (c : Cursor) (w : World S)
  : outcome (option (gomap any) * bool * Cursor * World S) :=
  let c := with_Err c None in
  ' (c, w) <- fetchIfEmpty env fuel ctx c w ;;
  if is_set (Err c) then Ok (None, false, c, w)
  else
    ' (d, c, w) <- Description c w ;;
    let d := description_or_nil d in
    if is_set (Err c) || negb (len d =? len (queue c)) then Ok (None, false, c, w)
    else
      m <- RowMap_loop (queue c) d (columnIndex c) [] ;;
      Ok (Some m, negb (len m =? len d),
          with_columnIndex c (int_wrap (columnIndex c + 1)), w).

(** [Cursor.RowSlice] *)
Definition RowSlice (fuel : nat) (ctx : Context) (c : Cursor) (w : World S)
  : outcome (option (list any) * Cursor * World S) :=
  let c := with_Err c None in
  ' (c, w) <- fetchIfEmpty env fuel ctx c w ;;
  if is_set (Err c) then Ok (None, c, w)
  else
    ' (d, c, w) <- Description c w ;;
    let d := description_or_nil d in
    if is_set (Err c) || negb (len d =? len (queue c)) then Ok (None, c, w)
    else
      m <- RowSlice_loop (queue c) d (columnIndex c) ;;
      Ok (Some m, with_columnIndex c (int_wrap (columnIndex c + 1)), w).

(** [Cursor.Finished] *)
Definition Finished (c : Cursor) (w : World S) : outcome (bool * Cursor * World S) :=
  ' (operationStatus, c, w) <- Poll env true c w ;;
  if is_set (Err c) then Ok (true, c, w)
  else
    os <- deref operationStatus ;;
    status <- deref (OperationState os) ;;
    Ok (negb (TOperationState_eqb status INITIALIZED_STATE
              || TOperationState_eqb status RUNNING_STATE), c, w).

(** [Cursor.Error] *)
Definition Cursor_Error (c : Cursor) : option error := Err c.

End Metadata.

Arguments Description {S} _ _ _.
Arguments RowMap {S} _ _ _ _ _ _.
Arguments RowSlice {S} _ _ _ _ _ _.
Arguments Finished {S} _ _ _.

(** ** Vocabulary for decimals *)

(** [n] times the character [c]. *)
Fixpoint repeat_char (c : ascii) (n : nat) : string :=
  match n with
  | O => EmptyString
  | Datatypes.S n' => String c (repeat_char c n')
  end.

(** The last character of [s], if it has one. *)
Fixpoint last_char (s : string) : option ascii :=
  match s with
  | EmptyString => None
  | String a EmptyString => Some a
  | String _ s' => last_char s'
  end.


(** ** Vocabulary and examples for the metadata *)

(** What [Description] keeps of a column: the name and the type of the
    last of its type entries, or nothing at all when it has none. *)
Definition described_by (column : TColumnDesc) (mi : list string) : Prop :=
  exists td, TypeDesc column = Some td /\
    match rev (Types td) with
    | [] => mi = []
    | t :: _ => exists p, PrimitiveEntry t = Some p
                          /\ mi = [ColumnName column; Type_String p]
    end.

(** A column of a primitive type. *)
Definition column_desc (name ty : string) : TColumnDesc :=
  {| ColumnName := name;
     TypeDesc := Some {| Types := [ {| PrimitiveEntry := Some {| Type_String := ty |} |} ] |} |}.

Definition metadata_resp (cols : list (string * string)) : TGetResultSetMetadataResp :=
  {| meta_Status := Some ok_status;
     Schema := Some {| schema_Columns := map (fun nt => column_desc (fst nt) (snd nt)) cols |} |}.

(** A server that describes every result set by [cols]. *)
Definition metadata_server (cols : list (string * string))
  : TCLIServiceClient -> Context -> option TOperationHandle -> nat ->
    option TGetResultSetMetadataResp * option string * nat :=
  fun _ _ _ s => (Some (metadata_resp cols), None, s).

(** The table [(a INT, b STRING)] of [batch]. *)
Definition table_columns : list (string * string) :=
  [("a", "INT_TYPE"); ("b", "STRING_TYPE")].


(** A statement that is still queued on the server. *)
Definition pending_poll : TGetOperationStatusResp :=
  {| poll_Status := Some ok_status;
     OperationState := Some PENDING_STATE;
     poll_ErrorMessage := None;
     TaskStatus := None |}.

Definition pending_script : Script :=
  {| on_execute :=
       (Some {| exec_Status := Some ok_status;
                exec_OperationHandle := Some select_handle |}, None);
     on_poll := (Some pending_poll, None);
     on_fetch := fun _ => (Some (batch [] []), None);
     on_close_session := ok_response;
     on_transport_open := None;
     on_transport_close := None |}.

Definition pending_env : Env nat := script_env pending_script.

(** The first batch of [paged_fetches] with the name "a" given to both
    columns. *)
Definition same_name_columns : list (list string) :=
  [["a"; "INT_TYPE"]; ["a"; "STRING_TYPE"]].


(** ** Calls between two fetches *)

(** The calls on a cursor that are neither an execute nor [Close] nor
    [WaitForCompletion]. *)
Inductive call : Type :=
| call_FetchOne (fuel : nat) (ctx : Context) (dests : list dest)
| call_HasMore (fuel : nat) (ctx : Context)
| call_RowMap (fuel : nat) (ctx : Context)
| call_RowSlice (fuel : nat) (ctx : Context)
| call_Poll (getProgress : bool)
| call_Finished
| call_FetchLogs
| call_Cancel
| call_Description
| call_Error.

Definition is_FetchOne (k : call) : bool :=
  match k with
  | call_FetchOne _ _ _ => true
  | _ => false
  end.

Section Calls.

Variable S : Type.
Variable env : Env S.
Variable GetResultSetMetadata :
  TCLIServiceClient -> Context -> option TOperationHandle -> S ->
  option TGetResultSetMetadataResp * option string * S.

(** One call; what it returns to the caller is dropped. *)
Definition run_call (k : call) (c : Cursor) (w : World S) : outcome (Cursor * World S) :=
  match k with
  | call_FetchOne fuel ctx dests =>
      ' (_, c, w) <- FetchOne env fuel ctx dests c w ;; Ok (c, w)
  | call_HasMore fuel ctx =>
      ' (_, c, w) <- HasMore env fuel ctx c w ;; Ok (c, w)
  | call_RowMap fuel ctx =>
      ' (_, _, c, w) <- RowMap env GetResultSetMetadata fuel ctx c w ;; Ok (c, w)
  | call_RowSlice fuel ctx =>
      ' (_, c, w) <- RowSlice env GetResultSetMetadata fuel ctx c w ;; Ok (c, w)
  | call_Poll getProgress =>
      ' (_, c, w) <- Poll env getProgress c w ;; Ok (c, w)
  | call_Finished =>
      ' (_, c, w) <- Finished env c w ;; Ok (c, w)
  | call_FetchLogs =>
      ' (_, c, w) <- FetchLogs env c w ;; Ok (c, w)
  | call_Cancel => Cancel env c w
  | call_Description =>
      ' (_, c, w) <- Description GetResultSetMetadata c w ;; Ok (c, w)
  | call_Error => Ok (c, w)
  end.

(** A sequence of calls, with the error slot after each of them. *)
Fixpoint run_calls (ks : list call) (c : Cursor) (w : World S)
  : outcome (list (option error) * Cursor * World S) :=
  match ks with
  | [] => Ok ([], c, w)
  | k :: ks' =>
      ' (c1, w) <- run_call k c w ;;
      ' (errs, c, w) <- run_calls ks' c1 w ;;
      Ok (Err c1 :: errs, c, w)
  end.

End Calls.

(** The batch is consumed and the stream is finished. *)
Definition at_end (c : Cursor) : Prop :=
  columnIndex c = totalRows c /\ state c = _FINISHED.

(** An empty table, on a server that refuses to fetch once the
    operation was closed: the first fetch returns the empty batch, every
    later one fails. *)
Definition closed_fetches (n : nat) : option TFetchResultsResp * option string :=
  match n with
  | O => (Some (batch [] []), None)
  | _ => (None, Some "Invalid OperationHandle: operation is closed")
  end.

Definition closed_env : Env nat := script_env (select_script closed_fetches).

(** The cursor and the world after an [Exec] and a first [FetchOne],
    which finds the table empty. *)
Definition end_of_stream (env : Env nat) : Cursor * World nat :=
  match FetchOne env 1 ctx_Background [dest_nil; dest_nil]
                 (fst (executed env)) (snd (executed env)) with
  | Ok (_, c, w) => (c, w)
  | _ => executed env
  end.

(** Calls of every kind but [FetchLogs]. *)
Definition calls_between : list call :=
  [call_HasMore 1 ctx_Background; call_Poll true; call_Finished; call_Cancel;
   call_RowSlice 1 ctx_Background; call_Description;
   call_FetchOne 0 (ctx_caller (Some 0%nat)) [dest_nil; dest_ptr KString ""];
   call_RowMap 1 ctx_Background; call_Error].


(** * Properties *)

(** Reduction of the record updates and of the plumbing of outcomes. *)
Ltac cursor_simpl :=
  try unfold conn_client, conn_configuration;
  cbn [with_operationHandle with_queue with_response with_columnIndex
       with_totalRows with_state with_newData with_Err with_description
       conn operationHandle queue response columnIndex totalRows state newData
       Err description Logs obind deref GetStatus opt_error is_set negb andb orb
       conn_client conn_configuration].
Ltac cursor_simpl_in H :=
  try unfold conn_client, conn_configuration in H;
  cbn [with_operationHandle with_queue with_response with_columnIndex
       with_totalRows with_state with_newData with_Err with_description
       conn operationHandle queue response columnIndex totalRows state newData
       Err description Logs obind deref GetStatus opt_error is_set negb andb orb
       conn_client conn_configuration] in H.

Lemma bit_mask_of_small (s : Z) : 0 <= s < 8 -> to_byte (Z.shiftl 1 s) = 2 ^ s.
Proof.
  intros Hs. unfold to_byte. rewrite Z.shiftl_1_l.
  apply Z.mod_small.
  assert (s = 0 \/ s = 1 \/ s = 2 \/ s = 3 \/ s = 4 \/ s = 5 \/ s = 6 \/ s = 7)
    as Hc by lia.
  repeat (destruct Hc as [-> | Hc]; [cbv; split; congruence | ]).
  subst s. cbv; split; congruence.
Qed.

Lemma land_pow2_testbit (b s : Z) :
  0 <= s -> (Z.land b (2 ^ s) =? 0) = negb (Z.testbit b s).
Proof.
  intros Hs.
  destruct (Z.testbit b s) eqn:Hb; cbn [negb].
  - apply Z.eqb_neq. intros H0.
    assert (Z.testbit (Z.land b (2 ^ s)) s = false) as Hf
        by (rewrite H0; apply Z.bits_0).
    rewrite Z.land_spec, Hb, Z.pow2_bits_true in Hf by lia. discriminate.
  - apply Z.eqb_eq. apply Z.bits_inj'. intros n Hn.
    rewrite Z.land_spec, Z.bits_0.
    destruct (Z.eq_dec n s) as [-> | Hne].
    + now rewrite Hb.
    + rewrite (Z.pow2_bits_false s n) by lia. apply andb_false_r.
Qed.

Lemma isNull_in_range (nulls : list byte) (k : Z) (b : byte) :
  0 <= k ->
  nth_error nulls (Z.to_nat (k / 8)) = Some b ->
  isNull nulls k = Ok (Z.testbit b (k mod 8)).
Proof.
  intros Hk Hb. unfold isNull.
  rewrite Z.quot_div_nonneg, Z.rem_mod_nonneg by lia.
  assert (Z.to_nat (k / 8) < List.length nulls)%nat as Hlt
      by (apply nth_error_Some; congruence).
  assert (0 <= k / 8) by (apply Z.div_pos; lia).
  unfold len.
  destruct (Z.of_nat (List.length nulls) >? k / 8) eqn:Hgt;
    [ | rewrite Z.gtb_ltb, Z.ltb_ge in Hgt; lia ].
  unfold at_index. destruct (k / 8 <? 0) eqn:Hneg; [ apply Z.ltb_lt in Hneg; lia | ].
  rewrite Hb. cbn [obind].
  assert (0 <= k mod 8 < 8) as Hm by (apply Z.mod_pos_bound; lia).
  unfold to_uint. rewrite (Z.mod_small (k mod 8)) by lia.
  rewrite bit_mask_of_small, land_pow2_testbit by lia.
  now rewrite negb_involutive.
Qed.

Lemma isNull_short (nulls : list byte) (k : Z) :
  0 <= k -> len nulls <= k / 8 -> isNull nulls k = Ok false.
Proof.
  intros Hk Hs. unfold isNull.
  rewrite Z.quot_div_nonneg by lia.
  destruct (len nulls >? k / 8) eqn:Hgt; [ | reflexivity ].
  rewrite Z.gtb_ltb in Hgt. apply Z.ltb_lt in Hgt. lia.
Qed.

(** C1. For a row index [k >= 0], [isNull nulls k] never panics; it is
    true exactly when [nulls] has a byte at position [k / 8] whose bit
    [k mod 8] is set, and it is false whenever the bitmap is too short
    to contain byte [k / 8]. *)
Theorem isNull_spec (nulls : list byte) (k : Z) :
  0 <= k ->
  (exists r, isNull nulls k = Ok r) /\
  (isNull nulls k = Ok true <->
     exists b, nth_error nulls (Z.to_nat (k / 8)) = Some b /\
               Z.testbit b (k mod 8) = true) /\
  (len nulls <= k / 8 -> isNull nulls k = Ok false).
Proof.
  intros Hk.
  assert (0 <= k / 8) as Hq by (apply Z.div_pos; lia).
  destruct (nth_error nulls (Z.to_nat (k / 8))) as [b | ] eqn:Hb.
  - rewrite (isNull_in_range nulls k b Hk Hb).
    split; [ eauto | split ].
    + split.
      * intros [= Ht]. exists b. auto.
      * intros (b' & [= <-] & Ht). now rewrite Ht.
    + intros Hs. exfalso.
      assert (Z.to_nat (k / 8) < List.length nulls)%nat
        by (apply nth_error_Some; congruence).
      unfold len in Hs. lia.
  - assert (len nulls <= k / 8) as Hs.
    { apply nth_error_None in Hb. unfold len. lia. }
    rewrite (isNull_short nulls k Hk Hs).
    split; [ eauto | split ].
    + split; [ discriminate | intros (b' & [=] & _) ].
    + reflexivity.
Qed.

Lemma isNull_spec_witness :
  isNull [0; 4] 10 = Ok true /\ isNull [255] 8 = Ok false.
Proof.
  split.
  - apply (proj1 (proj2 (isNull_spec [0; 4] 10 ltac:(lia)))).
    exists 4. split; reflexivity.
  - apply (proj2 (proj2 (isNull_spec [255] 8 ltac:(lia)))).
    vm_compute. discriminate.
Defined.

(** ** Column batches: where [totalRows] comes from *)

Lemma getTotalRows_ignores_rest (el : TColumn) (rest rest' : list TColumn) :
  getTotalRows (el :: rest) = getTotalRows (el :: rest').
Proof. reflexivity. Qed.

Lemma getTotalRows_populated (el : TColumn) (rest : list TColumn) :
  is_populated el = true ->
  exists n, getTotalRows (el :: rest) = (n, None) /\ populated_length el n.
Proof.
  unfold is_populated, getTotalRows, populated_length.
  unfold IsSetBinaryVal, IsSetByteVal, IsSetI16Val, IsSetI32Val, IsSetI64Val,
    IsSetBoolVal, IsSetDoubleVal, IsSetStringVal.
  destruct el as [bo by_ i16 i32 i64 db st bi]; cbn [BoolVal ByteVal I16Val I32Val
    I64Val DoubleVal StringVal BinaryVal].
  intros Hp.
  destruct bi as [v | ]; cbn [is_set values_len];
    [ eexists; split; [ reflexivity | ]; eauto 12 | ].
  destruct by_ as [v | ]; cbn [is_set values_len];
    [ eexists; split; [ reflexivity | ]; eauto 12 | ].
  destruct i16 as [v | ]; cbn [is_set values_len];
    [ eexists; split; [ reflexivity | ]; eauto 12 | ].
  destruct i32 as [v | ]; cbn [is_set values_len];
    [ eexists; split; [ reflexivity | ]; eauto 12 | ].
  destruct i64 as [v | ]; cbn [is_set values_len];
    [ eexists; split; [ reflexivity | ]; eauto 12 | ].
  destruct bo as [v | ]; cbn [is_set values_len];
    [ eexists; split; [ reflexivity | ]; eauto 12 | ].
  destruct db as [v | ]; cbn [is_set values_len];
    [ eexists; split; [ reflexivity | ]; eauto 14 | ].
  destruct st as [v | ]; cbn [is_set values_len];
    [ eexists; split; [ reflexivity | ]; eauto 14 | ].
  discriminate Hp.
Qed.

(** C10. For a batch with at least one column whose first column is
    populated, [parseResults] reports no error and sets [totalRows] to
    the length of a populated vector of that first column; the columns
    after the first are stored in the queue but never inspected, so the
    result is the same whatever they hold (fewer entries included). *)
Theorem total_rows_from_first_column
        (c : Cursor) (resp : TFetchResultsResp) (el : TColumn) (rest : list TColumn) :
  Results resp = Some {| Columns := el :: rest |} ->
  is_populated el = true ->
  exists c',
    parseResults c (Some resp) = Ok (None, c')
    /\ populated_length el (totalRows c')
    /\ queue c' = el :: rest
    /\ columnIndex c' = 0
    /\ forall rest', getTotalRows (el :: rest') = (totalRows c', None).
Proof.
  intros Hres Hpop.
  destruct (getTotalRows_populated el rest Hpop) as (n & Hn & Hlen).
  unfold parseResults. cbn [deref obind]. rewrite Hres. cbn [deref obind Columns].
  cbn [with_queue with_columnIndex queue].
  rewrite Hn.
  cbn [with_totalRows with_newData newData totalRows].
  destruct (n >? 0); cbn [negb];
    (eexists; split; [ reflexivity | ]; cbn;
     split; [ exact Hlen | split; [ reflexivity | split; [ reflexivity | ] ] ];
     intros rest'; rewrite <- Hn; reflexivity).
Qed.

Lemma total_rows_from_first_column_witness :
  exists c',
    parseResults (Connection_Cursor
                    (mkConnection "h" 10000 "" "default" "NONE" "" "" None None None None))
                 (Some {| fetch_Status := None; HasMoreRows := None;
                          Results := Some {| Columns := ragged_batch |} |})
    = Ok (None, c')
    /\ totalRows c' = 3.
Proof.
  destruct (total_rows_from_first_column
              (Connection_Cursor
                 (mkConnection "h" 10000 "" "default" "NONE" "" "" None None None None))
              {| fetch_Status := None; HasMoreRows := None;
                 Results := Some {| Columns := ragged_batch |} |}
              (hd (mkTColumn None None None None None None None None) ragged_batch)
              (tl ragged_batch) eq_refl eq_refl)
    as (c' & Hparse & _ & _ & _ & Hrows).
  exists c'. split; [ exact Hparse | ].
  specialize (Hrows []). injection Hrows as Hr. symmetry. exact Hr.
Defined.

(** ** End of the stream *)

Section EndOfStream.

Variable S : Type.
Variable env : Env S.

(** A consumed batch on a finished stream: [HasMore] polls nothing and
    answers false. *)
Lemma HasMore_finished (fuel : nat) (ctx : Context) (c : Cursor) (w : World S) :
  columnIndex c = totalRows c ->
  state c = _FINISHED ->
  HasMore env fuel ctx c w = Ok (false, with_Err c None, w).
Proof.
  intros Hidx Hst. unfold HasMore.
  cbn [with_Err response state totalRows columnIndex].
  rewrite Hst, Hidx, !Z.eqb_refl. cbn [negb andb orb].
  rewrite !andb_false_r. cbn [obind with_Err state totalRows columnIndex].
  rewrite Hst, Hidx, !Z.eqb_refl. reflexivity.
Qed.

Lemma FetchOne_finished (fuel : nat) (ctx : Context) (dests : list dest)
      (c : Cursor) (w : World S) :
  columnIndex c = totalRows c ->
  state c = _FINISHED ->
  FetchOne env fuel ctx dests c w
  = Ok (dests, with_Err (with_queue c []) (Some no_more_rows), w).
Proof.
  intros Hidx Hst. unfold FetchOne, fetchIfEmpty.
  cbn [with_Err totalRows columnIndex].
  rewrite Hidx, Z.eqb_refl.
  rewrite HasMore_finished by (destruct c; cbn in *; assumption).
  destruct c; reflexivity.
Qed.

(** Back-to-back calls of [FetchOne] at the end of the stream: the
    sequence returns, every call leaves the error "No more rows are
    left", and the world stays as it was. *)
Theorem FetchOne_no_more_rows_left
        (calls : list (nat * Context * list dest)) (c : Cursor) (w : World S) :
  columnIndex c = totalRows c ->
  state c = _FINISHED ->
  exists c',
    FetchOne_calls S env calls c w
    = Ok (repeat (Some (errors_New "No more rows are left")) (List.length calls), c', w)
    /\ columnIndex c' = totalRows c'
    /\ state c' = _FINISHED.
Proof.
  revert c. induction calls as [ | [[fuel ctx] dests] calls IH]; intros c Hidx Hst.
  - exists c. cbn. auto.
  - cbn [FetchOne_calls]. rewrite FetchOne_finished by assumption.
    cbn [obind].
    destruct (IH (with_Err (with_queue c []) (Some no_more_rows))) as (c' & Hrun & Hi & Hs).
    + destruct c; cbn in *; assumption.
    + destruct c; cbn in *; assumption.
    + exists c'. rewrite Hrun. cbn [obind List.length repeat].
      split; [ | auto ].
      destruct c; reflexivity.
Qed.

End EndOfStream.

(** ** [HasMore] after a call that ended without error *)

Lemma with_Err_same (c : Cursor) : Err c = None -> with_Err c None = c.
Proof. destruct c; cbn; intros ->; reflexivity. Qed.

Lemma parseResults_shape (c c' : Cursor) (r : option TFetchResultsResp)
      (err : option error) :
  parseResults c r = Ok (err, c') ->
  columnIndex c' = 0
  /\ response c' = response c
  /\ ((totalRows c' >? 0) = false -> state c' = _FINISHED).
Proof.
  unfold parseResults. intros H.
  destruct r as [r | ]; cbn [deref obind] in H; [ | discriminate H ].
  destruct (Results r) as [rows | ]; cbn [deref obind] in H; [ | discriminate H ].
  destruct (getTotalRows (queue (with_columnIndex (with_queue c (Columns rows)) 0)))
    as [n e].
  cbn [with_totalRows with_newData newData totalRows] in H.
  destruct (n >? 0) eqn:Hn; cbn [negb] in H; injection H as _ <-; cbn;
    repeat split; congruence.
Qed.

Section Idempotence.

Variable S : Type.
Variable env : Env S.

(** A batch that parses without error has at least one column. *)
Lemma parseResults_nonempty (c c' : Cursor) (r : option TFetchResultsResp) :
  parseResults c r = Ok (None, c') -> (len (queue c') >? 0) = true.
Proof.
  unfold parseResults. intros H.
  destruct r as [r | ]; cbn [deref obind] in H; [ | discriminate H ].
  destruct (Results r) as [rows | ]; cbn [deref obind] in H; [ | discriminate H ].
  cbn [with_queue with_columnIndex queue] in H.
  destruct (Columns rows) as [ | el rest] eqn:Hcols.
  - cbn in H. discriminate H.
  - destruct (getTotalRows (el :: rest)) as [n e].
    cbn [with_totalRows with_newData newData totalRows] in H.
    destruct (n >? 0); cbn [negb] in H; injection H as _ <-; reflexivity.
Qed.

(** The loop of the worker never goes round: one unit of fuel is as
    good as any larger amount, and the worker always reports. *)
Lemma pollWorker_one_round (fuel iter : nat) (ctx : Context) (c : Cursor) (w : World S) :
  pollWorker env (Datatypes.S fuel) iter ctx c w = pollWorker env 1 iter ctx c w.
Proof.
  cbn [pollWorker].
  destruct (ctx_done_at ctx iter); [ reflexivity | ].
  destruct (conn_configuration c) as [cfg | | ]; cbn [obind]; try reflexivity.
  destruct (conn_client c) as [cl | | ]; cbn [obind]; try reflexivity.
  destruct (FetchResults env cl ctx_Background _ (server w)) as [[resp err] s].
  destruct err as [e | ]; [ reflexivity | ].
  destruct (GetStatus fetch_Status resp) as [st | | ]; cbn [obind]; try reflexivity.
  destruct (negb (TStatusCode_eqb _ _)); [ reflexivity | ].
  destruct (parseResults (with_response c resp) resp) as [[perr c2] | | ] eqn:Hparse;
    cbn [obind]; try reflexivity.
  destruct perr as [e | ]; [ reflexivity | ].
  now rewrite (parseResults_nonempty _ _ _ Hparse).
Qed.

Lemma HasMore_one_round (fuel : nat) (ctx : Context) (c : Cursor) (w : World S) :
  HasMore env (Datatypes.S fuel) ctx c w = HasMore env 1 ctx c w.
Proof.
  unfold HasMore, pollUntilData. now rewrite !pollWorker_one_round.
Qed.

Lemma obind_reports {A B : Type} (m : outcome A) (k : A -> outcome B) :
  m <> OutOfFuel ->
  (forall a, m = Ok a -> k a <> OutOfFuel) ->
  obind m k <> OutOfFuel.
Proof.
  intros Hm Hk. destruct m as [a | r | ]; cbn [obind].
  - apply Hk. reflexivity.
  - discriminate.
  - contradiction.
Qed.

Lemma deref_reports {A : Type} (p : option A) : deref p <> OutOfFuel.
Proof. destruct p; discriminate. Qed.

Lemma parseResults_reports (c : Cursor) (r : option TFetchResultsResp) :
  parseResults c r <> OutOfFuel.
Proof.
  unfold parseResults.
  apply obind_reports; [ apply deref_reports | intros r' _ ].
  apply obind_reports; [ apply deref_reports | intros rows _ ].
  destruct (getTotalRows _). discriminate.
Qed.

Lemma pollWorker_reports (fuel iter : nat) (ctx : Context) (c : Cursor) (w : World S) :
  pollWorker env (Datatypes.S fuel) iter ctx c w <> OutOfFuel.
Proof.
  rewrite pollWorker_one_round. cbn [pollWorker].
  destruct (ctx_done_at ctx iter); [ discriminate | ].
  apply obind_reports;
    [ unfold conn_configuration;
      apply obind_reports; [ apply deref_reports | intros; apply deref_reports ]
    | intros cfg _ ].
  apply obind_reports;
    [ unfold conn_client;
      apply obind_reports; [ apply deref_reports | intros; apply deref_reports ]
    | intros cl _ ].
  destruct (FetchResults env cl ctx_Background _ (server w)) as [[resp err] s].
  destruct err as [e | ]; [ discriminate | ].
  apply obind_reports;
    [ unfold GetStatus; apply obind_reports; [ apply deref_reports | discriminate ]
    | intros st _ ].
  destruct (negb (TStatusCode_eqb _ _)); [ discriminate | ].
  apply obind_reports; [ apply parseResults_reports | intros [perr c2] Hparse ].
  destruct perr as [e | ]; [ discriminate | ].
  rewrite (parseResults_nonempty _ _ _ Hparse). discriminate.
Qed.

Lemma pollUntilData_reports (fuel : nat) (ctx : Context) (n : Z) (c : Cursor)
      (w : World S) :
  pollUntilData env (Datatypes.S fuel) ctx n c w <> OutOfFuel.
Proof.
  unfold pollUntilData.
  apply obind_reports; [ apply pollWorker_reports | intros [[e c2] w2] _ ].
  destruct (ctx_fires ctx); [ discriminate | ].
  destruct e; [ discriminate | ].
  destruct (len (queue c2) <? n); discriminate.
Qed.

(** With one unit of fuel or more, [HasMore] returns or panics. *)
Lemma HasMore_reports (fuel : nat) (ctx : Context) (c : Cursor) (w : World S) :
  HasMore env (Datatypes.S fuel) ctx c w <> OutOfFuel.
Proof.
  unfold HasMore.
  destruct (negb (is_set (response (with_Err c None)))
            && negb (state (with_Err c None) =? _FINISHED)).
  - apply obind_reports; [ apply pollUntilData_reports | intros [[e c2] w2] _ ].
    discriminate.
  - apply obind_reports; [ | intros [c2 w2] _; discriminate ].
    destruct ((totalRows (with_Err c None) =? columnIndex (with_Err c None))
              && negb (state (with_Err c None) =? _FINISHED)); [ | discriminate ].
    apply obind_reports; [ apply pollUntilData_reports | intros [[e c2] w2] _ ].
    discriminate.
Qed.

(** The worker reports success only after a fetch whose batch was
    parsed: the response is kept, the row cursor is at 0, and a batch
    without rows has finished the stream. *)
Lemma pollWorker_success (fuel : nat) :
  forall (iter : nat) (ctx : Context) (c c1 : Cursor) (w w1 : World S),
    ctx_fires ctx = None ->
    pollWorker env fuel iter ctx c w = Ok (None, c1, w1) ->
    is_set (response c1) = true
    /\ columnIndex c1 = 0
    /\ ((totalRows c1 >? 0) = false -> state c1 = _FINISHED).
Proof.
  induction fuel as [ | fuel IH]; intros iter ctx c c1 w w1 Hctx H.
  - discriminate H.
  - cbn [pollWorker] in H. unfold ctx_done_at in H. rewrite Hctx in H.
    destruct (conn_configuration c) as [cfg | | ]; cbn [obind] in H; try discriminate H.
    destruct (conn_client c) as [cl | | ]; cbn [obind] in H; try discriminate H.
    destruct (FetchResults env cl ctx_Background _ (server w)) as [[resp err] s].
    destruct err as [e | ]; [ discriminate H | ].
    destruct resp as [resp | ]; cbn [GetStatus deref obind] in H; [ | discriminate H ].
    destruct (negb (TStatusCode_eqb _ _)); [ discriminate H | ].
    destruct (parseResults (with_response c (Some resp)) (Some resp))
      as [[perr c2] | | ] eqn:Hparse; cbn [obind] in H; try discriminate H.
    destruct perr as [e | ]; [ discriminate H | ].
    apply parseResults_shape in Hparse. destruct Hparse as (Hci & Hresp & Hfin).
    destruct (len (queue c2) >? 0).
    + injection H as <- <-. rewrite Hresp. cbn. auto.
    + apply IH in H; assumption.
Qed.

Lemma pollUntilData_success (fuel : nat) (ctx : Context) (n : Z)
      (c c1 : Cursor) (w w1 : World S) :
  pollUntilData env fuel ctx n c w = Ok (None, c1, w1) ->
  is_set (response c1) = true
  /\ columnIndex c1 = 0
  /\ ((totalRows c1 >? 0) = false -> state c1 = _FINISHED).
Proof.
  unfold pollUntilData. intros H.
  destruct (pollWorker env fuel 0 ctx c w) as [[[e c2] w2] | | ] eqn:Hw;
    cbn [obind] in H; try discriminate H.
  destruct (ctx_fires ctx) eqn:Hctx; [ discriminate H | ].
  destruct e as [e | ]; [ discriminate H | ].
  destruct (len (queue c2) <? n); [ discriminate H | ].
  injection H as <- <-.
  exact (pollWorker_success fuel 0 ctx c c2 w w2 Hctx Hw).
Qed.

Lemma HasMore_settled (fuel : nat) (ctx : Context) (c : Cursor) (w : World S) (b : bool) :
  settled c b -> HasMore env fuel ctx c w = Ok (b, c, w).
Proof.
  intros (He & Hresp & Hfin & Hb). unfold HasMore.
  rewrite (with_Err_same c He).
  assert (negb (is_set (response c)) && negb (state c =? _FINISHED) = false) as ->.
  { destruct Hresp as [-> | ->]; [ reflexivity | apply andb_false_r ]. }
  assert ((totalRows c =? columnIndex c) && negb (state c =? _FINISHED) = false) as ->.
  { destruct (totalRows c =? columnIndex c) eqn:E; [ | reflexivity ].
    apply Z.eqb_eq in E. rewrite (Hfin E). reflexivity. }
  cbn [obind]. now rewrite Hb.
Qed.

Lemma poll_settles (c1 : Cursor) (err : option error) :
  err = None ->
  is_set (response c1) = true
  /\ columnIndex c1 = 0
  /\ ((totalRows c1 >? 0) = false -> state c1 = _FINISHED) ->
  settled (with_Err c1 err)
          (negb (state (with_Err c1 err) =? _FINISHED)
           || negb (totalRows (with_Err c1 err) =? columnIndex (with_Err c1 err))).
Proof.
  intros -> (Hresp & Hci & Hfin). unfold settled.
  cbn [with_Err Err response state totalRows columnIndex].
  repeat split; auto.
  intros Heq. apply Hfin. rewrite Heq, Hci. reflexivity.
Qed.

Lemma HasMore_clean_settles (fuel : nat) (ctx : Context) (c c1 : Cursor)
      (w w1 : World S) (b : bool) :
  HasMore env fuel ctx c w = Ok (b, c1, w1) ->
  Err c1 = None ->
  settled c1 b.
Proof.
  unfold HasMore. intros H He.
  destruct (negb (is_set (response (with_Err c None)))
            && negb (state (with_Err c None) =? _FINISHED)) eqn:Hfirst.
  - destruct (pollUntilData env fuel ctx 1 (with_Err c None) w)
      as [[[err c2] w2] | | ] eqn:Hpoll; cbn [obind] in H; try discriminate H.
    injection H as <- <- <-.
    assert (err = None) as -> by (destruct c2; exact He).
    apply poll_settles; [ reflexivity | ].
    exact (pollUntilData_success _ _ _ _ _ _ _ Hpoll).
  - destruct ((totalRows (with_Err c None) =? columnIndex (with_Err c None))
              && negb (state (with_Err c None) =? _FINISHED)) eqn:Hsecond.
    + destruct (pollUntilData env fuel ctx 1 (with_Err c None) w)
        as [[[err c2] w2] | | ] eqn:Hpoll; cbn [obind] in H; try discriminate H.
      injection H as <- <- <-.
      assert (err = None) as -> by (destruct c2; exact He).
      apply poll_settles; [ reflexivity | ].
      exact (pollUntilData_success _ _ _ _ _ _ _ Hpoll).
    + cbn [obind] in H. injection H as <- <- <-.
      cbn [with_Err response state totalRows columnIndex] in *.
      unfold settled. cbn [with_Err Err response state totalRows columnIndex].
      repeat split.
      * apply andb_false_iff in Hfirst. destruct Hfirst as [Hr | Hs].
        -- left. now apply negb_false_iff in Hr.
        -- right. apply negb_false_iff in Hs. now apply Z.eqb_eq in Hs.
      * intros Heq. apply andb_false_iff in Hsecond. destruct Hsecond as [Hr | Hs].
        -- apply Z.eqb_neq in Hr. contradiction.
        -- apply negb_false_iff in Hs. now apply Z.eqb_eq in Hs.
Qed.

(** C3 (amended). Once a [HasMore] call has ended with an empty error
    slot, any number of further consecutive [HasMore] calls, with any
    contexts, return the same boolean as that call, leave the cursor as
    that call left it, and do not touch the server. *)
Theorem HasMore_idempotent_after_clean_call
        (fuel : nat) (ctx : Context) (c c1 : Cursor) (w w1 : World S) (b : bool)
        (calls : list (nat * Context)) :
  HasMore env fuel ctx c w = Ok (b, c1, w1) ->
  Err c1 = None ->
  HasMore_calls S env calls c1 w1 = Ok (repeat b (List.length calls), c1, w1).
Proof.
  intros H He.
  pose proof (HasMore_clean_settles _ _ _ _ _ _ _ H He) as Hs.
  clear H He. induction calls as [ | [fuel' ctx'] calls IH].
  - reflexivity.
  - cbn [HasMore_calls]. rewrite (HasMore_settled fuel' ctx' c1 w1 b Hs).
    cbn [obind]. rewrite IH. reflexivity.
Qed.

End Idempotence.

(** C3 (as stated) fails.  After a successful [Exec], a first
    [HasMore] whose fetch fails in the transport answers true, and the
    next one, whose fetch returns the empty batch, answers false.  The
    same happens with a healthy server and an empty table when the
    context of the first call is done and the worker sees the stop flag
    before it fetches. *)
Lemma HasMore_not_idempotent :
  (Exec flaky_env 5 ctx_Background "SELECT * FROM t"
        (Connection_Cursor example_connection) initial_world
   = Ok (executed flaky_env)
   /\ Err (fst (executed flaky_env)) = None
   /\ exists c' w',
       HasMore_calls nat flaky_env [(1%nat, ctx_Background); (1%nat, ctx_Background)]
                     (fst (executed flaky_env)) (snd (executed flaky_env))
       = Ok ([true; false], c', w'))
  /\ (Exec empty_table_env 5 ctx_Background "SELECT * FROM t"
           (Connection_Cursor example_connection) initial_world
      = Ok (executed empty_table_env)
      /\ Err (fst (executed empty_table_env)) = None
      /\ exists c' w',
          HasMore_calls nat empty_table_env
                        [(1%nat, ctx_caller (Some 0%nat)); (1%nat, ctx_Background)]
                        (fst (executed empty_table_env)) (snd (executed empty_table_env))
          = Ok ([true; false], c', w')).
Proof.
  split.
  - split; [ vm_compute; reflexivity | ].
    split; [ vm_compute; reflexivity | ].
    eexists. eexists. vm_compute. reflexivity.
  - split; [ vm_compute; reflexivity | ].
    split; [ vm_compute; reflexivity | ].
    eexists. eexists. vm_compute. reflexivity.
Qed.

Lemma HasMore_idempotent_after_clean_call_witness :
  HasMore_calls nat paged_env
                [(1%nat, ctx_Background); (0%nat, ctx_caller (Some 0%nat));
                 (1%nat, ctx_Background)]
                (snd (fst (asked_once paged_env))) (snd (asked_once paged_env))
  = Ok ([true; true; true],
        snd (fst (asked_once paged_env)), snd (asked_once paged_env)).
Proof.
  apply (HasMore_idempotent_after_clean_call
           nat paged_env 1 ctx_Background
           (fst (executed paged_env)) (snd (fst (asked_once paged_env)))
           (snd (executed paged_env)) (snd (asked_once paged_env)) true
           [(1%nat, ctx_Background); (0%nat, ctx_caller (Some 0%nat));
            (1%nat, ctx_Background)]).
  - vm_compute. reflexivity.
  - vm_compute. reflexivity.
Defined.

Lemma FetchOne_no_more_rows_left_witness :
  exists c',
    FetchOne_calls nat paged_env
      [(0%nat, ctx_Background, []);
       (1%nat, ctx_caller (Some 0%nat), [dest_nil; dest_ptr KString ""])]
      drained_cursor initial_world
    = Ok ([Some (errors_New "No more rows are left");
           Some (errors_New "No more rows are left")], c', initial_world).
Proof.
  destruct (FetchOne_no_more_rows_left
              nat paged_env
              [(0%nat, ctx_Background, []);
               (1%nat, ctx_caller (Some 0%nat), [dest_nil; dest_ptr KString ""])]
              drained_cursor initial_world eq_refl eq_refl)
    as (c' & Hrun & _).
  exists c'. exact Hrun.
Defined.

(** ** Submission and completion *)

Section Submission.

Variable S : Type.
Variable env : Env S.

Lemma resetState_conn (c c0 : Cursor) (w w0 : World S) (e : option error) :
  resetState env c w = Ok (e, c0, w0) -> conn c0 = conn c /\ Logs c0 = Logs c.
Proof.
  unfold resetState. cursor_simpl.
  destruct (operationHandle c) as [h | ].
  - destruct (conn c) as [cn | ] eqn:Hcn; cursor_simpl; [ | discriminate ].
    destruct (client cn) as [cl | ]; cursor_simpl; [ | discriminate ].
    destruct (CloseOperation env cl ctx_Background (Some h) (server w)) as [[resp err] s].
    destruct err as [msg | ].
    + intros [= _ <- _]. cbn. auto.
    + destruct resp as [resp | ]; cursor_simpl; [ | discriminate ].
      destruct (success (safeStatus (resp_Status resp))); cursor_simpl;
        intros [= _ <- _]; cbn; auto.
  - intros [= _ <- _]. cbn. auto.
Qed.

Lemma not_success (st : TStatus) :
  GetStatusCode st <> SUCCESS_STATUS ->
  GetStatusCode st <> SUCCESS_WITH_INFO_STATUS ->
  success st = false.
Proof.
  unfold success. destruct (GetStatusCode st); cbn; congruence.
Qed.

(** C4. When the [ExecuteStatement] call itself succeeds and the status
    of its response is neither SUCCESS nor SUCCESS_WITH_INFO,
    [Execute] (synchronous or not) returns with a [HiveError] in the
    error slot whose [Message] is the error message of the status and
    whose [ErrorCode] is its error code. *)
Theorem Execute_stores_HiveError
        (fuel : nat) (ctx : Context) (query : string) (async : bool)
        (c c0 : Cursor) (w w0 : World S) (e0 : option error)
        (cn : Connection) (cl : TCLIServiceClient)
        (resp : TExecuteStatementResp) (s1 : S) :
  resetState env c w = Ok (e0, c0, w0) ->
  conn c = Some cn ->
  client cn = Some cl ->
  ExecuteStatement env cl ctx
    {| exec_SessionHandle := sessionHandle cn; Statement := query; RunAsync := true |}
    (server w0)
  = (Some resp, None, s1) ->
  GetStatusCode (safeStatus (exec_Status resp)) <> SUCCESS_STATUS ->
  GetStatusCode (safeStatus (exec_Status resp)) <> SUCCESS_WITH_INFO_STATUS ->
  exists c',
    Execute env fuel ctx query async c w = Ok (c', with_server w0 s1)
    /\ Err c'
       = Some (HiveError
                 (status_error "Error while executing query: "
                               (safeStatus (exec_Status resp)))
                 (GetErrorMessage (safeStatus (exec_Status resp)))
                 (GetErrorCode (safeStatus (exec_Status resp)))).
Proof.
  intros Hreset Hconn Hclient Hrpc Hs1 Hs2.
  pose proof (not_success _ Hs1 Hs2) as Hfail.
  destruct (resetState_conn _ _ _ _ _ Hreset) as [Hc0 _].
  unfold Execute, executeAsync. rewrite Hreset. cursor_simpl.
  rewrite Hc0, Hconn. cursor_simpl.
  rewrite Hclient. cursor_simpl. rewrite Hrpc.
  cursor_simpl. rewrite Hfail. cursor_simpl.
  eexists. split.
  - destruct async; cursor_simpl; reflexivity.
  - reflexivity.
Qed.

End Submission.

Lemma Execute_stores_HiveError_witness :
  exists c',
    Execute (script_env rejecting_script) 5 ctx_Background
            "SELECT * FROM table_doesnt_exist" false
            (Connection_Cursor example_connection) initial_world
    = Ok (c', initial_world)
    /\ Err c'
       = Some (HiveError
                 (status_error "Error while executing query: " table_not_found)
                 "Error while compiling statement: FAILED: SemanticException [Error 10001]: Line 1:14 Table not found 'table_doesnt_exist'"
                 10001).
Proof.
  exact (Execute_stores_HiveError
           nat (script_env rejecting_script) 5 ctx_Background
           "SELECT * FROM table_doesnt_exist" false
           (Connection_Cursor example_connection)
           (with_state (Connection_Cursor example_connection) _NONE)
           initial_world initial_world None
           example_connection {| client_transport := Some example_socket |}
           {| exec_Status := Some table_not_found; exec_OperationHandle := None |}
           0%nat eq_refl eq_refl eq_refl eq_refl
           ltac:(discriminate) ltac:(discriminate)).
Defined.

Section Completion.

Variable S : Type.
Variable env : Env S.

(** The message built by the code is the one the specification
    describes. *)
Lemma completion_message_preferred (os : TGetOperationStatusResp)
      (st : TOperationState) :
  completion_message os st = Some (spec_preferred_message os st).
Proof.
  unfold completion_message, spec_preferred_message, is_brackets.
  destruct (TaskStatus os) as [t | ]; [ destruct (String.eqb t "[]") | ];
    destruct (poll_ErrorMessage os) as [m | ];
    destruct (poll_Status os) as [s | ];
    try destruct (ErrorMessage s);
    reflexivity.
Qed.

Lemma Poll_response_clean (getProgress : bool) (c c1 : Cursor) (w w1 : World S)
      (os : TGetOperationStatusResp) :
  Poll env getProgress c w = Ok (Some os, c1, w1) -> Err c1 = None.
Proof.
  unfold Poll. cursor_simpl.
  destruct (conn c) as [cn | ]; cursor_simpl; [ | discriminate ].
  destruct (client cn) as [cl | ]; cursor_simpl; [ | discriminate ].
  destruct (GetOperationStatus env cl ctx_Background _ (server w)) as [[resp err] s].
  destruct err as [msg | ]; cursor_simpl; [ discriminate | ].
  destruct resp as [resp | ]; cursor_simpl; [ | discriminate ].
  destruct (success (safeStatus (poll_Status resp))); cursor_simpl;
    [ | discriminate ].
  intros [= _ <- _]. reflexivity.
Qed.

(** C5. When an iteration of the polling loop of [WaitForCompletion]
    (the first one, or any later one) observes an operation state that
    is neither INITIALIZED, RUNNING, PENDING nor FINISHED, the call
    returns with an error whose message is chosen in this order: the
    task status unless it is nil or "[]"; otherwise the error message
    of the response; otherwise the error message of the nested status;
    otherwise the placeholder. *)
Theorem WaitForCompletion_failure_message
        (fuel : nat) (ctx : Context) (c c1 : Cursor) (w w1 : World S)
        (os : TGetOperationStatusResp) (st : TOperationState) :
  Poll env true c w = Ok (Some os, c1, w1) ->
  OperationState os = Some st ->
  st <> INITIALIZED_STATE ->
  st <> RUNNING_STATE ->
  st <> PENDING_STATE ->
  st <> FINISHED_STATE ->
  WaitForCompletion env (Datatypes.S fuel) ctx c w
  = Ok (with_Err c1 (Some (errors_New (spec_preferred_message os st))), w1)
  /\ forall iter,
      WaitForCompletion_loop env (Datatypes.S fuel) iter ctx c w
      = Ok (with_Err c1 (Some (errors_New (spec_preferred_message os st))), w1).
Proof.
  intros Hpoll Hst Hi Hr Hp Hf.
  assert (forall iter,
             WaitForCompletion_loop env (Datatypes.S fuel) iter ctx c w
             = Ok (with_Err c1 (Some (errors_New (spec_preferred_message os st))), w1))
    as Hloop.
  { intros iter. cbn [WaitForCompletion_loop]. rewrite Hpoll. cursor_simpl.
    rewrite (Poll_response_clean _ _ _ _ _ _ Hpoll). cursor_simpl.
    rewrite Hst. cursor_simpl.
    rewrite completion_message_preferred. cursor_simpl.
    destruct st; try congruence; reflexivity. }
  split; [ apply Hloop | exact Hloop ].
Qed.

End Completion.

Lemma WaitForCompletion_failure_message_witness :
  WaitForCompletion (script_env failing_script) 1 ctx_Background
                    submitted_cursor initial_world
  = Ok (with_Err submitted_cursor
                 (Some (errors_New "Error while processing statement: FAILED")),
        initial_world).
Proof.
  exact (proj1 (WaitForCompletion_failure_message
                  nat (script_env failing_script) 0 ctx_Background
                  submitted_cursor (with_Err submitted_cursor None)
                  initial_world initial_world failed_poll ERROR_STATE
                  eq_refl eq_refl ltac:(discriminate) ltac:(discriminate)
                  ltac:(discriminate) ltac:(discriminate))).
Defined.

(** ** Session: close and connect *)

Section Session.

Variable S : Type.
Variable env : Env S.

(** C8. [Connection.Close] issues [CloseSession], then closes the
    transport in the world that call left.  A transport error is
    returned whatever [CloseSession] did (so also when both fail);
    otherwise an error of the [CloseSession] call, or else of its
    non-success status, is returned; nil is returned only when the
    transport closed, the call succeeded and its status is a success. *)
Theorem Connection_Close_errors
        (cn : Connection) (cl : TCLIServiceClient) (t : TTransport) (w : World S)
        (resp : option TStatusResp) (err errT : option string) (s1 s2 : S) :
  client cn = Some cl ->
  transport cn = Some t ->
  CloseSession env cl ctx_Background (sessionHandle cn) (server w) = (resp, err, s1) ->
  transport_Close env t s1 = (errT, s2) ->
  (forall e, errT = Some e ->
     Connection_Close env cn w = Ok (Some (errors_New e), mkWorld s2 (sent w)))
  /\ (forall e, errT = None -> err = Some e ->
        Connection_Close env cn w = Ok (Some (errors_New e), mkWorld s2 (sent w)))
  /\ (forall r, errT = None -> err = None -> resp = Some r ->
        success (safeStatus (resp_Status r)) = false ->
        Connection_Close env cn w
        = Ok (Some (status_error "Error closing the session: "
                                 (safeStatus (resp_Status r))),
              mkWorld s2 (sent w)))
  /\ (forall r, errT = None -> err = None -> resp = Some r ->
        success (safeStatus (resp_Status r)) = true ->
        Connection_Close env cn w = Ok (None, mkWorld s2 (sent w)))
  /\ (forall w', Connection_Close env cn w = Ok (None, w') ->
        errT = None /\ err = None
        /\ exists r, resp = Some r /\ success (safeStatus (resp_Status r)) = true).
Proof.
  intros Hcl Ht Hrpc Hclose.
  unfold Connection_Close. rewrite Hcl. cursor_simpl. rewrite Hrpc, Ht.
  cbn [with_server server sent]. rewrite Hclose.
  cbn [with_server server sent].
  repeat split.
  - intros e ->. reflexivity.
  - intros e -> ->. reflexivity.
  - intros r -> -> -> Hs. cursor_simpl. rewrite Hs. reflexivity.
  - intros r -> -> -> Hs. cursor_simpl. rewrite Hs. reflexivity.
  - destruct errT; [ discriminate | reflexivity ].
  - destruct errT; [ discriminate | ]. destruct err; [ discriminate | reflexivity ].
  - destruct errT; [ discriminate | ]. destruct err; [ discriminate | ].
    destruct resp as [r | ]; cursor_simpl_in H; [ | discriminate ].
    exists r. split; [ reflexivity | ].
    destruct (success (safeStatus (resp_Status r))); [ reflexivity | discriminate ].
Qed.

(** C9. With a nil configuration [innerConnect] panics on a nil
    dereference while it builds the socket: the socket step itself
    panics, before anything was dialled, so the branch that would
    substitute [NewConnectConfiguration] is never reached; a call that
    returns had a configuration. *)
Theorem innerConnect_nil_configuration
        (fuel : nat) (ctx : Context) (host : string) (port : Z) (auth : string)
        (w : World S) :
  connect_socket env ctx (host ++ ":" ++ fmt_d port)%string None w
  = Panic nil_dereference
  /\ innerConnect env fuel ctx host port auth None w = Panic nil_dereference
  /\ forall configuration r,
      innerConnect env fuel ctx host port auth configuration w = Ok r ->
      configuration <> None.
Proof.
  assert (innerConnect env fuel ctx host port auth None w = Panic nil_dereference)
    as Hpanic by reflexivity.
  split; [ reflexivity | split; [ exact Hpanic | ] ].
  intros configuration r Hr ->. rewrite Hpanic in Hr. discriminate Hr.
Qed.

Lemma connect_transport_unsupported
      (host : string) (port : Z) (auth : string) (cfg : ConnectConfiguration)
      (socket : option TTransport) (w : World S) :
  supported_combination (TransportMode cfg) auth = false ->
  connect_transport env host port auth cfg socket w
  = Panic (unrecognized_message (TransportMode cfg)).
Proof.
  unfold supported_combination, unrecognized_message, connect_transport.
  destruct (String.eqb (TransportMode cfg) "http") eqn:Hhttp.
  - apply String.eqb_eq in Hhttp. rewrite Hhttp. cbn [String.eqb Ascii.eqb Bool.eqb andb orb].
    destruct (String.eqb auth "NONE"); [ discriminate | ].
    destruct (String.eqb auth "KERBEROS"); [ discriminate | ].
    reflexivity.
  - destruct (String.eqb (TransportMode cfg) "binary") eqn:Hbin; cbn [andb orb].
    + destruct (String.eqb auth "NOSASL"); [ discriminate | ].
      destruct (String.eqb auth "NONE"); [ discriminate | ].
      destruct (String.eqb auth "LDAP"); [ discriminate | ].
      destruct (String.eqb auth "CUSTOM"); [ discriminate | ].
      destruct (String.eqb auth "KERBEROS"); [ discriminate | ].
      destruct (String.eqb auth "DIGEST-MD5"); [ discriminate | ].
      reflexivity.
    + reflexivity.
Qed.

Lemma connect_credentials_mode (cfg cfg' : ConnectConfiguration) (w : World S)
      (err : option error) :
  connect_credentials env cfg w = Ok (cfg', err) ->
  TransportMode cfg' = TransportMode cfg.
Proof.
  unfold connect_credentials.
  destruct (String.eqb (Username cfg) "").
  - destruct (user_Current env (server w)) as [u e].
    destruct e as [e | ]; cursor_simpl.
    + intros [= <- _]. reflexivity.
    + destruct u as [name | ]; cursor_simpl; [ | discriminate ].
      cbn [with_credentials Password Username].
      destruct (String.eqb (Password cfg) ""); intros [= <- _]; reflexivity.
  - cursor_simpl. destruct (String.eqb (Password cfg) "");
      intros [= <- _]; reflexivity.
Qed.

(** C6 (amended). For a pair of transport mode and authentication
    outside the table, [innerConnect] never returns a connection, and
    once the socket is open and the credentials are resolved it does
    not return at all: it panics, with "Unrecognized auth" for the
    modes http and binary and with "Unrecognized transport mode "
    followed by the mode otherwise. *)
Theorem innerConnect_unsupported_combination
        (fuel : nat) (ctx : Context) (host : string) (port : Z) (auth : string)
        (cfg : ConnectConfiguration) (w : World S) :
  supported_combination (TransportMode cfg) auth = false ->
  (forall socket w1 cfg1,
      connect_socket env ctx (host ++ ":" ++ fmt_d port)%string (Some cfg) w
      = Ok (socket, None, w1) ->
      connect_credentials env cfg w1 = Ok (cfg1, None) ->
      innerConnect env fuel ctx host port auth (Some cfg) w
      = Panic (unrecognized_message (TransportMode cfg)))
  /\ (forall cn e w',
         innerConnect env fuel ctx host port auth (Some cfg) w <> Ok (Some cn, e, w')).
Proof.
  intros Hunsup. split.
  - intros socket w1 cfg1 Hsock Hcred.
    unfold innerConnect. rewrite Hsock. cbn [obind]. rewrite Hcred. cbn [obind].
    rewrite connect_transport_unsupported
      by (rewrite (connect_credentials_mode _ _ _ _ Hcred); exact Hunsup).
    rewrite (connect_credentials_mode _ _ _ _ Hcred). reflexivity.
  - intros cn e w'. unfold innerConnect.
    destruct (connect_socket env ctx _ (Some cfg) w) as [[[socket serr] w1] | | ];
      cbn [obind]; try discriminate.
    destruct serr as [e1 | ]; [ discriminate | ].
    destruct (connect_credentials env cfg w1) as [[cfg1 cerr] | | ] eqn:Hcred;
      cbn [obind]; try discriminate.
    destruct cerr as [e1 | ]; [ discriminate | ].
    rewrite connect_transport_unsupported
      by (rewrite (connect_credentials_mode _ _ _ _ Hcred); exact Hunsup).
    discriminate.
Qed.

End Session.

Lemma innerConnect_nil_configuration_witness :
  innerConnect paged_env 5 ctx_TODO "hs2.example.com" 10000 "NONE" None initial_world
  = Panic nil_dereference.
Proof.
  exact (proj1 (proj2 (innerConnect_nil_configuration
                         nat paged_env 5 ctx_TODO "hs2.example.com" 10000 "NONE"
                         initial_world))).
Defined.

Lemma Connection_Close_errors_witness :
  Connection_Close (script_env broken_close_script) example_connection initial_world
  = Ok (Some (errors_New "close tcp: use of closed network connection"), initial_world).
Proof.
  exact (proj1 (Connection_Close_errors
                  nat (script_env broken_close_script) example_connection
                  {| client_transport := Some example_socket |} example_socket
                  initial_world None (Some "write tcp: broken pipe")
                  (Some "close tcp: use of closed network connection")
                  0%nat 0%nat eq_refl eq_refl eq_refl eq_refl)
               "close tcp: use of closed network connection" eq_refl).
Defined.

(** C6 (as stated) fails: with the socket open and the credentials
    present, an unknown authentication or an unknown transport mode
    makes [innerConnect] panic; no error is returned to the caller. *)
Lemma innerConnect_panics_on_unrecognized :
  innerConnect paged_env 5 ctx_TODO "hs2.example.com" 10000 "PAM"
               (Some NewConnectConfiguration) initial_world
  = Panic "Unrecognized auth"
  /\ innerConnect paged_env 5 ctx_TODO "hs2.example.com" 10000 "NONE"
                  (Some unknown_mode_configuration) initial_world
     = Panic "Unrecognized transport mode zookeeper"
  /\ ~ (exists e w',
           innerConnect paged_env 5 ctx_TODO "hs2.example.com" 10000 "PAM"
                        (Some NewConnectConfiguration) initial_world
           = Ok (None, Some e, w')).
Proof.
  split; [ vm_compute; reflexivity | ].
  split; [ vm_compute; reflexivity | ].
  intros (e & w' & H). vm_compute in H. discriminate H.
Qed.

Lemma innerConnect_unsupported_combination_witness :
  innerConnect paged_env 5 ctx_TODO "hs2.example.com" 10000 "PAM"
               (Some NewConnectConfiguration) initial_world
  = Panic "Unrecognized auth".
Proof.
  exact (proj1 (innerConnect_unsupported_combination
                  nat paged_env 5 ctx_TODO "hs2.example.com" 10000 "PAM"
                  NewConnectConfiguration initial_world eq_refl)
               (Some (TSocket "hs2.example.com:10000"
                        {| conf_ConnectTimeout := 0; conf_SocketTimeout := 0;
                           conf_TLSConfig := None |} false))
               initial_world
               (with_credentials NewConnectConfiguration "hiveuser" "x")
               eq_refl eq_refl).
Defined.

(** ** Type mismatch in [FetchOne] *)

Lemma nth_error_set_index_other {A : Type} (s : list A) (i j : nat) (a : A) :
  i <> j -> nth_error (set_index s i a) j = nth_error s j.
Proof.
  revert i j. induction s as [ | x s IH]; intros i j Hne.
  - destruct i; reflexivity.
  - destruct i, j; cbn; try reflexivity; try congruence.
    apply IH. congruence.
Qed.

Lemma set_index_same {A : Type} (s : list A) (i : nat) (a : A) :
  nth_error s i = Some a -> set_index s i a = s.
Proof.
  revert i. induction s as [ | x s IH]; intros i H.
  - destruct i; reflexivity.
  - destruct i; cbn in *.
    + congruence.
    + f_equal. auto.
Qed.

Lemma len_cons {A : Type} (x : A) (s : list A) : len (x :: s) = len s + 1.
Proof. unfold len. cbn [List.length]. lia. Qed.

Lemma len_nonneg {A : Type} (s : list A) : 0 <= len s.
Proof. unfold len. lia. Qed.

Lemma at_index_nth {A : Type} (s : list A) (n : nat) (a : A) :
  nth_error s n = Some a -> at_index s (Z.of_nat n) = Ok a.
Proof.
  intros H. unfold at_index.
  destruct (Z.of_nat n <? 0) eqn:E; [ apply Z.ltb_lt in E; lia | ].
  now rewrite Nat2Z.id, H.
Qed.

(** The loop over [pre ++ rest] is the loop over [pre], then, unless
    that ended with an error, the loop over [rest]. *)
Lemma FetchOne_loop_app (pre rest : list TColumn) (columnIndex : Z) :
  forall (i : Z) (dests : list dest),
    FetchOne_loop (pre ++ rest) i columnIndex dests
    = (' (err, dests1) <- FetchOne_loop pre i columnIndex dests ;;
       match err with
       | Some e => Ok (Some e, dests1)
       | None => FetchOne_loop rest (i + len pre) columnIndex dests1
       end).
Proof.
  induction pre as [ | col pre IH]; intros i dests.
  - cbn. now rewrite Z.add_0_r.
  - cbn [app FetchOne_loop].
    destruct (at_index dests i) as [d | | ]; cbn [obind]; try reflexivity.
    destruct (FetchOne_column col columnIndex i d) as [[err d'] | | ];
      cbn [obind]; try reflexivity.
    destruct err as [e | ]; [ reflexivity | ].
    rewrite IH, len_cons.
    replace (i + 1 + len pre) with (i + (len pre + 1)) by lia. reflexivity.
Qed.

(** The loop writes only the destinations of the columns it visits. *)
Lemma FetchOne_loop_frame (cols : list TColumn) (columnIndex : Z) :
  forall (i : Z) (dests dests' : list dest) (r : option error) (j : nat),
    0 <= i ->
    FetchOne_loop cols i columnIndex dests = Ok (r, dests') ->
    (Z.to_nat i + List.length cols <= j)%nat ->
    nth_error dests' j = nth_error dests j.
Proof.
  induction cols as [ | col cols IH]; intros i dests dests' r j Hi H Hj.
  - cbn in H. congruence.
  - cbn [FetchOne_loop] in H.
    destruct (at_index dests i) as [d | | ]; cbn [obind] in H; try discriminate H.
    destruct (FetchOne_column col columnIndex i d) as [[err d'] | | ];
      cbn [obind] in H; try discriminate H.
    cbn [List.length] in Hj.
    destruct err as [e | ].
    + injection H as _ <-. apply nth_error_set_index_other. lia.
    + apply (IH (i + 1) _ _ _ j) in H; [ | lia | lia ].
      rewrite H. apply nth_error_set_index_other. lia.
Qed.

Lemma FetchOne_column_dispatch (col : TColumn) (k : GoKind) :
  column_kind col = Some k ->
  exists (vec : TCol (GoVal k)) (nil_value : GoVal k),
    column_vector col k = Some vec
    /\ forall columnIndex i d,
        FetchOne_column col columnIndex i d = fetch_into k vec nil_value columnIndex i d.
Proof.
  unfold column_kind, FetchOne_column.
  unfold IsSetBinaryVal, IsSetByteVal, IsSetI16Val, IsSetI32Val, IsSetI64Val,
    IsSetBoolVal, IsSetDoubleVal, IsSetStringVal.
  destruct col as [bo by_ i16 i32 i64 db st bi];
    cbn [BoolVal ByteVal I16Val I32Val I64Val DoubleVal StringVal BinaryVal].
  destruct bi as [v | ]; cbn [is_set];
    [ intros [= <-]; eexists; eexists; split; [ reflexivity | reflexivity ] | ].
  destruct by_ as [v | ]; cbn [is_set];
    [ intros [= <-]; eexists; eexists; split; [ reflexivity | reflexivity ] | ].
  destruct i16 as [v | ]; cbn [is_set];
    [ intros [= <-]; eexists; eexists; split; [ reflexivity | reflexivity ] | ].
  destruct i32 as [v | ]; cbn [is_set];
    [ intros [= <-]; eexists; eexists; split; [ reflexivity | reflexivity ] | ].
  destruct i64 as [v | ]; cbn [is_set];
    [ intros [= <-]; eexists; eexists; split; [ reflexivity | reflexivity ] | ].
  destruct st as [v | ]; cbn [is_set];
    [ intros [= <-]; eexists; eexists; split; [ reflexivity | reflexivity ] | ].
  destruct db as [v | ]; cbn [is_set];
    [ intros [= <-]; eexists; eexists; split; [ reflexivity | reflexivity ] | ].
  destruct bo as [v | ]; cbn [is_set];
    [ intros [= <-]; eexists; eexists; split; [ reflexivity | reflexivity ] | ].
  discriminate.
Qed.

Lemma fetch_into_mismatch (k : GoKind) (vec : TCol (GoVal k)) (nil_value v : GoVal k)
      (columnIndex i : Z) (d : dest) :
  matches_kind k d = false ->
  at_index (Values vec) columnIndex = Ok v ->
  fetch_into k vec nil_value columnIndex i d
  = Ok (Some (unexpected_type_error d k v i), d).
Proof.
  intros Hm Hv. unfold fetch_into. rewrite Hv. cbn [obind].
  destruct d as [ | k' p | k' p | k' p | name]; cbn [matches_kind] in Hm.
  - discriminate Hm.
  - rewrite Hm. reflexivity.
  - rewrite Hm. reflexivity.
  - reflexivity.
  - reflexivity.
Qed.

Section TypeMismatch.

Variable S : Type.
Variable env : Env S.

Lemma fetchIfEmpty_clears_first (fuel : nat) (ctx : Context) (c : Cursor) (w : World S) :
  fetchIfEmpty env fuel ctx (with_Err c None) w = fetchIfEmpty env fuel ctx c w.
Proof. destruct c; reflexivity. Qed.

(** A [HasMore] that answers true without error on a consumed batch
    has loaded a new batch. *)
Lemma HasMore_reloads (fuel : nat) (ctx : Context) (c c2 : Cursor) (w w2 : World S) :
  HasMore env fuel ctx c w = Ok (true, c2, w2) ->
  Err c2 = None ->
  totalRows c = columnIndex c ->
  columnIndex c2 = 0.
Proof.
  unfold HasMore. intros H He Heq.
  assert (forall err c3 w3,
             pollUntilData env fuel ctx 1 (with_Err c None) w = Ok (err, c3, w3) ->
             Err (with_Err c3 err) = None -> columnIndex (with_Err c3 err) = 0)
    as Hpoll.
  { intros err c3 w3 Hp He3. cbn [with_Err Err] in He3. subst err.
    cbn [with_Err columnIndex].
    exact (proj1 (proj2 (pollUntilData_success S env _ _ _ _ _ _ _ Hp))). }
  destruct (negb (is_set (response (with_Err c None)))
            && negb (state (with_Err c None) =? _FINISHED)).
  - destruct (pollUntilData env fuel ctx 1 (with_Err c None) w)
      as [[[err c3] w3] | | ] eqn:Hp; cbn [obind] in H; try discriminate H.
    injection H as _ <- _. eapply Hpoll; eauto.
  - cbn [with_Err totalRows columnIndex state] in H.
    rewrite Heq, Z.eqb_refl in H. cbn [andb] in H.
    destruct (negb (state c =? _FINISHED)) eqn:Hfin.
    + destruct (pollUntilData env fuel ctx 1 (with_Err c None) w)
        as [[[err c3] w3] | | ] eqn:Hp; cbn [obind] in H; try discriminate H.
      injection H as _ <- _. eapply Hpoll; eauto.
    + cbn [obind with_Err totalRows columnIndex state] in H.
      rewrite Hfin, Heq, Z.eqb_refl in H. discriminate H.
Qed.

(** What [fetchIfEmpty] does to the row cursor when it leaves no
    error: nothing if the batch had unread rows, and otherwise a new
    batch was loaded and the row cursor is at 0. *)
Lemma fetchIfEmpty_columnIndex (fuel : nat) (ctx : Context) (c c1 : Cursor)
      (w w1 : World S) :
  fetchIfEmpty env fuel ctx c w = Ok (c1, w1) ->
  Err c1 = None ->
  (totalRows c <> columnIndex c -> columnIndex c1 = columnIndex c /\ w1 = w)
  /\ (totalRows c = columnIndex c -> columnIndex c1 = 0).
Proof.
  unfold fetchIfEmpty. cursor_simpl. intros H He.
  destruct (totalRows c =? columnIndex c) eqn:Heq.
  - apply Z.eqb_eq in Heq. split; [ contradiction | intros _ ].
    destruct (HasMore env fuel ctx (with_queue (with_Err c None) []) w)
      as [[[more c2] w2] | | ] eqn:Hmore; cbn [obind] in H; try discriminate H.
    destruct more; cbn [negb] in H; injection H as <- <-;
      [ | discriminate He ].
    exact (HasMore_reloads _ _ _ _ _ _ Hmore He Heq).
  - apply Z.eqb_neq in Heq. injection H as <- <-.
    split; [ intros _; split; reflexivity | contradiction ].
Qed.

(** C7 (amended). When a row is available ([fetchIfEmpty] leaves no
    error), the number of destinations is right, the columns before
    column [pre] are stored without error, and the destination of that
    column does not match the kind of its populated vector (whose value
    at the row cursor exists), [FetchOne] returns with the type
    mismatch error for that destination and column in the error slot
    and does not increment [columnIndex]: it keeps the value that
    [fetchIfEmpty] left.  That is the value before the call when the
    batch had unread rows; when the call had to load a new batch it is
    0. *)
Theorem FetchOne_type_mismatch
        (fuel : nat) (ctx : Context) (dests dests1 : list dest)
        (c c1 : Cursor) (w w1 : World S)
        (pre post : list TColumn) (col : TColumn) (d : dest)
        (k : GoKind) (vec : TCol (GoVal k)) (v : GoVal k) :
  fetchIfEmpty env fuel ctx c w = Ok (c1, w1) ->
  Err c1 = None ->
  queue c1 = pre ++ col :: post ->
  len (queue c1) = len dests ->
  FetchOne_loop pre 0 (columnIndex c1) dests = Ok (None, dests1) ->
  nth_error dests (List.length pre) = Some d ->
  column_kind col = Some k ->
  matches_kind k d = false ->
  column_vector col k = Some vec ->
  at_index (Values vec) (columnIndex c1) = Ok v ->
  exists c',
    FetchOne env fuel ctx dests c w = Ok (dests1, c', w1)
    /\ Err c' = Some (unexpected_type_error d k v (len pre))
    /\ columnIndex c' = columnIndex c1
    /\ (totalRows c <> columnIndex c -> columnIndex c' = columnIndex c)
    /\ (totalRows c = columnIndex c -> columnIndex c' = 0).
Proof.
  intros Hfetch He Hq Hlen Hpre Hd Hk Hm Hvec Hv.
  destruct (fetchIfEmpty_columnIndex _ _ _ _ _ _ Hfetch He) as [Hkeep Hload].
  destruct (FetchOne_column_dispatch col k Hk) as (vec' & nil_value & Hvec' & Hcol).
  rewrite Hvec in Hvec'. injection Hvec' as <-.
  assert (nth_error dests1 (List.length pre) = Some d) as Hd1.
  { rewrite (FetchOne_loop_frame pre (columnIndex c1) 0 dests dests1 None
               (List.length pre)); [ exact Hd | lia | exact Hpre | cbn; lia ]. }
  assert (FetchOne_loop (queue c1) 0 (columnIndex c1) dests
          = Ok (Some (unexpected_type_error d k v (len pre)), dests1)) as Hloop.
  { rewrite Hq, FetchOne_loop_app, Hpre. cbn [obind FetchOne_loop].
    rewrite Z.add_0_l. unfold len at 1.
    rewrite (at_index_nth _ _ _ Hd1). cbn [obind].
    rewrite Hcol. fold (len pre).
    rewrite (fetch_into_mismatch k vec nil_value v _ _ d Hm Hv). cbn [obind].
    unfold len. rewrite Nat2Z.id, (set_index_same _ _ _ Hd1). reflexivity. }
  exists (with_Err c1 (Some (unexpected_type_error d k v (len pre)))).
  split.
  - unfold FetchOne. rewrite fetchIfEmpty_clears_first, Hfetch. cbn [obind].
    rewrite He. cbn [is_set]. rewrite Hlen, Z.eqb_refl. cbn [negb].
    rewrite Hloop. reflexivity.
  - cbn [with_Err Err columnIndex]. repeat split.
    + intros Hne. apply Hkeep. exact Hne.
    + exact Hload.
Qed.

End TypeMismatch.

(** C7 (as stated) fails: at the end of a batch the failed call loads
    the next batch first, so [columnIndex], 2 before the call, is 0
    after it. *)
Lemma FetchOne_mismatch_moves_columnIndex :
  columnIndex (fst two_rows_read) = 2
  /\ totalRows (fst two_rows_read) = 2
  /\ exists dests' c' w',
      FetchOne paged_env 1 ctx_Background
               [dest_ptr KBool false; dest_ptr KString ""]
               (fst two_rows_read) (snd two_rows_read)
      = Ok (dests', c', w')
      /\ Err c' = Some (unexpected_type_error (dest_ptr KBool false) KI32 3 0)
      /\ columnIndex c' = 0
      /\ columnIndex c' <> columnIndex (fst two_rows_read).
Proof.
  split; [ vm_compute; reflexivity | ].
  split; [ vm_compute; reflexivity | ].
  eexists. eexists. eexists.
  split; [ vm_compute; reflexivity | ].
  split; [ reflexivity | ].
  split; [ reflexivity | ].
  vm_compute. discriminate.
Qed.

Lemma FetchOne_type_mismatch_witness :
  exists c',
    FetchOne paged_env 1 ctx_Background
             [dest_ptr KI32 0; dest_ptr KBool false]
             (fst (executed paged_env)) (snd (executed paged_env))
    = Ok ([dest_ptr KI32 1; dest_ptr KBool false], c', snd first_batch_loaded)
    /\ Err c' = Some (unexpected_type_error (dest_ptr KBool false) KString "1" 1)
    /\ columnIndex c' = 0.
Proof.
  destruct (FetchOne_type_mismatch
              nat paged_env 1 ctx_Background
              [dest_ptr KI32 0; dest_ptr KBool false]
              [dest_ptr KI32 1; dest_ptr KBool false]
              (fst (executed paged_env)) (fst first_batch_loaded)
              (snd (executed paged_env)) (snd first_batch_loaded)
              [i32_column [1; 2] [0]] [] (string_column ["1"; "2"] [0])
              (dest_ptr KBool false) KString
              {| Values := ["1"; "2"]; Nulls := [0] |} "1"
              ltac:(vm_compute; reflexivity) ltac:(vm_compute; reflexivity)
              ltac:(vm_compute; reflexivity) ltac:(vm_compute; reflexivity)
              ltac:(vm_compute; reflexivity) eq_refl eq_refl eq_refl eq_refl
              ltac:(vm_compute; reflexivity))
    as (c' & Hcall & Herr & _ & _ & Hzero).
  exists c'. split; [ exact Hcall | split; [ exact Herr | ] ].
  apply Hzero. vm_compute. reflexivity.
Defined.

(** * Further properties *)

(** ** Maps *)

Lemma map_get_set_same {V : Type} (m : gomap V) (k : string) (v : V) :
  map_get (map_set m k v) k = Some v.
Proof. unfold map_set. cbn [map_get]. now rewrite String.eqb_refl. Qed.

Lemma map_get_filter_other {V : Type} (m : gomap V) (k k' : string) :
  k <> k' ->
  map_get (filter (fun kv => negb (String.eqb (fst kv) k)) m) k' = map_get m k'.
Proof.
  intros Hne. induction m as [ | [k0 v0] m IH]; [ reflexivity | ].
  cbn [filter fst]. destruct (String.eqb k0 k) eqn:E0; cbn [negb map_get].
  - apply String.eqb_eq in E0. subst k0.
    destruct (String.eqb k k') eqn:E1; [ apply String.eqb_eq in E1; contradiction | ].
    exact IH.
  - destruct (String.eqb k0 k'); [ reflexivity | exact IH ].
Qed.

Lemma map_get_set_other {V : Type} (m : gomap V) (k k' : string) (v : V) :
  k <> k' -> map_get (map_set m k v) k' = map_get m k'.
Proof.
  intros Hne. unfold map_set. cbn [map_get].
  destruct (String.eqb k k') eqn:E; [ apply String.eqb_eq in E; contradiction | ].
  now apply map_get_filter_other.
Qed.

Lemma map_get_set_present {V : Type} (m : gomap V) (k k' : string) (v : V) :
  map_get m k' <> None -> map_get (map_set m k v) k' <> None.
Proof.
  intros H. destruct (String.eqb k k') eqn:E.
  - apply String.eqb_eq in E. subst k'. rewrite map_get_set_same. discriminate.
  - apply String.eqb_neq in E. now rewrite map_get_set_other.
Qed.

Lemma map_get_In {V : Type} (m : gomap V) (k : string) :
  map_get m k <> None <-> In k (map fst m).
Proof.
  induction m as [ | [k0 v0] m IH]; cbn [map_get map fst In].
  - split; [ congruence | contradiction ].
  - destruct (String.eqb k0 k) eqn:E.
    + apply String.eqb_eq in E. split; [ auto | discriminate ].
    + apply String.eqb_neq in E. rewrite IH. split; [ auto | intros [H | H]; congruence ].
Qed.

Lemma filter_keys_NoDup {V : Type} (m : gomap V) (f : string * V -> bool) :
  NoDup (map fst m) -> NoDup (map fst (filter f m)).
Proof.
  induction m as [ | [k v] m IH]; cbn [filter map fst]; intros H.
  - constructor.
  - inversion H as [ | ? ? Hnin Hnd]; subst.
    destruct (f (k, v)); cbn [map fst]; [ | auto ].
    constructor; [ | auto ].
    intros Hin. apply Hnin.
    apply in_map_iff in Hin. destruct Hin as (kv & Hk & Hf).
    apply filter_In in Hf. apply in_map_iff. exists kv. tauto.
Qed.

Lemma map_set_NoDup {V : Type} (m : gomap V) (k : string) (v : V) :
  NoDup (map fst m) -> NoDup (map fst (map_set m k v)).
Proof.
  intros H. unfold map_set. cbn [map fst]. constructor.
  - intros Hin. apply in_map_iff in Hin. destruct Hin as ([k0 v0] & Hk & Hf).
    apply filter_In in Hf. cbn [fst] in *. subst k0.
    rewrite String.eqb_refl in Hf. destruct Hf as [_ Hf]. discriminate Hf.
  - now apply filter_keys_NoDup.
Qed.

(** ** Discovery *)

Lemma parse_params_keys (params : list string) :
  forall (node node' : gomap string) (validFormat : bool),
    (validFormat = true ->
     map_get node "host" <> None /\ map_get node "port" <> None) ->
    parse_params params node validFormat = (node', true) ->
    map_get node' "host" <> None /\ map_get node' "port" <> None.
Proof.
  induction params as [ | param rest IH]; intros node node' validFormat Hinv H.
  - cbn in H. injection H as <- ->. auto.
  - cbn [parse_params] in H.
    destruct (Split param "=") as [ | k [ | v tl]];
      try (injection H as <- ->; auto; fail).
    destruct (String.eqb k "serverUri").
    + destruct (Split v ":") as [ | h [ | p [ | x xs]]];
        try (injection H as <- ->; auto; fail).
      eapply IH; [ | exact H ].
      intros _. split.
      * apply map_get_set_present. rewrite map_get_set_same. discriminate.
      * rewrite map_get_set_same. discriminate.
    + eapply IH; [ | exact H ].
      intros Hv. destruct (Hinv Hv). split; now apply map_get_set_present.
Qed.

(** X1. Every node that [parseHiveServer2Info] returns has an entry
    for "host" and one for "port", and there are at most as many nodes
    as names. *)
Theorem parseHiveServer2Info_nodes (hsInfos : list string) :
  Forall (fun node => map_get node "host" <> None /\ map_get node "port" <> None)
         (parseHiveServer2Info hsInfos)
  /\ (List.length (parseHiveServer2Info hsInfos) <= List.length hsInfos)%nat.
Proof.
  induction hsInfos as [ | hsInfo rest [IHf IHl]]; cbn [parseHiveServer2Info].
  - split; [ constructor | cbn; lia ].
  - destruct (parse_params (Split hsInfo ";") [] false) as [node validFormat] eqn:Hp.
    destruct validFormat.
    + split.
      * constructor; [ | exact IHf ].
        eapply parse_params_keys; [ | exact Hp ]. discriminate.
      * cbn [List.length]. lia.
    + split; [ exact IHf | cbn [List.length]; lia ].
Qed.

Lemma Split_nonempty (s : string) (sep : ascii) : Split s sep <> [].
Proof.
  destruct s as [ | a s]; cbn [Split]; [ discriminate | ].
  destruct (Ascii.eqb a sep); [ discriminate | ].
  destruct (Split s sep); discriminate.
Qed.

Lemma Split_without (s : string) (sep : ascii) :
  has_char sep s = false -> Split s sep = [s].
Proof.
  induction s as [ | a s IH]; cbn [has_char Split]; [ reflexivity | ].
  intros H. apply orb_false_iff in H. destruct H as [Ha Hs].
  rewrite Ha, (IH Hs). reflexivity.
Qed.

Lemma Split_app (a b : string) (sep : ascii) :
  has_char sep a = false ->
  Split (a ++ String sep b) sep = a :: Split b sep.
Proof.
  induction a as [ | x a IH]; cbn [has_char String.append Split].
  - intros _. now rewrite Ascii.eqb_refl.
  - intros H. apply orb_false_iff in H. destruct H as [Hx Ha].
    rewrite Hx, (IH Ha). reflexivity.
Qed.

Lemma has_char_app (c : ascii) (a b : string) :
  has_char c (a ++ b) = has_char c a || has_char c b.
Proof.
  induction a as [ | x a IH]; cbn [String.append has_char]; [ reflexivity | ].
  now rewrite IH, orb_assoc.
Qed.

Lemma append_assoc (a b c : string) : ((a ++ b) ++ c = a ++ (b ++ c))%string.
Proof.
  induction a as [ | x a IH]; cbn [String.append]; [ reflexivity | now rewrite IH ].
Qed.

Lemma append_empty_r (a : string) : (a ++ "")%string = a.
Proof. induction a as [ | x a IH]; cbn [String.append]; congruence. Qed.

Lemma plain_param_facts (kv : string * string) :
  plain_param kv = true ->
  has_char ";" (fst kv) = false /\ has_char "=" (fst kv) = false
  /\ has_char ";" (snd kv) = false /\ has_char "=" (snd kv) = false
  /\ fst kv <> "serverUri" /\ fst kv <> "host" /\ fst kv <> "port".
Proof.
  unfold plain_param. intros H.
  apply andb_true_iff in H. destruct H as [H H7].
  apply andb_true_iff in H. destruct H as [H H6].
  apply andb_true_iff in H. destruct H as [H H5].
  apply andb_true_iff in H. destruct H as [H H4].
  apply andb_true_iff in H. destruct H as [H H3].
  apply andb_true_iff in H. destruct H as [H1 H2].
  apply negb_true_iff in H1, H2, H3, H4, H5, H6, H7.
  apply String.eqb_neq in H5, H6, H7. tauto.
Qed.

(** The parameters of a rendered node name. *)
Lemma Split_render_params (a : string) (extra : list (string * string)) :
  has_char ";" a = false ->
  Forall (fun kv => plain_param kv = true) extra ->
  Split (a ++ render_params extra) ";"
  = a :: map (fun kv => (fst kv ++ "=" ++ snd kv)%string) extra.
Proof.
  intros Ha Hex. revert a Ha.
  induction Hex as [ | [k v] extra Hkv Hex IH]; intros a Ha; cbn [render_params map].
  - rewrite append_empty_r. now apply Split_without.
  - change (";" ++ k ++ "=" ++ v ++ render_params extra)%string
      with (String ";" (k ++ "=" ++ v ++ render_params extra)%string).
    rewrite Split_app by exact Ha. f_equal.
    cbn [fst snd].
    replace (k ++ "=" ++ v ++ render_params extra)%string
      with ((k ++ "=" ++ v) ++ render_params extra)%string
      by (rewrite !append_assoc; reflexivity).
    apply IH.
    destruct (plain_param_facts _ Hkv) as (H1 & _ & H3 & _). cbn [fst snd] in H1, H3.
    rewrite !has_char_app. cbn [has_char Ascii.eqb Bool.eqb orb].
    now rewrite H1, H3.
Qed.

Lemma parse_params_extra (extra : list (string * string)) :
  forall node : gomap string,
    Forall (fun kv => plain_param kv = true) extra ->
    parse_params (map (fun kv => (fst kv ++ "=" ++ snd kv)%string) extra) node true
    = (fold_left (fun m kv => map_set m (fst kv) (snd kv)) extra node, true).
Proof.
  induction extra as [ | [k v] extra IH]; intros node Hex; [ reflexivity | ].
  inversion Hex as [ | ? ? Hkv Hex']; subst.
  destruct (plain_param_facts _ Hkv) as (_ & H2 & _ & H4 & H5 & _).
  cbn [fst snd] in *.
  cbn [map parse_params fst snd].
  change (k ++ "=" ++ v)%string with (k ++ String "=" v)%string.
  rewrite Split_app by exact H2. rewrite (Split_without v "=" H4).
  apply String.eqb_neq in H5. rewrite H5.
  cbn [fold_left fst snd]. now apply IH.
Qed.

Lemma fold_set_other (extra : list (string * string)) (key : string) :
  forall node : gomap string,
    Forall (fun kv => fst kv <> key) extra ->
    map_get (fold_left (fun m kv => map_set m (fst kv) (snd kv)) extra node) key
    = map_get node key.
Proof.
  induction extra as [ | [k v] extra IH]; intros node Hex; [ reflexivity | ].
  inversion Hex as [ | ? ? Hk Hex']; subst. cbn [fold_left fst snd].
  rewrite IH by exact Hex'. now apply map_get_set_other.
Qed.

Lemma length_zero_empty (s : string) :
  (Z.of_nat (String.length s) =? 0) = String.eqb s "".
Proof. destruct s; reflexivity. Qed.

(** X2. A node name as the servers register it,
    [serverUri=host:port;key=value;...], with a non-empty host and port
    free of separators and further parameters under other keys, is
    parsed into one node whose "host" and "port" are that host and
    port; the names after it are parsed as they would be alone. *)
Theorem parseHiveServer2Info_render
        (host port : string) (extra : list (string * string)) (rest : list string) :
  host <> "" ->
  port <> "" ->
  plain host = true ->
  plain port = true ->
  Forall (fun kv => plain_param kv = true) extra ->
  exists node,
    parseHiveServer2Info (render_info host port extra :: rest)
    = node :: parseHiveServer2Info rest
    /\ map_get node "host" = Some host
    /\ map_get node "port" = Some port.
Proof.
  intros Hh Hp Hph Hpp Hex.
  unfold plain in Hph, Hpp.
  apply andb_true_iff in Hph. destruct Hph as [Hph Hh3].
  apply andb_true_iff in Hph. destruct Hph as [Hh1 Hh2].
  apply andb_true_iff in Hpp. destruct Hpp as [Hpp Hp3].
  apply andb_true_iff in Hpp. destruct Hpp as [Hp1 Hp2].
  apply negb_true_iff in Hh1, Hh2, Hh3, Hp1, Hp2, Hp3.
  exists (fold_left (fun m kv => map_set m (fst kv) (snd kv)) extra
                    (map_set (map_set [] "host" host) "port" port)).
  split; [ | split ].
  - cbn [parseHiveServer2Info]. unfold render_info.
    replace ("serverUri=" ++ host ++ ":" ++ port ++ render_params extra)%string
      with (("serverUri=" ++ host ++ ":" ++ port) ++ render_params extra)%string
      by (rewrite !append_assoc; reflexivity).
    rewrite Split_render_params;
      [ | rewrite !has_char_app; cbn [has_char Ascii.eqb Bool.eqb orb];
          now rewrite Hh1, Hp1
        | exact Hex ].
    cbn [parse_params].
    change ("serverUri=" ++ host ++ ":" ++ port)%string
      with ("serverUri" ++ String "=" (host ++ ":" ++ port))%string.
    rewrite Split_app by reflexivity.
    rewrite (Split_without (host ++ ":" ++ port) "=")
      by (rewrite !has_char_app; cbn [has_char Ascii.eqb Bool.eqb orb];
          now rewrite Hh2, Hp2).
    rewrite String.eqb_refl.
    change (host ++ ":" ++ port)%string with (host ++ String ":" port)%string.
    rewrite Split_app by exact Hh3. rewrite (Split_without port ":" Hp3).
    unfold map_string.
    rewrite map_get_set_same, map_get_set_other, map_get_set_same by discriminate.
    rewrite !length_zero_empty.
    apply String.eqb_neq in Hh, Hp. rewrite Hh, Hp. cbn [negb andb].
    rewrite parse_params_extra by exact Hex. reflexivity.
  - rewrite fold_set_other.
    + rewrite map_get_set_other by discriminate. apply map_get_set_same.
    + eapply Forall_impl; [ | exact Hex ].
      intros kv Hkv. apply plain_param_facts in Hkv. tauto.
  - rewrite fold_set_other.
    + apply map_get_set_same.
    + eapply Forall_impl; [ | exact Hex ].
      intros kv Hkv. apply plain_param_facts in Hkv. tauto.
Qed.

Lemma parseHiveServer2Info_render_witness :
  exists node,
    parseHiveServer2Info
      ["serverUri=hs2.example.com:10000;version=3.1.2;sequence=0000000007"]
    = [node]
    /\ map_get node "host" = Some "hs2.example.com"
    /\ map_get node "port" = Some "10000".
Proof.
  exact (parseHiveServer2Info_render
           "hs2.example.com" "10000"
           [("version", "3.1.2"); ("sequence", "0000000007")] []
           ltac:(discriminate) ltac:(discriminate) eq_refl eq_refl
           ltac:(repeat constructor)).
Defined.

Lemma parse_params_invalid (params : list string) :
  forall node : gomap string,
    (forall param, In param params -> param_key param <> "serverUri") ->
    snd (parse_params params node false) = false.
Proof.
  induction params as [ | param rest IH]; intros node Hkeys; [ reflexivity | ].
  cbn [parse_params].
  pose proof (Hkeys param (or_introl eq_refl)) as Hk. unfold param_key in Hk.
  destruct (Split param "=") as [ | k [ | v tl]]; try reflexivity.
  cbn [hd] in Hk. apply String.eqb_neq in Hk. rewrite Hk.
  apply IH. intros p Hp. apply Hkeys. now right.
Qed.

(** X3. A node name none of whose parameters has the key "serverUri"
    (the empty name included) yields no node: the result is that of the
    remaining names. *)
Theorem parseHiveServer2Info_without_serverUri (hsInfo : string) (rest : list string) :
  (forall param, In param (Split hsInfo ";") -> param_key param <> "serverUri") ->
  parseHiveServer2Info (hsInfo :: rest) = parseHiveServer2Info rest.
Proof.
  intros Hkeys. cbn [parseHiveServer2Info].
  pose proof (parse_params_invalid (Split hsInfo ";") [] Hkeys) as Hv.
  destruct (parse_params (Split hsInfo ";") [] false) as [node validFormat].
  cbn [snd] in Hv. now rewrite Hv.
Qed.

Lemma parseHiveServer2Info_without_serverUri_witness :
  parseHiveServer2Info ["version=3.1.2;sequence=0000000007"; ""] = [].
Proof.
  rewrite (parseHiveServer2Info_without_serverUri
             "version=3.1.2;sequence=0000000007" [""]).
  - apply (parseHiveServer2Info_without_serverUri "" []).
    intros param [<- | []]. vm_compute. discriminate.
  - intros param [<- | [<- | []]]; vm_compute; discriminate.
Defined.

(** ** Cookie de-duplication *)

Lemma map_get_app {V : Type} (a b : gomap V) (k : string) :
  map_get (a ++ b) k
  = match map_get a k with
    | Some v => Some v
    | None => map_get b k
    end.
Proof.
  induction a as [ | [k0 v0] a IH]; cbn [app map_get]; [ reflexivity | ].
  destruct (String.eqb k0 k); [ reflexivity | exact IH ].
Qed.

(** After the first loop the map holds, for each name, the value of
    the last cookie of that name. *)
Lemma fold_set_last (cookies : list Cookie) (name : string) :
  forall m : gomap string,
    map_get (fold_left (fun cookieMap cookie =>
                          map_set cookieMap (fst cookie) (snd cookie)) cookies m) name
    = match map_get (rev cookies) name with
      | Some v => Some v
      | None => map_get m name
      end.
Proof.
  unfold Cookie in *.
  induction cookies as [ | [k v] cookies IH]; intros m; [ reflexivity | ].
  cbn [fold_left fst snd rev]. rewrite IH.
  rewrite (map_get_app (rev cookies) [(k, v)] name). cbn [map_get].
  destruct (map_get (rev cookies) name); [ reflexivity | ].
  destruct (String.eqb k name) eqn:E.
  - apply String.eqb_eq in E. subst k. apply map_get_set_same.
  - apply String.eqb_neq in E. now apply map_get_set_other.
Qed.

Lemma fold_set_NoDup (cookies : list Cookie) :
  forall m : gomap string,
    NoDup (map fst m) ->
    NoDup (map fst (fold_left (fun cookieMap cookie =>
                                 map_set cookieMap (fst cookie) (snd cookie)) cookies m)).
Proof.
  induction cookies as [ | [k v] cookies IH]; intros m Hm; [ exact Hm | ].
  cbn [fold_left fst snd]. apply IH. now apply map_set_NoDup.
Qed.

Lemma map_get_binding {V : Type} (m : gomap V) (k : string) (v : V) :
  NoDup (map fst m) -> (In (k, v) m <-> map_get m k = Some v).
Proof.
  induction m as [ | [k0 v0] m IH]; cbn [map fst In map_get]; intros Hnd.
  - split; [ contradiction | discriminate ].
  - inversion Hnd as [ | ? ? Hnin Hnd']; subst.
    destruct (String.eqb k0 k) eqn:E.
    + apply String.eqb_eq in E. subst k0. split.
      * intros [[= ->] | Hin]; [ reflexivity | ].
        exfalso. apply Hnin. apply in_map_iff. exists (k, v). auto.
      * intros [= ->]. now left.
    + apply String.eqb_neq in E. rewrite <- (IH Hnd'). split.
      * intros [[= -> _] | Hin]; [ contradiction | exact Hin ].
      * now right.
Qed.

Lemma added_cookies (l : gomap string) (acc : list Cookie) :
  fold_left (fun added kv => added ++ [(fst kv, snd kv)]) l acc = acc ++ l.
Proof.
  revert acc. induction l as [ | [k v] l IH]; intros acc; cbn [fold_left fst snd].
  - now rewrite app_nil_r.
  - rewrite IH, <- app_assoc. reflexivity.
Qed.

Section CookieDedupProperties.

Variable range_order : gomap string -> gomap string.
Hypothesis range_order_rearranges : forall m, Permutation (range_order m) m.

(** X4. Whatever the order in which Go visits the map, the request
    that [CookieDedupTransport.RoundTrip] passes on carries each cookie
    name once, and carries the pair (name, value) exactly when value is
    that of the last cookie called name in the original request; so no
    name is lost and none is added. *)
Theorem RoundTrip_cookies_deduplicated (cookies : list Cookie) :
  NoDup (map fst (RoundTrip_cookies range_order cookies))
  /\ (forall name value,
         In (name, value) (RoundTrip_cookies range_order cookies)
         <-> map_get (rev cookies) name = Some value)
  /\ (forall name,
         In name (map fst (RoundTrip_cookies range_order cookies))
         <-> In name (map fst cookies)).
Proof.
  unfold RoundTrip_cookies. rewrite added_cookies. cbn [app].
  pose proof (range_order_rearranges (cookie_map cookies)) as Hperm.
  assert (NoDup (map fst (cookie_map cookies))) as Hnd
      by (apply fold_set_NoDup; constructor).
  assert (forall name value,
             In (name, value) (range_order (cookie_map cookies))
             <-> map_get (rev cookies) name = Some value) as Hbind.
  { intros name value. split.
    - intros Hin. apply (Permutation_in _ Hperm) in Hin.
      apply (map_get_binding _ _ _ Hnd) in Hin.
      unfold cookie_map in Hin. rewrite fold_set_last in Hin.
      destruct (map_get (rev cookies) name); [ exact Hin | discriminate Hin ].
    - intros Hlast. apply (Permutation_in _ (Permutation_sym Hperm)).
      apply (map_get_binding _ _ _ Hnd).
      unfold cookie_map. rewrite fold_set_last, Hlast. reflexivity. }
  split; [ | split ].
  - eapply Permutation_NoDup; [ | exact Hnd ].
    apply Permutation_map, Permutation_sym, Hperm.
  - exact Hbind.
  - intros name. split.
    + intros Hin. apply in_map_iff in Hin. destruct Hin as ([n v] & Hn & Hin).
      cbn [fst] in Hn. subst n. apply Hbind in Hin.
      assert (map_get (rev cookies) name <> None) as Hsome by congruence.
      apply map_get_In in Hsome. rewrite map_rev in Hsome.
      now apply in_rev in Hsome.
    + intros Hin. apply in_rev in Hin. rewrite <- map_rev in Hin.
      apply map_get_In in Hin.
      destruct (map_get (rev cookies) name) as [v | ] eqn:Hv;
        [ | exfalso; apply Hin; exact Hv ].
      apply Hbind in Hv. apply in_map_iff. exists (name, v). auto.
Qed.

End CookieDedupProperties.

Lemma RoundTrip_cookies_deduplicated_witness :
  NoDup (map fst (RoundTrip_cookies (@rev Cookie)
                    [("JSESSIONID", "a"); ("hive.server2.auth", "t"); ("JSESSIONID", "b")]))
  /\ In ("JSESSIONID", "b")
        (RoundTrip_cookies (@rev Cookie)
           [("JSESSIONID", "a"); ("hive.server2.auth", "t"); ("JSESSIONID", "b")]).
Proof.
  destruct (RoundTrip_cookies_deduplicated
              (@rev Cookie) (fun m => Permutation_sym (Permutation_rev m))
              [("JSESSIONID", "a"); ("hive.server2.auth", "t"); ("JSESSIONID", "b")])
    as (Hnd & Hbind & _).
  split; [ exact Hnd | ].
  apply Hbind. reflexivity.
Defined.

(** ** Reset, close and cancel *)

(** Case analysis on the tests and calls of a hypothesis. *)
Ltac break_in H :=
  repeat (cursor_simpl_in H;
          match type of H with
          | context [deref ?x] => destruct x eqn:?
          | context [obind ?m _] => destruct m eqn:?
          | context [match ?x with _ => _ end] => destruct x eqn:?
          end);
  cursor_simpl_in H;
  try discriminate H.

Ltac cursor_unfold :=
  cbn [with_operationHandle with_queue with_response with_columnIndex
       with_totalRows with_state with_newData with_Err with_description
       conn operationHandle queue response columnIndex totalRows state newData
       Err description Logs].

Lemma with_Err_twice (c : Cursor) (e e' : option error) :
  with_Err (with_Err c e) e' = with_Err c e'.
Proof. reflexivity. Qed.

Lemma with_Err_Err (c : Cursor) : with_Err c (Err c) = c.
Proof. destruct c; reflexivity. Qed.

Section ResetAndCancel.

Variable S : Type.
Variable env : Env S.

(** The cursor that [resetState] leaves. *)
Lemma resetState_cursor (c c0 : Cursor) (w w0 : World S) (e : option error) :
  resetState env c w = Ok (e, c0, w0) ->
  c0 = {| conn := conn c;
          operationHandle := None;
          queue := [];
          response := None;
          columnIndex := 0;
          totalRows := 0;
          state := _NONE;
          newData := false;
          Err := None;
          description := None;
          Logs := Logs c |}.
Proof.
  unfold resetState. intros H. break_in H; injection H as _ <- _;
    destruct c; cbn [conn operationHandle Logs] in *; subst; reflexivity.
Qed.

(** X5. Whenever [resetState] returns, with or without an error from
    [CloseOperation], the cursor is reset in memory: no operation
    handle, no response, an empty queue, both row counters at 0, state
    [_NONE], no description and an empty error slot; the connection and
    the log channel are kept. *)
Theorem resetState_clears (c c0 : Cursor) (w w0 : World S) (e : option error) :
  resetState env c w = Ok (e, c0, w0) ->
  c0 = {| conn := conn c;
          operationHandle := None;
          queue := [];
          response := None;
          columnIndex := 0;
          totalRows := 0;
          state := _NONE;
          newData := false;
          Err := None;
          description := None;
          Logs := Logs c |}.
Proof. exact (resetState_cursor c c0 w w0 e). Qed.

Lemma resetState_without_handle (c : Cursor) (w : World S) :
  operationHandle c = None ->
  resetState env c w
  = Ok (None,
        {| conn := conn c; operationHandle := None; queue := []; response := None;
           columnIndex := 0; totalRows := 0; state := _NONE; newData := false;
           Err := None; description := None; Logs := Logs c |},
        w).
Proof.
  intros H. unfold resetState. cursor_simpl. rewrite H.
  destruct c; cbn [operationHandle] in H; subst; reflexivity.
Qed.

Lemma resetState_shape (c c0 : Cursor) (w w0 : World S) (e : option error) :
  resetState env c w = Ok (e, c0, w0) ->
  operationHandle c0 = None /\ response c0 = None /\ Err c0 = None
  /\ state c0 = _NONE /\ queue c0 = [] /\ columnIndex c0 = 0 /\ totalRows c0 = 0.
Proof.
  unfold resetState. intros H. break_in H; injection H as _ <- _;
    cursor_unfold; tauto.
Qed.

(** X6. Closing is idempotent: after a [Close] that returned, whatever
    error it stored, a second [Close] sends nothing to the server,
    changes nothing but the error slot, and leaves that slot empty. *)
Theorem Cursor_Close_twice (c c1 : Cursor) (w w1 : World S) :
  Cursor_Close env c w = Ok (c1, w1) ->
  Cursor_Close env c1 w1 = Ok (with_Err c1 None, w1).
Proof.
  unfold Cursor_Close. intros H.
  destruct (resetState env c w) as [[[e c0] w0] | | ] eqn:Hr;
    cbn [obind] in H; try discriminate H.
  injection H as <- <-.
  pose proof (resetState_cursor _ _ _ _ _ Hr) as ->.
  rewrite resetState_without_handle by reflexivity. reflexivity.
Qed.

Lemma Cancel_only_Err (c c1 : Cursor) (w w1 : World S) :
  Cancel env c w = Ok (c1, w1) -> exists e, c1 = with_Err c e.
Proof.
  unfold Cancel. intros H. break_in H; injection H as <- _; eexists; reflexivity.
Qed.

Lemma handleDoneContext_outcomes (c c' : Cursor) (w w' : World S) :
  handleDoneContext env c w = Ok (c', w') ->
  (Err c' = Err c /\ state c' = _FINISHED /\ operationHandle c' = None
   /\ queue c' = [] /\ response c' = None)
  \/ (exists e, Err c' = Some e /\ c' = with_Err c (Some e)
                /\ operationHandle c <> None /\ Cancel env c w = Ok (c', w')).
Proof.
  unfold handleDoneContext, is_set. intros H.
  destruct (operationHandle c) as [h | ] eqn:Hh.
  - destruct (Cancel env c w) as [[c1 w1] | | ] eqn:Hc; cbn [obind] in H;
      try discriminate H.
    destruct (Err c1) as [e | ] eqn:He.
    + injection H as <- <-. right. exists e.
      destruct (Cancel_only_Err _ _ _ _ Hc) as (e' & ->).
      cbn [with_Err Err] in He. subst e'.
      repeat split; congruence.
    + destruct (resetState env c1 w1) as [[[e0 c0] w0] | | ] eqn:Hr;
        cbn [obind] in H; try discriminate H.
      injection H as <- <-. left.
      destruct (resetState_shape _ _ _ _ _ Hr) as (H1 & H2 & _ & _ & H5 & _).
      cbn. tauto.
  - destruct (resetState env c w) as [[[e0 c0] w0] | | ] eqn:Hr;
      cbn [obind] in H; try discriminate H.
    injection H as <- <-. left.
    destruct (resetState_shape _ _ _ _ _ Hr) as (H1 & H2 & _ & _ & H5 & _).
    cbn. tauto.
Qed.

(** A cancellation that fails ends [handleDoneContext] at once. *)
Lemma handleDoneContext_cancel_failed (c c1 : Cursor) (w w1 : World S) (e : error) :
  operationHandle c <> None ->
  Cancel env c w = Ok (c1, w1) ->
  Err c1 = Some e ->
  handleDoneContext env c w = Ok (c1, w1).
Proof.
  intros Hh Hc He. unfold handleDoneContext, is_set.
  destruct (operationHandle c); [ | contradiction ].
  rewrite Hc. cbn [obind]. rewrite He. reflexivity.
Qed.

(** X7. [handleDoneContext] ends in one of two ways.  If there was no
    operation handle or [CancelOperation] succeeded, the cursor is
    reset, holds no handle, is in state [_FINISHED] and carries the
    error it had on entry.  If [CancelOperation] failed, nothing is
    reset: the cursor still holds its handle and its state, and the
    error slot holds the error of the cancellation instead of the
    original one. *)
Theorem handleDoneContext_cancel_or_reset (c c' : Cursor) (w w' : World S) :
  handleDoneContext env c w = Ok (c', w') ->
  ((Err c' = Err c /\ state c' = _FINISHED /\ operationHandle c' = None)
   \/ (exists h e,
          operationHandle c = Some h /\ operationHandle c' = Some h
          /\ state c' = state c /\ Err c' = Some e
          /\ Cancel env c w = Ok (c', w')))
  /\ (forall c1 w1 e,
         operationHandle c <> None ->
         Cancel env c w = Ok (c1, w1) ->
         Err c1 = Some e ->
         c' = c1 /\ w' = w1)
  /\ (operationHandle c = None
       \/ (exists c1 w1, Cancel env c w = Ok (c1, w1) /\ Err c1 = None) ->
       Err c' = Err c /\ state c' = _FINISHED /\ operationHandle c' = None).
Proof.
  intros H.
  assert (Hd : (Err c' = Err c /\ state c' = _FINISHED /\ operationHandle c' = None)
               \/ (exists h e,
                      operationHandle c = Some h /\ operationHandle c' = Some h
                      /\ state c' = state c /\ Err c' = Some e
                      /\ Cancel env c w = Ok (c', w'))).
  { destruct (handleDoneContext_outcomes _ _ _ _ H)
      as [(H1 & H2 & H3 & _) | (e & He & Hc & Hh & Hcancel)].
    - left. auto.
    - right. destruct (operationHandle c) as [h | ] eqn:Hop; [ | contradiction ].
      exists h, e. subst c'. cbn [with_Err operationHandle state Err] in *.
      repeat split; auto. }
  split; [ exact Hd | split ].
  - intros c1 w1 e Hh Hc He.
    rewrite (handleDoneContext_cancel_failed c c1 w w1 e Hh Hc He) in H.
    injection H as <- <-. split; reflexivity.
  - intros Hcond.
    destruct Hd as [Hl | (h & e & Hop & _ & _ & He' & Hc')]; [ exact Hl | exfalso ].
    destruct Hcond as [Hn | (c1 & w1 & Hc1 & He1)].
    + congruence.
    + rewrite Hc' in Hc1. injection Hc1 as <- <-. congruence.
Qed.

End ResetAndCancel.

(** ** Execution *)

Section Execution.

Variable S : Type.
Variable env : Env S.

Lemma Poll_only_Err (b : bool) (c c1 : Cursor) (w w1 : World S)
      (r : option TGetOperationStatusResp) :
  Poll env b c w = Ok (r, c1, w1) -> exists e, c1 = with_Err c e.
Proof.
  unfold Poll. intros H. break_in H; injection H as _ <- _; eexists; reflexivity.
Qed.

Lemma FetchLogs_only_Err (c c1 : Cursor) (w w1 : World S) (logs : list string) :
  FetchLogs env c w = Ok (logs, c1, w1) -> exists e, c1 = with_Err c e.
Proof.
  unfold FetchLogs. intros H.
  break_in H; injection H as _ <- _;
    first [ eexists; reflexivity | exists (Err c); now rewrite with_Err_Err ].
Qed.

(** What [WaitForCompletion] may change in the cursor: the error slot,
    and the state only to mark a context that is done. *)
Lemma WaitForCompletion_loop_shape (fuel : nat) :
  forall (iter : nat) (ctx : Context) (c c' : Cursor) (w w' : World S),
    WaitForCompletion_loop env fuel iter ctx c w = Ok (c', w') ->
    (exists e, c' = with_Err c e)
    \/ (exists e, c' = with_state (with_Err c (Some e)) _CONTEXT_DONE).
Proof.
  induction fuel as [ | fuel IH]; intros iter ctx c c' w w' H; [ discriminate H | ].
  cbn [WaitForCompletion_loop] in H.
  destruct (Poll env true c w) as [[[os c1] w1] | | ] eqn:Hpoll;
    cbn [obind] in H; try discriminate H.
  destruct (Poll_only_Err _ _ _ _ _ _ Hpoll) as (e1 & ->).
  cbn [with_Err Err Logs] in H.
  destruct e1 as [e1 | ]; cbn [is_set] in H.
  { injection H as <- _. left. eexists. reflexivity. }
  destruct os as [os | ]; cbn [deref obind] in H; [ | discriminate H ].
  destruct (OperationState os) as [st | ]; cbn [deref obind] in H; [ | discriminate H ].
  destruct (negb (TOperationState_eqb st INITIALIZED_STATE
                  || TOperationState_eqb st RUNNING_STATE
                  || TOperationState_eqb st PENDING_STATE)).
  { destruct (negb (TOperationState_eqb st FINISHED_STATE)).
    - destruct (completion_message os st); cbn [deref obind] in H;
        [ | discriminate H ].
      injection H as <- _. left. eexists. reflexivity.
    - injection H as <- _. left. eexists. reflexivity. }
  assert (forall c2 w2,
             (exists e, c2 = with_Err c e) ->
             (cfg <- conn_configuration c2 ;;
              (let w3 := with_server w2 (Sleep env (PollIntervalInMillis cfg) (server w2)) in
               if ctx_done_at ctx iter
               then Ok (with_state
                          (with_Err c2 (Some (errors_New
                             "Context was done before the query was executed")))
                          _CONTEXT_DONE, w3)
               else WaitForCompletion_loop env fuel (Datatypes.S iter) ctx c2 w3))
             = Ok (c', w') ->
             (exists e, c' = with_Err c e)
             \/ (exists e, c' = with_state (with_Err c (Some e)) _CONTEXT_DONE))
    as Hsleep.
  { intros c2 w2 (e2 & ->) Hs.
    destruct (conn_configuration (with_Err c e2)) as [cfg | | ]; cbn [obind] in Hs;
      try discriminate Hs.
    destruct (ctx_done_at ctx iter).
    - injection Hs as <- _. right. eexists. reflexivity.
    - apply IH in Hs. destruct Hs as [(e & ->) | (e & ->)].
      + left. eexists. reflexivity.
      + right. eexists. reflexivity. }
  destruct (Logs c) as [ch | ].
  - destruct (FetchLogs env (with_Err c None) w1) as [[[logs c2] w2] | | ] eqn:Hlogs;
      cbn [obind] in H; try discriminate H.
    destruct (FetchLogs_only_Err _ _ _ _ _ Hlogs) as (e2 & ->).
    cbn [with_Err Err] in H.
    destruct e2 as [e2 | ]; cbn [is_set] in H.
    + injection H as <- _. left. eexists. reflexivity.
    + eapply Hsleep; [ | exact H ]. eexists. reflexivity.
  - eapply Hsleep; [ | exact H ]. eexists. reflexivity.
Qed.

(** After [executeAsync] the cursor holds no batch; when it left no
    error, the state is [_RUNNING] or [_FINISHED]. *)
Lemma executeAsync_shape (ctx : Context) (query : string) (c c1 : Cursor)
      (w w1 : World S) :
  executeAsync env ctx query c w = Ok (c1, w1) ->
  response c1 = None /\ queue c1 = [] /\ columnIndex c1 = 0 /\ totalRows c1 = 0
  /\ (Err c1 = None -> state c1 = _RUNNING \/ state c1 = _FINISHED).
Proof.
  unfold executeAsync. intros H.
  destruct (resetState env c w) as [[[e0 c0] w0] | | ] eqn:Hr;
    cbn [obind] in H; try discriminate H.
  destruct (resetState_shape _ _ _ _ _ _ _ Hr) as (_ & H2 & _ & _ & H5 & H6 & H7).
  break_in H; injection H as <- _; cursor_unfold;
    repeat split; auto; try discriminate; cbn; auto.
Qed.

Lemma Execute_sync_clean (fuel : nat) (ctx : Context) (query : string)
      (c c' : Cursor) (w w' : World S) :
  Execute env fuel ctx query false c w = Ok (c', w') ->
  Err c' = None ->
  state c' = _ASYNC_ENDED /\ response c' = None /\ queue c' = []
  /\ columnIndex c' = 0 /\ totalRows c' = 0.
Proof.
  unfold Execute. intros H He.
  destruct (executeAsync env ctx query c w) as [[c1 w1] | | ] eqn:Hx;
    cbn [obind negb] in H; try discriminate H.
  destruct (executeAsync_shape _ _ _ _ _ _ Hx) as (R1 & R2 & R3 & R4 & _).
  destruct (Err c1) as [e1 | ] eqn:He1; cbn [is_set] in H.
  { exfalso. destruct (state c1 =? _CONTEXT_DONE).
    - destruct (handleDoneContext_outcomes _ _ _ _ _ _ H)
        as [(H1 & _) | (e & H1 & _)]; congruence.
    - injection H as <- _. congruence. }
  unfold WaitForCompletion in H.
  destruct (WaitForCompletion_loop env fuel 0 ctx c1 w1) as [[c2 w2] | | ] eqn:Hw;
    cbn [obind] in H; try discriminate H.
  assert (response c2 = None /\ queue c2 = [] /\ columnIndex c2 = 0
          /\ totalRows c2 = 0) as (Q1 & Q2 & Q3 & Q4).
  { destruct (WaitForCompletion_loop_shape _ _ _ _ _ _ _ Hw) as [(e & ->) | (e & ->)];
      cbn; auto. }
  destruct (Err c2) as [e2 | ] eqn:He2; cbn [is_set] in H.
  { exfalso. destruct (state c2 =? _CONTEXT_DONE).
    - destruct (handleDoneContext_outcomes _ _ _ _ _ _ H)
        as [(H1 & _) | (e & H1 & _)]; congruence.
    - destruct (state c2 =? _ERROR); injection H as <- _;
        [ discriminate He | congruence ]. }
  destruct (Logs c2) as [ch | ].
  - destruct (FetchLogs env c2 w2) as [[[logs c3] w3] | | ] eqn:Hl;
      cbn [obind] in H; try discriminate H.
    destruct (FetchLogs_only_Err _ _ _ _ _ Hl) as (e3 & ->).
    destruct (is_set (Err (with_Err c2 e3))); injection H as <- _; cbn; auto.
  - injection H as <- _. cbn. auto.
Qed.

(** X8. A synchronous [Execute] that ends with an empty error slot
    leaves the cursor in state [_ASYNC_ENDED], also for a statement
    without a result set, for which [executeAsync] had set
    [_FINISHED]; no batch is loaded yet. *)
Theorem Execute_sync_ends_ASYNC_ENDED
        (fuel : nat) (ctx : Context) (query : string)
        (c c' : Cursor) (w w' : World S) :
  Execute env fuel ctx query false c w = Ok (c', w') ->
  Err c' = None ->
  state c' = _ASYNC_ENDED /\ state c' <> _FINISHED
  /\ response c' = None /\ columnIndex c' = totalRows c'.
Proof.
  intros H He.
  destruct (Execute_sync_clean _ _ _ _ _ _ _ H He) as (H1 & H2 & _ & H4 & H5).
  rewrite H1. repeat split; auto; [ discriminate | congruence ].
Qed.

(** A worker that finds its context done at once sends nothing. *)
Lemma pollWorker_stopped (fuel iter : nat) (ctx : Context) (c : Cursor) (w : World S) :
  ctx_done_at ctx iter = true ->
  pollWorker env (Datatypes.S fuel) iter ctx c w = Ok (None, c, w).
Proof. intros H. cbn [pollWorker]. rewrite H. reflexivity. Qed.

(** A worker that does not, and returns, has sent one [FetchResults]
    with the handle of the cursor and the configured fetch size; the
    server is left as that call left it. *)
Lemma pollWorker_fetches (fuel iter : nat) (ctx : Context) (c c1 : Cursor)
      (w w1 : World S) (e : option error) :
  ctx_done_at ctx iter = false ->
  pollWorker env fuel iter ctx c w = Ok (e, c1, w1) ->
  exists cfg cl resp err,
    conn_configuration c = Ok cfg
    /\ conn_client c = Ok cl
    /\ FetchResults env cl ctx_Background
         {| fetch_OperationHandle := operationHandle c;
            Orientation := FETCH_NEXT;
            MaxRows := FetchSize cfg;
            FetchType := None |} (server w)
       = (resp, err, server w1).
Proof.
  intros Hlive. destruct fuel as [ | fuel]; [ discriminate | ].
  rewrite pollWorker_one_round. cbn [pollWorker]. rewrite Hlive.
  destruct (conn_configuration c) as [cfg | | ]; cbn [obind]; try discriminate.
  destruct (conn_client c) as [cl | | ]; cbn [obind]; try discriminate.
  destruct (FetchResults env cl ctx_Background
              {| fetch_OperationHandle := operationHandle c;
                 Orientation := FETCH_NEXT;
                 MaxRows := FetchSize cfg;
                 FetchType := None |} (server w)) as [[resp err] s] eqn:Hf.
  assert (Hgoal : forall w2, server w2 = s ->
            exists cfg0 cl0 resp0 err0,
              Ok cfg = Ok cfg0 /\ Ok cl = Ok cl0
              /\ FetchResults env cl0 ctx_Background
                   {| fetch_OperationHandle := operationHandle c;
                      Orientation := FETCH_NEXT;
                      MaxRows := FetchSize cfg0;
                      FetchType := None |} (server w)
                 = (resp0, err0, server w2)).
  { intros w2 <-. exists cfg, cl, resp, err. auto. }
  destruct err as [msg | ]; [ intros [= _ _ <-]; apply Hgoal; reflexivity | ].
  destruct (GetStatus fetch_Status resp) as [st | | ]; cbn [obind]; try discriminate.
  destruct (negb (TStatusCode_eqb (StatusCode (safeStatus st)) SUCCESS_STATUS));
    [ intros [= _ _ <-]; apply Hgoal; reflexivity | ].
  destruct (parseResults (with_response c resp) resp) as [[perr c2] | | ];
    cbn [obind]; try discriminate.
  destruct perr as [pe | ]; [ intros [= _ _ <-]; apply Hgoal; reflexivity | ].
  destruct (len (queue c2) >? 0); [ | discriminate ].
  intros [= _ _ <-]. apply Hgoal. reflexivity.
Qed.

(** X9. The first [HasMore] after a clean synchronous [Execute] never
    answers from the cursor alone, result set or not: it is the call of
    [pollUntilData] followed by the test of the state and of the row
    counters.  When it returns, either its context was done before the
    worker started, and then nothing was sent, the answer is true and
    the error is "Context is done"; or one [FetchResults] with the
    handle of the cursor was sent, and the server is left as that call
    left it. *)
Theorem HasMore_after_sync_Execute_polls
        (fuel fuel' : nat) (ctx ctx' : Context) (query : string)
        (c c' : Cursor) (w w' : World S) :
  Execute env fuel ctx query false c w = Ok (c', w') ->
  Err c' = None ->
  HasMore env fuel' ctx' c' w'
  = (' (err, c2, w2) <- pollUntilData env fuel' ctx' 1 c' w' ;;
     Ok (negb (state c2 =? _FINISHED) || negb (totalRows c2 =? columnIndex c2),
         with_Err c2 err, w2))
  /\ forall b c2 w2,
       HasMore env fuel' ctx' c' w' = Ok (b, c2, w2) ->
       if ctx_done_at ctx' 0
       then b = true
            /\ c2 = with_Err c' (Some (errors_New "Context is done"))
            /\ w2 = w'
       else exists cfg cl resp err,
              conn_configuration c' = Ok cfg
              /\ conn_client c' = Ok cl
              /\ FetchResults env cl ctx_Background
                   {| fetch_OperationHandle := operationHandle c';
                      Orientation := FETCH_NEXT;
                      MaxRows := FetchSize cfg;
                      FetchType := None |} (server w')
                 = (resp, err, server w2).
Proof.
  intros H He.
  destruct (Execute_sync_clean _ _ _ _ _ _ _ H He) as (H1 & H2 & _).
  assert (Heq : HasMore env fuel' ctx' c' w'
                = (' (err, c2, w2) <- pollUntilData env fuel' ctx' 1 c' w' ;;
                   Ok (negb (state c2 =? _FINISHED)
                       || negb (totalRows c2 =? columnIndex c2),
                       with_Err c2 err, w2))).
  { unfold HasMore. rewrite (with_Err_same c' He), H2, H1. cbn [is_set negb andb].
    destruct (pollUntilData env fuel' ctx' 1 c' w') as [[[err c2] w2] | | ];
      reflexivity. }
  split; [ exact Heq | ].
  intros b c2 w2. rewrite Heq. unfold pollUntilData.
  destruct (pollWorker env fuel' 0 ctx' c' w') as [[[e cw] ww] | | ] eqn:Hw;
    cbn [obind]; try discriminate.
  destruct (ctx_done_at ctx' 0) eqn:Hd.
  - destruct fuel' as [ | fuel']; [ discriminate Hw | ].
    rewrite (pollWorker_stopped fuel' 0 ctx' c' w' Hd) in Hw.
    injection Hw as <- <- <-.
    unfold ctx_done_at in Hd.
    destruct (ctx_fires ctx') as [k | ]; [ | discriminate Hd ].
    cbn [obind]. intros [= <- <- <-].
    cbn [with_Err state]. rewrite H1. repeat split; reflexivity.
  - destruct (pollWorker_fetches fuel' 0 ctx' c' cw w' ww e Hd Hw)
      as (cfg & cl & resp & err & Hcfg & Hcl & Hf).
    intros Hm. exists cfg, cl, resp, err.
    assert (w2 = ww) as ->.
    { destruct (match ctx_fires ctx' with
                | Some _ => Some (errors_New "Context is done")
                | None => e
                end) as [e' | ]; cbn [obind] in Hm.
      - injection Hm as _ _ <-. reflexivity.
      - destruct (len (queue cw) <? 1); cbn [obind] in Hm;
          injection Hm as _ _ <-; reflexivity. }
    repeat split; assumption.
Qed.

(** X11. After an [executeAsync] that left no error,
    [WaitForCompletion] never leaves the cursor in state [_ERROR]: the
    branch of [Execute] that replaces the error for that state is not
    reachable. *)
Theorem WaitForCompletion_never_ERROR
        (fuel : nat) (ctx : Context) (query : string)
        (c c1 c2 : Cursor) (w w1 w2 : World S) :
  executeAsync env ctx query c w = Ok (c1, w1) ->
  Err c1 = None ->
  WaitForCompletion env fuel ctx c1 w1 = Ok (c2, w2) ->
  state c2 <> _ERROR.
Proof.
  intros Hx He Hw.
  destruct (executeAsync_shape _ _ _ _ _ _ Hx) as (_ & _ & _ & _ & Hst).
  specialize (Hst He).
  destruct (WaitForCompletion_loop_shape _ _ _ _ _ _ _ Hw) as [(e & ->) | (e & ->)];
    cbn [with_Err with_state state].
  - destruct Hst as [-> | ->]; discriminate.
  - discriminate.
Qed.

End Execution.

Section ExecutionPaths.

Variable S : Type.
Variable env : Env S.

(** X10. An asynchronous [Execute] of a statement that the server
    accepts and that has no result set leaves the cursor in state
    [_FINISHED] with the operation handle and no error; every [HasMore]
    after it answers false and sends nothing. *)
Theorem Execute_async_without_result_set
        (fuel : nat) (ctx : Context) (query : string)
        (c c0 : Cursor) (w w0 : World S) (e0 : option error)
        (cn : Connection) (cl : TCLIServiceClient)
        (resp : TExecuteStatementResp) (h : TOperationHandle) (s1 : S) :
  resetState env c w = Ok (e0, c0, w0) ->
  conn c = Some cn ->
  client cn = Some cl ->
  ExecuteStatement env cl ctx
    {| exec_SessionHandle := sessionHandle cn; Statement := query; RunAsync := true |}
    (server w0)
  = (Some resp, None, s1) ->
  success (safeStatus (exec_Status resp)) = true ->
  exec_OperationHandle resp = Some h ->
  HasResultSet h = false ->
  exists c',
    Execute env fuel ctx query true c w = Ok (c', with_server w0 s1)
    /\ state c' = _FINISHED
    /\ Err c' = None
    /\ operationHandle c' = Some h
    /\ forall fuel' ctx',
        HasMore env fuel' ctx' c' (with_server w0 s1)
        = Ok (false, c', with_server w0 s1).
Proof.
  intros Hreset Hconn Hclient Hrpc Hok Hh Hres.
  destruct (resetState_conn _ _ _ _ _ _ _ Hreset) as [Hc0 _].
  destruct (resetState_shape _ _ _ _ _ _ _ Hreset) as (_ & _ & E & _ & _ & CI & TR).
  unfold Execute, executeAsync. rewrite Hreset. cursor_simpl.
  rewrite Hc0, Hconn. cursor_simpl. rewrite Hclient. cursor_simpl. rewrite Hrpc.
  cursor_simpl. rewrite Hok. cursor_simpl. rewrite Hh. cursor_simpl. rewrite Hres.
  cursor_simpl.
  eexists. split; [ reflexivity | ].
  cursor_simpl. repeat split.
  intros fuel' ctx'. rewrite HasMore_finished by (cursor_simpl; congruence).
  cursor_unfold. reflexivity.
Qed.

Lemma Execute_reaches_handleDoneContext
      (fuel : nat) (ctx : Context) (query : string)
      (c c1 c2 : Cursor) (w w1 w2 : World S)
      (os : TGetOperationStatusResp) (st : TOperationState)
      (cfg : ConnectConfiguration) :
  executeAsync env ctx query c w = Ok (c1, w1) ->
  Err c1 = None ->
  Logs c1 = None ->
  Poll env true c1 w1 = Ok (Some os, c2, w2) ->
  OperationState os = Some st ->
  st = INITIALIZED_STATE \/ st = RUNNING_STATE \/ st = PENDING_STATE ->
  conn_configuration c1 = Ok cfg ->
  ctx_done_at ctx 0 = true ->
  Execute env (Datatypes.S fuel) ctx query false c w
  = handleDoneContext env
      (with_state
         (with_Err c2 (Some (errors_New "Context was done before the query was executed")))
         _CONTEXT_DONE)
      (with_server w2 (Sleep env (PollIntervalInMillis cfg) (server w2))).
Proof.
  intros Hx He Hl Hpoll Hst Hactive Hcfg Hdone.
  pose proof (Poll_response_clean _ _ _ _ _ _ _ _ Hpoll) as Hclean.
  destruct (Poll_only_Err _ _ _ _ _ _ _ _ Hpoll) as (e2 & ->).
  cbn [with_Err Err] in Hclean. subst e2.
  assert (conn_configuration (with_Err c1 None) = Ok cfg) as Hcfg2 by exact Hcfg.
  assert (negb (TOperationState_eqb st INITIALIZED_STATE
                || TOperationState_eqb st RUNNING_STATE
                || TOperationState_eqb st PENDING_STATE) = false) as Hact
      by (destruct Hactive as [-> | [-> | ->]]; reflexivity).
  unfold Execute. rewrite Hx. cbn [obind negb]. rewrite He. cbn [is_set].
  unfold WaitForCompletion. cbn [WaitForCompletion_loop]. rewrite Hpoll.
  cbn [obind with_Err Err is_set deref]. rewrite Hst. cbn [deref obind].
  rewrite Hact. cbn [Logs with_Err]. rewrite Hl. rewrite Hcfg2. cbn [obind].
  rewrite Hdone. cbn [obind with_state with_Err Err state is_set].
  reflexivity.
Qed.

(** X12. When the statement was submitted, the first poll finds the
    operation still active, no log channel is attached, and the context
    is done after the first sleep, a synchronous [Execute] goes through
    [handleDoneContext]: it never ends cleanly, and it ends either
    reset, in state [_FINISHED], without handle and with the error
    "Context was done before the query was executed", or, if the
    cancellation failed, in state [_CONTEXT_DONE] with the handle and
    the error of the cancellation. *)
Theorem Execute_context_done
        (fuel : nat) (ctx : Context) (query : string)
        (c c1 c2 : Cursor) (w w1 w2 : World S)
        (os : TGetOperationStatusResp) (st : TOperationState)
        (cfg : ConnectConfiguration) :
  executeAsync env ctx query c w = Ok (c1, w1) ->
  Err c1 = None ->
  Logs c1 = None ->
  Poll env true c1 w1 = Ok (Some os, c2, w2) ->
  OperationState os = Some st ->
  st = INITIALIZED_STATE \/ st = RUNNING_STATE \/ st = PENDING_STATE ->
  conn_configuration c1 = Ok cfg ->
  ctx_done_at ctx 0 = true ->
  forall c' w',
    Execute env (Datatypes.S fuel) ctx query false c w = Ok (c', w') ->
    ((Err c' = Some (errors_New "Context was done before the query was executed")
      /\ state c' = _FINISHED /\ operationHandle c' = None)
     \/ (exists e, Err c' = Some e /\ state c' = _CONTEXT_DONE
                   /\ operationHandle c' = operationHandle c1))
    /\ (forall c3 w3 e,
           operationHandle c1 <> None ->
           Cancel env
              (with_state
                 (with_Err c2
                    (Some (errors_New "Context was done before the query was executed")))
                 _CONTEXT_DONE)
              (with_server w2 (Sleep env (PollIntervalInMillis cfg) (server w2)))
           = Ok (c3, w3) ->
           Err c3 = Some e ->
           c' = c3 /\ w' = w3)
    /\ (operationHandle c1 = None
         \/ (exists c3 w3,
                Cancel env
                  (with_state
                 (with_Err c2
                    (Some (errors_New "Context was done before the query was executed")))
                 _CONTEXT_DONE)
              (with_server w2 (Sleep env (PollIntervalInMillis cfg) (server w2)))
                = Ok (c3, w3)
                /\ Err c3 = None) ->
         Err c' = Some (errors_New "Context was done before the query was executed")
         /\ state c' = _FINISHED /\ operationHandle c' = None).
Proof.
  intros Hx He Hl Hpoll Hst Hactive Hcfg Hdone c' w' H.
  rewrite (Execute_reaches_handleDoneContext fuel ctx query c c1 c2 w w1 w2 os st cfg
             Hx He Hl Hpoll Hst Hactive Hcfg Hdone) in H.
  destruct (Poll_only_Err _ _ _ _ _ _ _ _ Hpoll) as (e2 & ->).
  split; [ | split ].
  - destruct (handleDoneContext_outcomes _ _ _ _ _ _ H)
      as [(H1 & H2 & H3 & _) | (e & H1 & H2 & _)].
    + left. cbn [Err with_state with_Err] in H1. auto.
    + right. exists e. subst c'.
      cbn [Err state operationHandle with_state with_Err]. auto.
  - intros c3 w3 e Hh Hc Herr.
    pose proof (fun Hh' => handleDoneContext_cancel_failed _ _ _ c3 _ w3 e Hh' Hc Herr)
      as Hk.
    rewrite (Hk Hh) in H.
    injection H as <- <-. split; reflexivity.
  - intros Hcond.
    destruct (handleDoneContext_outcomes _ _ _ _ _ _ H)
      as [(H1 & H2 & H3 & _) | (e & H1 & H2 & Hh & Hc)].
    + cbn [Err with_state with_Err] in H1. auto.
    + exfalso. destruct Hcond as [Hn | (c3 & w3 & Hc3 & He3)].
      * apply Hh. exact Hn.
      * rewrite Hc in Hc3. injection Hc3 as <- <-. congruence.
Qed.

End ExecutionPaths.

Lemma resetState_clears_witness :
  resetState close_fails_env submitted_cursor initial_world
  = Ok (Some (errors_New "write tcp: broken pipe"),
        with_state fresh_cursor _NONE, initial_world)
  /\ with_state fresh_cursor _NONE
     = {| conn := Some example_connection; operationHandle := None; queue := [];
          response := None; columnIndex := 0; totalRows := 0; state := _NONE;
          newData := false; Err := None; description := None; Logs := None |}.
Proof.
  split; [ reflexivity | ].
  exact (resetState_clears nat close_fails_env submitted_cursor
                           (with_state fresh_cursor _NONE)
                           initial_world initial_world
                           (Some (errors_New "write tcp: broken pipe")) eq_refl).
Defined.

Lemma Cursor_Close_twice_witness :
  Cursor_Close close_fails_env submitted_cursor initial_world
  = Ok (with_Err (with_state fresh_cursor _NONE)
                 (Some (errors_New "write tcp: broken pipe")), initial_world)
  /\ Cursor_Close close_fails_env
                  (with_Err (with_state fresh_cursor _NONE)
                            (Some (errors_New "write tcp: broken pipe")))
                  initial_world
     = Ok (with_state fresh_cursor _NONE, initial_world).
Proof.
  split; [ reflexivity | ].
  exact (Cursor_Close_twice nat close_fails_env submitted_cursor
                            (with_Err (with_state fresh_cursor _NONE)
                                      (Some (errors_New "write tcp: broken pipe")))
                            initial_world initial_world eq_refl).
Defined.

Lemma handleDoneContext_cancel_or_reset_witness :
  (Err (fst (returned (fresh_cursor, initial_world)
                      (handleDoneContext cancel_fails_env interrupted_cursor initial_world)))
   = Err interrupted_cursor
   /\ state (fst (returned (fresh_cursor, initial_world)
                     (handleDoneContext cancel_fails_env interrupted_cursor initial_world)))
      = _FINISHED
   /\ operationHandle
        (fst (returned (fresh_cursor, initial_world)
                (handleDoneContext cancel_fails_env interrupted_cursor initial_world)))
      = None)
  \/ (exists h e,
         operationHandle interrupted_cursor = Some h
         /\ operationHandle
              (fst (returned (fresh_cursor, initial_world)
                      (handleDoneContext cancel_fails_env interrupted_cursor initial_world)))
            = Some h
         /\ state (fst (returned (fresh_cursor, initial_world)
                          (handleDoneContext cancel_fails_env interrupted_cursor
                                             initial_world)))
            = state interrupted_cursor
         /\ Err (fst (returned (fresh_cursor, initial_world)
                        (handleDoneContext cancel_fails_env interrupted_cursor
                                           initial_world)))
            = Some e
         /\ Cancel cancel_fails_env interrupted_cursor initial_world
            = Ok (fst (returned (fresh_cursor, initial_world)
                         (handleDoneContext cancel_fails_env interrupted_cursor
                                            initial_world)),
                  snd (returned (fresh_cursor, initial_world)
                         (handleDoneContext cancel_fails_env interrupted_cursor
                                            initial_world)))).
Proof.
  exact (proj1 (handleDoneContext_cancel_or_reset
                  nat cancel_fails_env interrupted_cursor
                  (fst (returned (fresh_cursor, initial_world)
                          (handleDoneContext cancel_fails_env interrupted_cursor
                                             initial_world)))
                  initial_world
                  (snd (returned (fresh_cursor, initial_world)
                          (handleDoneContext cancel_fails_env interrupted_cursor
                                             initial_world)))
                  eq_refl)).
Defined.

Lemma Execute_sync_ends_ASYNC_ENDED_witness :
  state (fst (returned (fresh_cursor, initial_world)
                (Execute ddl_env 5 ctx_Background "CREATE TABLE t (a INT, b STRING)"
                         false fresh_cursor initial_world)))
  = _ASYNC_ENDED.
Proof.
  assert (Hrun : Execute ddl_env 5 ctx_Background "CREATE TABLE t (a INT, b STRING)"
                         false fresh_cursor initial_world
                 = Ok (fst (returned (fresh_cursor, initial_world)
                              (Execute ddl_env 5 ctx_Background
                                       "CREATE TABLE t (a INT, b STRING)"
                                       false fresh_cursor initial_world)),
                       snd (returned (fresh_cursor, initial_world)
                              (Execute ddl_env 5 ctx_Background
                                       "CREATE TABLE t (a INT, b STRING)"
                                       false fresh_cursor initial_world))))
    by (vm_compute; reflexivity).
  assert (Hclean : Err (fst (returned (fresh_cursor, initial_world)
                               (Execute ddl_env 5 ctx_Background
                                        "CREATE TABLE t (a INT, b STRING)"
                                        false fresh_cursor initial_world))) = None)
    by (vm_compute; reflexivity).
  exact (proj1 (Execute_sync_ends_ASYNC_ENDED
                  nat ddl_env 5 ctx_Background "CREATE TABLE t (a INT, b STRING)"
                  fresh_cursor _ initial_world _ Hrun Hclean)).
Defined.

Lemma HasMore_after_sync_Execute_polls_witness :
  exists c2 w2,
    HasMore ddl_env 1 ctx_Background
            (fst (returned (fresh_cursor, initial_world)
                    (Execute ddl_env 5 ctx_Background "CREATE TABLE t (a INT, b STRING)"
                             false fresh_cursor initial_world)))
            (snd (returned (fresh_cursor, initial_world)
                    (Execute ddl_env 5 ctx_Background "CREATE TABLE t (a INT, b STRING)"
                             false fresh_cursor initial_world)))
    = Ok (true, c2, w2)
    /\ Err c2 = Some (errors_New "Expected state FINISHED, but found CLOSED")
    /\ server w2 = 1%nat.
Proof.
  assert (Hrun : Execute ddl_env 5 ctx_Background "CREATE TABLE t (a INT, b STRING)"
                         false fresh_cursor initial_world
                 = Ok (fst (returned (fresh_cursor, initial_world)
                              (Execute ddl_env 5 ctx_Background
                                       "CREATE TABLE t (a INT, b STRING)"
                                       false fresh_cursor initial_world)),
                       snd (returned (fresh_cursor, initial_world)
                              (Execute ddl_env 5 ctx_Background
                                       "CREATE TABLE t (a INT, b STRING)"
                                       false fresh_cursor initial_world))))
    by (vm_compute; reflexivity).
  assert (Hclean : Err (fst (returned (fresh_cursor, initial_world)
                               (Execute ddl_env 5 ctx_Background
                                        "CREATE TABLE t (a INT, b STRING)"
                                        false fresh_cursor initial_world))) = None)
    by (vm_compute; reflexivity).
  rewrite (proj1 (HasMore_after_sync_Execute_polls
                    nat ddl_env 5 1 ctx_Background ctx_Background
                    "CREATE TABLE t (a INT, b STRING)" fresh_cursor _ initial_world _
                    Hrun Hclean)).
  eexists. eexists. split; [ vm_compute; reflexivity | ].
  split; vm_compute; reflexivity.
Defined.

Lemma Execute_async_without_result_set_witness :
  exists c',
    Execute ddl_env 0 ctx_Background "CREATE TABLE t (a INT, b STRING)" true
            fresh_cursor initial_world
    = Ok (c', initial_world)
    /\ state c' = _FINISHED
    /\ HasMore ddl_env 1 ctx_Background c' initial_world = Ok (false, c', initial_world).
Proof.
  destruct (Execute_async_without_result_set
              nat ddl_env 0 ctx_Background "CREATE TABLE t (a INT, b STRING)"
              fresh_cursor (with_state fresh_cursor _NONE)
              initial_world initial_world None
              example_connection {| client_transport := Some example_socket |}
              {| exec_Status := Some ok_status; exec_OperationHandle := Some ddl_handle |}
              ddl_handle 0%nat eq_refl eq_refl eq_refl eq_refl eq_refl eq_refl eq_refl)
    as (c' & Hrun & Hst & _ & _ & Hmore).
  exists c'. split; [ exact Hrun | split; [ exact Hst | apply Hmore ] ].
Defined.

Lemma WaitForCompletion_never_ERROR_witness :
  state (fst (returned (fresh_cursor, initial_world)
                (WaitForCompletion
                   running_env 3 (ctx_caller (Some 1%nat))
                   (fst (returned (fresh_cursor, initial_world)
                           (executeAsync running_env (ctx_caller (Some 1%nat))
                                         "SELECT * FROM t" fresh_cursor initial_world)))
                   (snd (returned (fresh_cursor, initial_world)
                           (executeAsync running_env (ctx_caller (Some 1%nat))
                                         "SELECT * FROM t" fresh_cursor initial_world))))))
  <> _ERROR.
Proof.
  assert (Hx : executeAsync running_env (ctx_caller (Some 1%nat)) "SELECT * FROM t"
                            fresh_cursor initial_world
               = Ok (with_state submitted_cursor _RUNNING, initial_world))
    by (vm_compute; reflexivity).
  assert (Hclean : Err (with_state submitted_cursor _RUNNING) = None)
    by (vm_compute; reflexivity).
  assert (Hw : WaitForCompletion running_env 3 (ctx_caller (Some 1%nat))
                 (with_state submitted_cursor _RUNNING) initial_world
               = Ok (returned (fresh_cursor, initial_world)
                       (WaitForCompletion running_env 3 (ctx_caller (Some 1%nat))
                          (with_state submitted_cursor _RUNNING) initial_world)))
    by (vm_compute; reflexivity).
  pose proof (WaitForCompletion_never_ERROR
                nat running_env 3 (ctx_caller (Some 1%nat)) "SELECT * FROM t"
                fresh_cursor _ _ initial_world _ _ Hx Hclean Hw) as H.
  intros Hs. apply H. rewrite <- Hs. vm_compute. reflexivity.
Defined.

Lemma Execute_context_done_witness :
  (Err (fst (returned (fresh_cursor, initial_world)
               (Execute running_env 1 (ctx_caller (Some 0%nat)) "SELECT * FROM t"
                        false fresh_cursor initial_world)))
   = Some (errors_New "Context was done before the query was executed")
   /\ state (fst (returned (fresh_cursor, initial_world)
                    (Execute running_env 1 (ctx_caller (Some 0%nat)) "SELECT * FROM t"
                             false fresh_cursor initial_world)))
      = _FINISHED
   /\ operationHandle
        (fst (returned (fresh_cursor, initial_world)
                (Execute running_env 1 (ctx_caller (Some 0%nat)) "SELECT * FROM t"
                         false fresh_cursor initial_world)))
      = None)
  \/ (exists e,
         Err (fst (returned (fresh_cursor, initial_world)
                     (Execute running_env 1 (ctx_caller (Some 0%nat)) "SELECT * FROM t"
                              false fresh_cursor initial_world)))
         = Some e
         /\ state (fst (returned (fresh_cursor, initial_world)
                          (Execute running_env 1 (ctx_caller (Some 0%nat))
                                   "SELECT * FROM t" false fresh_cursor initial_world)))
            = _CONTEXT_DONE
         /\ operationHandle
              (fst (returned (fresh_cursor, initial_world)
                      (Execute running_env 1 (ctx_caller (Some 0%nat))
                               "SELECT * FROM t" false fresh_cursor initial_world)))
            = operationHandle submitted_cursor).
Proof.
  assert (Hx : executeAsync running_env (ctx_caller (Some 0%nat)) "SELECT * FROM t"
                            fresh_cursor initial_world
               = Ok (with_state submitted_cursor _RUNNING, initial_world))
    by (vm_compute; reflexivity).
  assert (Hclean : Err (with_state submitted_cursor _RUNNING) = None)
    by (vm_compute; reflexivity).
  assert (Hlogs : Logs (with_state submitted_cursor _RUNNING) = None)
    by (vm_compute; reflexivity).
  assert (Hpoll : Poll running_env true (with_state submitted_cursor _RUNNING)
                       initial_world
                  = Ok (Some running_poll, with_state submitted_cursor _RUNNING,
                        initial_world))
    by (vm_compute; reflexivity).
  assert (Hcfg : conn_configuration (with_state submitted_cursor _RUNNING)
                 = Ok NewConnectConfiguration)
    by (vm_compute; reflexivity).
  assert (Hrun : Execute running_env 1 (ctx_caller (Some 0%nat)) "SELECT * FROM t"
                         false fresh_cursor initial_world
                 = Ok (fst (returned (fresh_cursor, initial_world)
                              (Execute running_env 1 (ctx_caller (Some 0%nat))
                                       "SELECT * FROM t" false fresh_cursor
                                       initial_world)),
                       snd (returned (fresh_cursor, initial_world)
                              (Execute running_env 1 (ctx_caller (Some 0%nat))
                                       "SELECT * FROM t" false fresh_cursor
                                       initial_world))))
    by (vm_compute; reflexivity).
  exact (proj1 (Execute_context_done
                  nat running_env 0 (ctx_caller (Some 0%nat)) "SELECT * FROM t"
                  fresh_cursor
                  (with_state submitted_cursor _RUNNING)
                  (with_state submitted_cursor _RUNNING)
                  initial_world initial_world initial_world
                  running_poll RUNNING_STATE NewConnectConfiguration
                  Hx Hclean Hlogs Hpoll eq_refl (or_intror (or_introl eq_refl))
                  Hcfg eq_refl _ _ Hrun)).
Defined.

(** ** Rows *)

Lemma int_wrap_small (z : Z) : - 2 ^ 63 <= z < 2 ^ 63 -> int_wrap z = z.
Proof.
  intros H. unfold int_wrap. rewrite Z.mod_small; lia.
Qed.

Lemma column_kind_populated (col : TColumn) :
  is_populated col = false -> column_kind col = None.
Proof.
  unfold is_populated, column_kind. intros H.
  repeat (apply orb_false_iff in H; destruct H as [H ?]).
  repeat match goal with Hx : _ = false |- _ => rewrite Hx; clear Hx end.
  reflexivity.
Qed.

Lemma FetchOne_column_unpopulated (col : TColumn) (columnIndex i : Z) (d : dest) :
  is_populated col = false ->
  FetchOne_column col columnIndex i d = Ok (Some (empty_column_error col), d).
Proof.
  unfold is_populated, FetchOne_column.
  unfold IsSetBinaryVal, IsSetByteVal, IsSetI16Val, IsSetI32Val, IsSetI64Val,
    IsSetBoolVal, IsSetDoubleVal, IsSetStringVal.
  destruct (BinaryVal col), (ByteVal col), (I16Val col), (I32Val col), (I64Val col),
    (BoolVal col), (DoubleVal col), (StringVal col); cbn; congruence.
Qed.

Lemma FetchOne_column_nil (col : TColumn) (columnIndex i : Z) (v : dest) :
  value_at col columnIndex = Some v ->
  FetchOne_column col columnIndex i dest_nil = Ok (None, v).
Proof.
  unfold value_at. intros H.
  destruct (column_kind col) as [k | ] eqn:Hk; [ | discriminate H ].
  destruct (FetchOne_column_dispatch col k Hk) as (vec & nil_value & Hvec & Hcol).
  rewrite Hvec in H. rewrite Hcol. unfold fetch_into, at_index.
  destruct (columnIndex <? 0); [ discriminate H | ].
  destruct (nth_error (Values vec) (Z.to_nat columnIndex)); [ | discriminate H ].
  injection H as <-. reflexivity.
Qed.

Lemma set_index_middle {A : Type} (done rest : list A) (x a : A) :
  set_index (done ++ x :: rest) (List.length done) a = done ++ a :: rest.
Proof.
  induction done as [ | y done IH]; cbn [app List.length set_index];
    [ reflexivity | now rewrite IH ].
Qed.

Lemma nth_error_middle {A : Type} (done rest : list A) (x : A) :
  nth_error (done ++ x :: rest) (List.length done) = Some x.
Proof.
  induction done as [ | y done IH]; cbn [app List.length nth_error]; auto.
Qed.

(** The loop over nil destinations stores the row, column by column. *)
Lemma FetchOne_loop_nil (cols : list TColumn) (columnIndex : Z) :
  forall (row done : list dest),
    Forall2 (fun col v => value_at col columnIndex = Some v) cols row ->
    FetchOne_loop cols (len done) columnIndex
                  (done ++ repeat dest_nil (List.length cols))
    = Ok (None, done ++ row).
Proof.
  induction cols as [ | col cols IH]; intros row done Hrow;
    inversion Hrow as [ | ? v ? row' Hv Hrow']; subst.
  - reflexivity.
  - cbn [List.length repeat FetchOne_loop].
    unfold len at 1. rewrite (at_index_nth _ _ _ (nth_error_middle done _ dest_nil)).
    cbn [obind]. rewrite (FetchOne_column_nil _ _ _ _ Hv). cbn [obind].
    unfold len. rewrite Nat2Z.id, set_index_middle.
    replace (Z.of_nat (List.length done) + 1) with (len (done ++ [v]))
      by (unfold len; rewrite length_app; cbn [List.length]; lia).
    replace (done ++ v :: repeat dest_nil (List.length cols))
      with ((done ++ [v]) ++ repeat dest_nil (List.length cols))
      by (rewrite <- app_assoc; reflexivity).
    rewrite (IH row' (done ++ [v]) Hrow'), <- app_assoc. reflexivity.
Qed.

Section Rows.

Variable S : Type.
Variable env : Env S.

(** X14. With unread rows in the batch and one nil destination per
    column, [FetchOne] sends nothing to the server, returns the values
    of all columns at the row index, in column order, and moves the row
    index by one. *)
Theorem FetchOne_reads_row
        (fuel : nat) (ctx : Context) (c : Cursor) (w : World S) (row : list dest) :
  in_bounds c ->
  totalRows c <> columnIndex c ->
  totalRows c < 2 ^ 63 ->
  Forall2 (fun col v => value_at col (columnIndex c) = Some v) (queue c) row ->
  FetchOne env fuel ctx (repeat dest_nil (List.length (queue c))) c w
  = Ok (row, with_columnIndex (with_Err c None) (columnIndex c + 1), w).
Proof.
  intros [Hlo Hhi] Hne Hmax Hrow.
  unfold FetchOne, fetchIfEmpty. cursor_simpl.
  apply Z.eqb_neq in Hne. rewrite Hne. cursor_simpl.
  unfold len. rewrite repeat_length, Z.eqb_refl. cbn [negb].
  pose proof (FetchOne_loop_nil (queue c) (columnIndex c) row [] Hrow) as Hloop.
  cbn [app] in Hloop. change (len []) with 0 in Hloop. rewrite Hloop.
  cursor_simpl. rewrite int_wrap_small; [ reflexivity | ].
  apply Z.eqb_neq in Hne. lia.
Qed.

End Rows.

(** X15. For a column whose populated vector is not binary, the loop
    body of [FetchOne] stores the value of the vector into a [*T]
    destination without consulting the null bitmap, so a null row is
    not told apart from the value the vector holds there; into a [**T]
    destination it stores nil when the bitmap flags the row and the
    value otherwise. *)
Theorem FetchOne_column_null_handling
        (col : TColumn) (k : GoKind) (vec : TCol (GoVal k)) (v old : GoVal k)
        (older : option (GoVal k)) (columnIndex i : Z) (null : bool) :
  column_kind col = Some k ->
  k <> KBinary ->
  column_vector col k = Some vec ->
  at_index (Values vec) columnIndex = Ok v ->
  isNull (Nulls vec) columnIndex = Ok null ->
  FetchOne_column col columnIndex i (dest_ptr k old) = Ok (None, dest_ptr k v)
  /\ FetchOne_column col columnIndex i (dest_ptrptr k older)
     = Ok (None, dest_ptrptr k (if null then None else Some v)).
Proof.
  intros Hk Hbin Hvec Hv Hnull.
  destruct (FetchOne_column_dispatch col k Hk) as (vec' & nil_value & Hvec' & Hcol).
  rewrite Hvec in Hvec'. injection Hvec' as <-.
  rewrite !Hcol. unfold fetch_into. rewrite Hv, Hnull. cbn [obind].
  assert (GoKind_eqb k k = true) as -> by (destruct k; reflexivity).
  assert (GoKind_eqb k KBinary = false) as ->
      by (clear - Hbin; destruct k; try reflexivity; exfalso; apply Hbin; reflexivity).
  cbn [andb negb]. split; [ reflexivity | ].
  destruct null; reflexivity.
Qed.

Lemma FetchOne_reads_row_witness :
  FetchOne paged_env 0 ctx_Background [dest_nil; dest_nil]
           (fst first_batch_loaded) (snd first_batch_loaded)
  = Ok ([dest_value KI32 1; dest_value KString "1"],
        with_columnIndex (with_Err (fst first_batch_loaded) None) 1,
        snd first_batch_loaded).
Proof.
  exact (FetchOne_reads_row
           nat paged_env 0 ctx_Background
           (fst first_batch_loaded) (snd first_batch_loaded)
           [dest_value KI32 1; dest_value KString "1"]
           ltac:(split; vm_compute; discriminate)
           ltac:(vm_compute; discriminate)
           ltac:(vm_compute; reflexivity)
           ltac:(repeat constructor)).
Defined.

Lemma FetchOne_column_null_handling_witness :
  FetchOne_column (i32_column [7; 0] [2]) 1 0 (dest_ptr KI32 5)
  = Ok (None, dest_ptr KI32 0)
  /\ FetchOne_column (i32_column [7; 0] [2]) 1 0 (dest_ptrptr KI32 (Some 5))
     = Ok (None, dest_ptrptr KI32 None).
Proof.
  exact (FetchOne_column_null_handling
           (i32_column [7; 0] [2]) KI32 {| Values := [7; 0]; Nulls := [2] |}
           0 5 (Some 5) 1 0 true
           eq_refl ltac:(discriminate) eq_refl eq_refl eq_refl).
Defined.

(** ** The row counters *)

Lemma values_len_nonneg {V : Type} (p : option (TCol V)) : 0 <= values_len p.
Proof. destruct p; cbn; [ apply len_nonneg | lia ]. Qed.

Lemma getTotalRows_range (columns : list TColumn) :
  0 <= fst (getTotalRows columns)
  \/ (fst (getTotalRows columns) = -1 /\ snd (getTotalRows columns) <> None
      /\ first_unpopulated columns).
Proof.
  destruct columns as [ | el rest]; cbn [getTotalRows].
  - left. cbn. lia.
  - repeat match goal with
           | |- context [if ?b then _ else _] => destruct b eqn:?
           end;
      cbn [fst snd];
      first [ left; apply values_len_nonneg | right ].
    split; [ reflexivity | split; [ discriminate | ] ].
    exists el, rest. split; [ reflexivity | ]. unfold is_populated.
    repeat match goal with
           | H : _ = false |- _ => rewrite H; clear H
           end.
    reflexivity.
Qed.

Lemma parseResults_counters (c c' : Cursor) (r : option TFetchResultsResp)
      (err : option error) :
  parseResults c r = Ok (err, c') ->
  columnIndex c' = 0
  /\ (0 <= totalRows c'
      \/ (totalRows c' = -1 /\ err <> None /\ state c' = _FINISHED
          /\ first_unpopulated (queue c'))).
Proof.
  unfold parseResults. intros H.
  destruct r as [r | ]; cbn [deref obind] in H; [ | discriminate H ].
  destruct (Results r) as [rows | ]; cbn [deref obind] in H; [ | discriminate H ].
  cbn [with_queue with_columnIndex queue] in H.
  pose proof (getTotalRows_range (Columns rows)) as Hrange.
  destruct (getTotalRows (Columns rows)) as [n e]. cbn [fst snd] in Hrange.
  cbn [with_totalRows with_newData newData totalRows] in H.
  destruct (n >? 0) eqn:Hn; cbn [negb] in H; injection H as <- <-;
    cbn [columnIndex totalRows state queue with_state with_newData with_totalRows
         with_columnIndex with_queue].
  - split; [ reflexivity | left ]. apply Z.gtb_lt in Hn. lia.
  - split; [ reflexivity | ]. destruct Hrange as [Hr | (Hr & He & Hq)]; auto.
Qed.

Section Counters.

Variable S : Type.
Variable env : Env S.

Lemma pollWorker_counters (fuel : nat) :
  forall (iter : nat) (ctx : Context) (c c1 : Cursor) (w w1 : World S)
         (e : option error),
    pollWorker env fuel iter ctx c w = Ok (e, c1, w1) -> polled c c1 e.
Proof.
  induction fuel as [ | fuel IH]; intros iter ctx c c1 w w1 e H; [ discriminate H | ].
  cbn [pollWorker] in H.
  destruct (ctx_done_at ctx iter).
  { injection H as <- <- _. left. auto. }
  destruct (conn_configuration c) as [cfg | | ]; cbn [obind] in H; try discriminate H.
  destruct (conn_client c) as [cl | | ]; cbn [obind] in H; try discriminate H.
  destruct (FetchResults env cl ctx_Background _ (server w)) as [[resp err] s].
  destruct err as [msg | ].
  { injection H as <- <- _. left. auto. }
  destruct (GetStatus fetch_Status resp) as [st | | ]; cbn [obind] in H;
    try discriminate H.
  destruct (negb (TStatusCode_eqb _ _)).
  { injection H as <- <- _. left. auto. }
  destruct (parseResults (with_response c resp) resp) as [[perr c2] | | ] eqn:Hparse;
    cbn [obind] in H; try discriminate H.
  apply parseResults_counters in Hparse. destruct Hparse as [Hci Htr].
  destruct perr as [pe | ].
  { injection H as <- <- _. right. auto. }
  destruct (len (queue c2) >? 0).
  { injection H as <- <- _. right. auto. }
  apply IH in H. destruct H as [[H1 H2] | H]; [ | right; exact H ].
  right. rewrite H1, H2. split; [ exact Hci | ].
  destruct Htr as [Htr | (_ & Hne & _)]; [ left; exact Htr | congruence ].
Qed.

Lemma pollUntilData_counters (fuel : nat) (ctx : Context) (n : Z)
      (c c1 : Cursor) (w w1 : World S) (e : option error) :
  pollUntilData env fuel ctx n c w = Ok (e, c1, w1) -> polled c c1 e.
Proof.
  unfold pollUntilData. intros H.
  destruct (pollWorker env fuel 0 ctx c w) as [[[e0 c2] w2] | | ] eqn:Hw;
    cbn [obind] in H; try discriminate H.
  apply pollWorker_counters in Hw.
  assert (forall e', (e0 <> None -> e' <> None) -> polled c c2 e') as Hweak.
  { intros e' He'. destruct Hw as [Hw | (Hci & Htr)]; [ left; exact Hw | right ].
    split; [ exact Hci | ].
    destruct Htr as [Htr | (H1 & H2 & H3 & H4)]; [ left; exact Htr | right; auto ]. }
  destruct (ctx_fires ctx).
  - injection H as <- <- _. apply Hweak. discriminate.
  - destruct e0 as [e0 | ].
    + injection H as <- <- _. apply Hweak. auto.
    + destruct (len (queue c2) <? n); injection H as <- <- _; apply Hweak; congruence.
Qed.

Lemma polled_bounds (c c1 : Cursor) (e : option error) :
  in_bounds c -> polled c c1 e ->
  in_bounds (with_Err c1 e) \/ out_of_order (with_Err c1 e).
Proof.
  unfold in_bounds, out_of_order. cbn [with_Err columnIndex totalRows Err state queue].
  intros Hb [[H1 H2] | (Hci & [Htr | (H1 & H2 & H3 & H4)])].
  - left. lia.
  - left. lia.
  - right. auto.
Qed.

Lemma HasMore_bounds (fuel : nat) (ctx : Context) (c c' : Cursor) (w w' : World S)
      (b : bool) :
  in_bounds c ->
  HasMore env fuel ctx c w = Ok (b, c', w') ->
  in_bounds c' \/ out_of_order c'.
Proof.
  intros Hb H. unfold HasMore in H.
  assert (in_bounds (with_Err c None)) as Hb0 by exact Hb.
  destruct (negb (is_set (response (with_Err c None)))
            && negb (state (with_Err c None) =? _FINISHED)).
  - destruct (pollUntilData env fuel ctx 1 (with_Err c None) w)
      as [[[err c2] w2] | | ] eqn:Hp; cbn [obind] in H; try discriminate H.
    injection H as _ <- _.
    exact (polled_bounds _ _ _ Hb0 (pollUntilData_counters _ _ _ _ _ _ _ _ Hp)).
  - destruct ((totalRows (with_Err c None) =? columnIndex (with_Err c None))
              && negb (state (with_Err c None) =? _FINISHED)).
    + destruct (pollUntilData env fuel ctx 1 (with_Err c None) w)
        as [[[err c2] w2] | | ] eqn:Hp; cbn [obind] in H; try discriminate H.
      injection H as _ <- _.
      exact (polled_bounds _ _ _ Hb0 (pollUntilData_counters _ _ _ _ _ _ _ _ Hp)).
    + cbn [obind] in H. injection H as _ <- _. left. exact Hb0.
Qed.

Lemma fetchIfEmpty_bounds (fuel : nat) (ctx : Context) (c c1 : Cursor)
      (w w1 : World S) :
  in_bounds c ->
  fetchIfEmpty env fuel ctx c w = Ok (c1, w1) ->
  in_bounds c1 \/ out_of_order c1.
Proof.
  intros Hb H. unfold fetchIfEmpty in H.
  destruct (totalRows (with_Err c None) =? columnIndex (with_Err c None)).
  - destruct (HasMore env fuel ctx (with_queue (with_Err c None) []) w)
      as [[[more c2] w2] | | ] eqn:Hm; cbn [obind] in H; try discriminate H.
    apply HasMore_bounds in Hm; [ | exact Hb ].
    destruct (negb more); injection H as <- _; [ | exact Hm ].
    destruct Hm as [Hm | (H1 & H2 & H3 & H4 & H5)]; [ left; exact Hm | right ].
    unfold out_of_order. cbn [with_Err columnIndex totalRows Err state queue].
    repeat split; auto. discriminate.
  - injection H as <- _. left. exact Hb.
Qed.

(** A [fetchIfEmpty] that leaves no error leaves an unread row. *)
Lemma fetchIfEmpty_row_available (fuel : nat) (ctx : Context) (c c1 : Cursor)
      (w w1 : World S) :
  fetchIfEmpty env fuel ctx c w = Ok (c1, w1) ->
  Err c1 = None ->
  totalRows c1 <> columnIndex c1.
Proof.
  unfold fetchIfEmpty. cursor_simpl. intros H He.
  destruct (totalRows c =? columnIndex c) eqn:Heq.
  - destruct (HasMore env fuel ctx (with_queue (with_Err c None) []) w)
      as [[[more c2] w2] | | ] eqn:Hm; cbn [obind] in H; try discriminate H.
    destruct more; cbn [negb] in H; injection H as <- _; [ | discriminate He ].
    destruct (HasMore_clean_settles _ _ _ _ _ _ _ _ _ Hm He) as (_ & _ & Hfin & Hb).
    intros Heq'. rewrite (Hfin Heq'), Heq', !Z.eqb_refl in Hb. discriminate Hb.
  - injection H as <- _. cbn. now apply Z.eqb_neq.
Qed.

(** X16. [FetchOne] keeps the row counters in order: from a cursor
    with [0 <= columnIndex <= totalRows], a call that returns, failed or
    not, leaves a cursor with the same property (for a batch of fewer
    than 2^63 rows), with one exception: it may return with an error,
    [columnIndex = 0] and [totalRows = -1], and only with a batch in
    the queue whose first column has no populated vector. *)
Theorem FetchOne_keeps_counters_in_order
        (fuel : nat) (ctx : Context) (dests dests' : list dest)
        (c c' : Cursor) (w w' : World S) :
  in_bounds c ->
  FetchOne env fuel ctx dests c w = Ok (dests', c', w') ->
  totalRows c' < 2 ^ 63 ->
  in_bounds c'
  \/ (columnIndex c' = 0 /\ totalRows c' = -1 /\ Err c' <> None
      /\ state c' = _FINISHED
      /\ exists el rest, queue c' = el :: rest /\ is_populated el = false).
Proof.
  intros Hb H Hmax. unfold FetchOne in H.
  rewrite fetchIfEmpty_clears_first in H.
  destruct (fetchIfEmpty env fuel ctx c w) as [[c1 w1] | | ] eqn:Hf;
    cbn [obind] in H; try discriminate H.
  pose proof (fetchIfEmpty_bounds _ _ _ _ _ _ Hb Hf) as Hb1.
  destruct (Err c1) as [e1 | ] eqn:He1; cbn [is_set] in H.
  { injection H as _ <- _. exact Hb1. }
  assert (in_bounds c1) as Hin.
  { destruct Hb1 as [Hb1 | (_ & _ & Hne & _)]; [ exact Hb1 | congruence ]. }
  pose proof (fetchIfEmpty_row_available _ _ _ _ _ _ Hf He1) as Hrow.
  destruct (negb (len (queue c1) =? len dests)).
  { injection H as _ <- _. left. exact Hin. }
  destruct (FetchOne_loop (queue c1) 0 (columnIndex c1) dests) as [[err d1] | | ];
    cbn [obind] in H; try discriminate H.
  destruct err as [e | ]; injection H as _ <- _; left; [ exact Hin | ].
  unfold in_bounds in *. cbn [with_columnIndex columnIndex totalRows] in *.
  rewrite int_wrap_small; lia.
Qed.

End Counters.

Lemma FetchOne_keeps_counters_in_order_witness :
  in_bounds (with_columnIndex (with_Err (fst first_batch_loaded) None) 1)
  \/ (columnIndex (with_columnIndex (with_Err (fst first_batch_loaded) None) 1) = 0
      /\ totalRows (with_columnIndex (with_Err (fst first_batch_loaded) None) 1) = -1
      /\ Err (with_columnIndex (with_Err (fst first_batch_loaded) None) 1) <> None
      /\ state (with_columnIndex (with_Err (fst first_batch_loaded) None) 1)
         = _FINISHED
      /\ exists el rest,
           queue (with_columnIndex (with_Err (fst first_batch_loaded) None) 1)
           = el :: rest
           /\ is_populated el = false).
Proof.
  exact (FetchOne_keeps_counters_in_order
           nat paged_env 0 ctx_Background [dest_nil; dest_nil]
           [dest_value KI32 1; dest_value KString "1"]
           (fst first_batch_loaded)
           (with_columnIndex (with_Err (fst first_batch_loaded) None) 1)
           (snd first_batch_loaded) (snd first_batch_loaded)
           ltac:(split; vm_compute; discriminate)
           ltac:(vm_compute; reflexivity)
           ltac:(vm_compute; reflexivity)).
Defined.

Section Stuck.

Variable S : Type.
Variable env : Env S.


(** X17. A cursor that received a batch whose first column has no
    populated vector does not move any more: [HasMore] answers true
    without asking the server, every [FetchOne] fails with the
    argument-count or the empty-column error and sends nothing, and
    both leave the cursor in that condition. *)
Theorem unpopulated_first_column_sticks
        (fuel : nat) (ctx : Context) (c : Cursor) (w : World S) :
  stuck c ->
  HasMore env fuel ctx c w = Ok (true, with_Err c None, w)
  /\ stuck (with_Err c None)
  /\ forall dests,
      exists e,
        FetchOne env fuel ctx dests c w = Ok (dests, with_Err c (Some e), w)
        /\ stuck (with_Err c (Some e)).
Proof.
  intros (Hresp & Hci & Htr & el & rest & Hq & Hpop).
  assert (forall e, stuck (with_Err c e)) as Hstuck.
  { intros e. unfold stuck. cbn [with_Err response columnIndex totalRows queue].
    repeat split; auto. exists el, rest. auto. }
  split; [ | split; [ apply Hstuck | ] ].
  - unfold HasMore. cbn [with_Err response state totalRows columnIndex].
    rewrite Hresp, Htr, Hci. cbn [is_set negb andb Z.eqb]. cbn [obind].
    cbn [with_Err state totalRows columnIndex]. rewrite Htr, Hci.
    cbn [Z.eqb negb]. now rewrite orb_true_r.
  - intros dests. unfold FetchOne, fetchIfEmpty.
    cbn [with_Err totalRows columnIndex]. rewrite Htr, Hci. cbn [Z.eqb obind].
    cbn [with_Err Err is_set queue columnIndex].
    destruct (len (queue c) =? len dests) eqn:Hlen; cbn [negb].
    + rewrite Hq. rewrite Hq in Hlen. apply Z.eqb_eq in Hlen.
      destruct dests as [ | d ds]; [ rewrite len_cons in Hlen;
                                     pose proof (len_nonneg rest);
                                     change (len (@nil dest)) with 0 in Hlen; lia | ].
      cbn [FetchOne_loop]. change (at_index (d :: ds) 0) with (Ok d). cbn [obind].
      rewrite FetchOne_column_unpopulated by exact Hpop. cbn [obind].
      change (set_index (d :: ds) (Z.to_nat 0) d) with (d :: ds).
      eexists. split; [ reflexivity | apply Hstuck ].
    + eexists. split; [ reflexivity | apply Hstuck ].
Qed.

End Stuck.


Lemma unpopulated_first_column_sticks_witness :
  HasMore unpopulated_env 1 ctx_Background
          (snd (fst (asked_once unpopulated_env))) (snd (asked_once unpopulated_env))
  = Ok (true, with_Err (snd (fst (asked_once unpopulated_env))) None,
        snd (asked_once unpopulated_env)).
Proof.
  apply (unpopulated_first_column_sticks
           nat unpopulated_env 1 ctx_Background
           (snd (fst (asked_once unpopulated_env))) (snd (asked_once unpopulated_env))).
  split; [ reflexivity | ].
  split; [ reflexivity | ].
  split; [ reflexivity | ].
  exists empty_column, [string_column ["1"] [0]]. split; reflexivity.
Defined.


(** ** Decimals in [RowSlice] *)

Lemma Contains_char (a b : string) (c : ascii) :
  Contains (a ++ String c b) (String c EmptyString) = true.
Proof.
  induction a as [|x a IH]; cbn.
  - destruct (ascii_dec c c) as [_ | n]; [ | contradiction ].
    destruct b; reflexivity.
  - destruct (ascii_dec c x).
    + destruct (a ++ String c b)%string; reflexivity.
    + exact IH.
Qed.

Lemma TrimRight_repeat (c : ascii) (n : nat) : TrimRight (repeat_char c n) c = EmptyString.
Proof.
  induction n as [|n IH]; cbn; [reflexivity|].
  rewrite IH, Ascii.eqb_refl. reflexivity.
Qed.

Lemma TrimRight_app_repeat (s : string) (c : ascii) (n : nat) :
  TrimRight (s ++ repeat_char c n) c = TrimRight s c.
Proof.
  induction s as [|a s IH]; cbn.
  - apply TrimRight_repeat.
  - rewrite IH. reflexivity.
Qed.

Lemma TrimRight_id (s : string) (c : ascii) :
  last_char s <> Some c -> TrimRight s c = s.
Proof.
  induction s as [|a s IH]; intros Hl; cbn; [reflexivity|].
  destruct s as [|b s'].
  - cbn. destruct (Ascii.eqb_spec a c) as [->|]; [exfalso; apply Hl; reflexivity|reflexivity].
  - rewrite IH by exact Hl. reflexivity.
Qed.

Lemma last_char_app (a b : string) :
  b <> EmptyString -> last_char (a ++ b) = last_char b.
Proof.
  intros Hb. induction a as [|x a IH]; cbn; [reflexivity|].
  rewrite <- IH. destruct (a ++ b)%string eqn:E; [|reflexivity].
  destruct a; cbn in E; [contradiction|discriminate].
Qed.

Lemma last_char_has_char (s : string) (c : ascii) :
  has_char c s = false -> last_char s <> Some c.
Proof.
  induction s as [|a s IH]; cbn; [discriminate|].
  intros H. apply Bool.orb_false_iff in H as [Ha Hs].
  destruct s as [|b s'].
  - intros [= ->]. rewrite Ascii.eqb_refl in Ha. discriminate.
  - apply IH, Hs.
Qed.

(** X18. [RowSlice] hands a decimal over without the zeros that end
    its fraction, and without the point when no digit of the fraction
    is left; the integer part is never touched, whatever it ends in. *)
Theorem trim_decimal_fraction (ip frac : string) (n : nat) :
  has_char "."%char ip = false ->
  has_char "."%char frac = false ->
  last_char frac <> Some "0"%char ->
  trim_decimal (ip ++ "." ++ frac ++ repeat_char "0"%char n)
  = match frac with
    | EmptyString => ip
    | _ => (ip ++ "." ++ frac)%string
    end.
Proof.
  intros Hip Hfrac Hlast. unfold trim_decimal.
  change (ip ++ "." ++ frac ++ repeat_char "0"%char n)%string
    with (ip ++ String "."%char (frac ++ repeat_char "0"%char n))%string.
  rewrite Contains_char.
  replace (ip ++ String "."%char (frac ++ repeat_char "0"%char n))%string
    with ((ip ++ String "."%char frac) ++ repeat_char "0"%char n)%string.
  2:{ clear. induction ip as [|a ip IH]; cbn; [reflexivity|]. rewrite IH. reflexivity. }
  rewrite TrimRight_app_repeat.
  destruct frac as [|f frac'].
  - rewrite (TrimRight_id (ip ++ ".") "0"%char).
    + change (ip ++ ".")%string with (ip ++ repeat_char "."%char 1)%string.
      rewrite TrimRight_app_repeat. apply TrimRight_id, last_char_has_char, Hip.
    + rewrite last_char_app by discriminate. cbn. discriminate.
  - rewrite (TrimRight_id _ "0"%char).
    + apply TrimRight_id.
      change (ip ++ String "."%char (String f frac'))%string
        with (ip ++ String "."%char EmptyString ++ String f frac')%string.
      rewrite <- append_assoc, last_char_app by discriminate.
      apply last_char_has_char, Hfrac.
    + change (ip ++ String "."%char (String f frac'))%string
        with (ip ++ String "."%char EmptyString ++ String f frac')%string.
      rewrite <- append_assoc, last_char_app by discriminate.
      exact Hlast.
Qed.

Lemma trim_decimal_fraction_witness :
  trim_decimal "120.500" = "120.5"%string /\ trim_decimal "120.00" = "120"%string.
Proof.
  split.
  - apply (trim_decimal_fraction "120" "5" 2); [reflexivity|reflexivity|cbn; discriminate].
  - apply (trim_decimal_fraction "120" "" 2); [reflexivity|reflexivity|cbn; discriminate].
Defined.


(** ** Description *)

Lemma describe_types_last (name : string) (types : list TTypeEntry) (mi0 mi : list string) :
  describe_types name types mi0 = Ok mi ->
  match rev types with
  | [] => mi = mi0
  | t :: _ => exists p, PrimitiveEntry t = Some p /\ mi = [name; Type_String p]
  end.
Proof.
  revert mi0. induction types as [|t types IH]; intros mi0 H; cbn in H.
  - cbn. congruence.
  - destruct (PrimitiveEntry t) as [p|] eqn:Ep; cbn in H; [|discriminate].
    apply IH in H. cbn [rev].
    destruct (rev types) as [|t' r] eqn:Er; cbn [app].
    + exists p. split; [exact Ep|exact H].
    + exact H.
Qed.

Lemma describe_columns_described (columns : list TColumnDesc) (m : list (list string)) :
  describe_columns columns = Ok m -> Forall2 described_by columns m.
Proof.
  revert m. induction columns as [|col columns IH]; intros m H; cbn in H.
  - injection H as <-. constructor.
  - destruct (TypeDesc col) as [td|] eqn:Etd; cbn in H; [|discriminate].
    destruct (describe_types (ColumnName col) (Types td) []) as [mi| |] eqn:Emi;
      cbn in H; try discriminate.
    destruct (describe_columns columns) as [ms| |] eqn:Ems; cbn in H; try discriminate.
    injection H as <-. constructor; [|apply IH; reflexivity].
    exists td. split; [exact Etd|]. apply describe_types_last in Emi. exact Emi.
Qed.

Section DescriptionFacts.

Variable S : Type.
Variable GRM : TCLIServiceClient -> Context -> option TOperationHandle -> S ->
               option TGetResultSetMetadataResp * option string * S.

(** What a call of [Description] that has nothing cached does. *)
Lemma Description_shape (c : Cursor) (w : World S) (d : option (list (list string)))
      (c1 : Cursor) (w1 : World S) :
  description c = None ->
  Description GRM c w = Ok (d, c1, w1) ->
  exists cl r err s,
    conn_client c = Ok cl
    /\ GRM cl ctx_Background (operationHandle c) (server w) = (r, err, s)
    /\ w1 = with_server w s
    /\ conn c1 = conn c /\ queue c1 = queue c /\ columnIndex c1 = columnIndex c
    /\ totalRows c1 = totalRows c
    /\ (operationHandle c = None -> Err c1 <> None)
    /\ match d with
       | None => Err c1 <> None /\ description c1 = None
       | Some m =>
           description c1 = Some m
           /\ (operationHandle c <> None -> Err c1 = Err c)
           /\ err = None
           /\ exists resp schema,
                r = Some resp /\ Schema resp = Some schema
                /\ describe_columns (schema_Columns schema) = Ok m
       end.
Proof.
  intros Hd H. unfold Description in H. rewrite Hd in H.
  set (c0 := if negb (is_set (operationHandle c)) then _ else c) in H.
  assert (Hc0 : conn c0 = conn c /\ queue c0 = queue c /\ columnIndex c0 = columnIndex c
                /\ totalRows c0 = totalRows c /\ description c0 = None
                /\ operationHandle c0 = operationHandle c
                /\ (operationHandle c = None -> Err c0 <> None)
                /\ (operationHandle c <> None -> Err c0 = Err c)).
  { subst c0. destruct (operationHandle c) eqn:Eh; cbn [is_set negb].
    - repeat split; try assumption; try reflexivity; intros; congruence.
    - cursor_unfold. cbn. repeat split; try assumption; intros; congruence. }
  destruct Hc0 as (Hconn & Hq & Hci & Htr & Hdesc & Hoh & Herr & Hkeep).
  assert (Hcl : conn_client c0 = conn_client c).
  { unfold conn_client. rewrite Hconn. reflexivity. }
  rewrite Hcl, Hoh in H.
  destruct (conn_client c) as [cl| |] eqn:Ecl; cbn [obind] in H; try discriminate.
  destruct (GRM cl ctx_Background (operationHandle c) (server w)) as [[r err] s] eqn:Erpc.
  exists cl, r, err, s. split; [reflexivity|]. split; [exact Erpc|].
  destruct err as [e|].
  - injection H as <- <- <-. cursor_unfold. cbn.
    repeat split; try assumption; try discriminate;
        try (intros _; discriminate).
  - destruct r as [resp|]; cbn [deref obind] in H; [|discriminate].
    destruct (meta_Status resp) as [st|] eqn:Est; cbn [deref obind] in H; [|discriminate].
    destruct (negb (TStatusCode_eqb (StatusCode st) SUCCESS_STATUS)).
    + injection H as <- <- <-. cursor_unfold. cbn.
      repeat split; try assumption; try discriminate;
        try (intros _; discriminate).
    + destruct (Schema resp) as [schema|] eqn:Es; cbn [deref obind] in H; [|discriminate].
      destruct (describe_columns (schema_Columns schema)) as [m| |] eqn:Em;
        cbn [obind] in H; try discriminate.
      injection H as <- <- <-. cursor_unfold. cbn.
      repeat split; try assumption.
      exists resp, schema. repeat split; assumption.
Qed.

(** X19. A description that [Description] has returned is kept: every
    later call returns it again, sends nothing to the server and
    leaves the cursor as it is. *)
Theorem Description_stable (c : Cursor) (w : World S) (m : list (list string))
        (c1 : Cursor) (w1 : World S) :
  Description GRM c w = Ok (Some m, c1, w1) ->
  Description GRM c1 w1 = Ok (Some m, c1, w1).
Proof.
  intros H.
  assert (Hd1 : description c1 = Some m).
  { destruct (description c) as [d|] eqn:Ed.
    - unfold Description in H. rewrite Ed in H. injection H as -> <- <-. exact Ed.
    - apply Description_shape in H; [|exact Ed].
      destruct H as (cl & r & err & s & _ & _ & _ & _ & _ & _ & _ & _ & Hm & _).
      exact Hm. }
  unfold Description. rewrite Hd1. reflexivity.
Qed.

(** X20. A description read from the server has one entry per column
    of the schema, in the order of the schema; the entry holds the
    name of the column and the type of the last of its type entries,
    and is empty for a column that has no type entry. *)
Theorem Description_describes (c : Cursor) (w : World S) (m : list (list string))
        (c1 : Cursor) (w1 : World S) :
  description c = None ->
  Description GRM c w = Ok (Some m, c1, w1) ->
  exists cl resp schema s,
    conn_client c = Ok cl
    /\ GRM cl ctx_Background (operationHandle c) (server w) = (Some resp, None, s)
    /\ Schema resp = Some schema
    /\ Forall2 described_by (schema_Columns schema) m.
Proof.
  intros Hd H. apply Description_shape in H; [|exact Hd].
  destruct H as (cl & r & err & s & Hcl & Hrpc & _ & _ & _ & _ & _ & _ & _ & _ & -> & Hex).
  destruct Hex as (resp & schema & -> & Hs & Hm).
  exists cl, resp, schema, s. repeat split; try assumption.
  apply describe_columns_described, Hm.
Qed.

(** X21. On a cursor without an operation [Description] records its
    error and asks the server all the same, with no handle in the
    request: whatever the server answers, the call ends with an error
    on the cursor, also when it returns a description. *)
Theorem Description_without_operation (c : Cursor) (w : World S)
        (d : option (list (list string))) (c1 : Cursor) (w1 : World S) :
  operationHandle c = None ->
  description c = None ->
  Description GRM c w = Ok (d, c1, w1) ->
  Err c1 <> None
  /\ exists cl r err s,
       conn_client c = Ok cl
       /\ GRM cl ctx_Background None (server w) = (r, err, s)
       /\ server w1 = s.
Proof.
  intros Hoh Hd H. apply Description_shape in H; [|exact Hd].
  destruct H as (cl & r & err & s & Hcl & Hrpc & -> & _ & _ & _ & _ & Herr & _).
  split; [apply Herr, Hoh|].
  exists cl, r, err, s. rewrite <- Hoh. repeat split; assumption.
Qed.

End DescriptionFacts.

Lemma Description_stable_witness :
  exists c1 w1,
    Description (metadata_server table_columns)
                (fst first_batch_loaded) (snd first_batch_loaded)
    = Ok (Some [["a"; "INT_TYPE"]; ["b"; "STRING_TYPE"]], c1, w1)
    /\ Description (metadata_server table_columns) c1 w1
       = Ok (Some [["a"; "INT_TYPE"]; ["b"; "STRING_TYPE"]], c1, w1).
Proof.
  eexists. eexists.
  assert (H : Description (metadata_server table_columns)
                (fst first_batch_loaded) (snd first_batch_loaded)
              = Ok (Some [["a"; "INT_TYPE"]; ["b"; "STRING_TYPE"]],
                    with_description (fst first_batch_loaded)
                      (Some [["a"; "INT_TYPE"]; ["b"; "STRING_TYPE"]]),
                    snd first_batch_loaded)) by (vm_compute; reflexivity).
  split; [exact H|].
  exact (Description_stable nat (metadata_server table_columns) _ _ _ _ _ H).
Defined.

Lemma Description_describes_witness :
  exists cl resp schema s,
    conn_client (fst first_batch_loaded) = Ok cl
    /\ metadata_server table_columns cl ctx_Background
         (operationHandle (fst first_batch_loaded)) (server (snd first_batch_loaded))
       = (Some resp, None, s)
    /\ Schema resp = Some schema
    /\ Forall2 described_by (schema_Columns schema)
               [["a"; "INT_TYPE"]; ["b"; "STRING_TYPE"]].
Proof.
  apply (Description_describes nat (metadata_server table_columns)
           (fst first_batch_loaded) (snd first_batch_loaded) _
           (with_description (fst first_batch_loaded)
              (Some [["a"; "INT_TYPE"]; ["b"; "STRING_TYPE"]]))
           (snd first_batch_loaded)).
  - vm_compute. reflexivity.
  - vm_compute. reflexivity.
Defined.

Lemma Description_without_operation_witness :
  exists c1 w1,
    Description (metadata_server table_columns) fresh_cursor initial_world
    = Ok (Some [["a"; "INT_TYPE"]; ["b"; "STRING_TYPE"]], c1, w1)
    /\ Err c1 <> None.
Proof.
  eexists. eexists.
  assert (H : Description (metadata_server table_columns) fresh_cursor initial_world
              = Ok (Some [["a"; "INT_TYPE"]; ["b"; "STRING_TYPE"]],
                    with_description
                      (with_Err fresh_cursor (Some (errors_New
                         "Description can only be called after after a Poll or after an async request")))
                      (Some [["a"; "INT_TYPE"]; ["b"; "STRING_TYPE"]]),
                    initial_world)) by (vm_compute; reflexivity).
  split; [exact H|].
  exact (proj1 (Description_without_operation nat (metadata_server table_columns)
                  fresh_cursor initial_world _ _ _ eq_refl eq_refl H)).
Defined.


(** ** Rows as maps and slices *)

Lemma map_set_length {V : Type} (m : gomap V) (k : string) (v : V) :
  (List.length (map_set m k v) <= Datatypes.S (List.length m))%nat.
Proof.
  unfold map_set. cbn [List.length]. apply le_n_S, filter_length_le.
Qed.

Lemma filter_length_lt {A : Type} (p : A -> bool) (l : list A) (x : A) :
  In x l -> p x = false -> (List.length (filter p l) < List.length l)%nat.
Proof.
  induction l as [ | a l IH]; intros Hin Hp; [ contradiction | ].
  cbn [filter List.length]. destruct Hin as [-> | Hin].
  - rewrite Hp. apply Nat.lt_succ_r, filter_length_le.
  - specialize (IH Hin Hp). destruct (p a); cbn [List.length]; lia.
Qed.

Lemma map_set_length_present {V : Type} (m : gomap V) (k : string) (v : V) :
  map_get m k <> None ->
  (List.length (map_set m k v) <= List.length m)%nat.
Proof.
  intros H. apply map_get_In in H. apply in_map_iff in H.
  destruct H as ([k0 v0] & Hk & Hin). cbn [fst] in Hk. subst k0.
  unfold map_set. cbn [List.length].
  apply (filter_length_lt (fun kv => negb (String.eqb (fst kv) k)) m (k, v0) Hin).
  cbn [fst]. rewrite String.eqb_refl. reflexivity.
Qed.

Lemma RowMap_loop_length (cols : list TColumn) :
  forall (d : list (list string)) (ci : Z) (m m' : gomap any),
    RowMap_loop cols d ci m = Ok m' ->
    (List.length m' <= List.length m + List.length cols)%nat.
Proof.
  induction cols as [ | col cols IH]; intros d ci m m'; cbn [RowMap_loop].
  - intros [= <-]. lia.
  - destruct d as [ | di d]; [ discriminate | ].
    destruct (at_index di 0) as [name | | ]; cbn [obind]; try discriminate.
    destruct (at_index di 1) as [ty | | ]; cbn [obind]; try discriminate.
    destruct (row_value (fun s => s) col ty ci) as [[a | ] | | ]; cbn [obind];
      try discriminate; intros H; apply IH in H; cbn [List.length].
    + pose proof (map_set_length m name a). lia.
    + lia.
Qed.

Lemma RowMap_loop_app (a : list TColumn) :
  forall (da : list (list string)) (b : list TColumn) (db : list (list string))
         (ci : Z) (m : gomap any),
    List.length a = List.length da ->
    RowMap_loop (a ++ b) (da ++ db) ci m
    = (m1 <- RowMap_loop a da ci m ;; RowMap_loop b db ci m1).
Proof.
  induction a as [ | col a IH]; intros da b db ci m Hlen.
  - destruct da; [ reflexivity | discriminate Hlen ].
  - destruct da as [ | di da]; [ discriminate Hlen | ].
    injection Hlen as Hlen. cbn [app RowMap_loop].
    destruct (at_index di 0) as [name | | ]; cbn [obind]; try reflexivity.
    destruct (at_index di 1) as [ty | | ]; cbn [obind]; try reflexivity.
    destruct (row_value (fun s => s) col ty ci) as [v | | ]; cbn [obind];
      try reflexivity.
    apply IH, Hlen.
Qed.

(** X22. Two columns of the same name share one key of the map that
    [RowMap] builds: when an earlier column has stored a value under a
    name, a later column of that name replaces it, the other keys keep
    their values, and the map ends with fewer entries than there are
    columns, which is when [RowMap] logs its warning. *)
Theorem RowMap_same_name_last_wins
        (pre : list TColumn) (dpre : list (list string)) (col : TColumn)
        (name ty : string) (ci : Z) (v : any) (m1 : gomap any) :
  List.length pre = List.length dpre ->
  RowMap_loop pre dpre ci [] = Ok m1 ->
  map_get m1 name <> None ->
  row_value (fun s => s) col ty ci = Ok (Some v) ->
  exists m,
    RowMap_loop (pre ++ [col]) (dpre ++ [[name; ty]]) ci [] = Ok m
    /\ map_get m name = Some v
    /\ (forall k, k <> name -> map_get m k = map_get m1 k)
    /\ negb (len m =? len (dpre ++ [[name; ty]])) = true.
Proof.
  intros Hlen Hpre Hin Hv. exists (map_set m1 name v).
  split; [ | split; [ | split ] ].
  - rewrite RowMap_loop_app by exact Hlen. rewrite Hpre. cbn [obind RowMap_loop].
    change (at_index [name; ty] 0) with (Ok (A := string) name).
    change (at_index [name; ty] 1) with (Ok (A := string) ty).
    cbn [obind]. rewrite Hv. reflexivity.
  - apply map_get_set_same.
  - intros k Hk. apply map_get_set_other. congruence.
  - apply Bool.negb_true_iff, Z.eqb_neq. unfold len.
    pose proof (RowMap_loop_length _ _ _ _ _ Hpre) as Hb. cbn [List.length] in Hb.
    pose proof (map_set_length_present m1 name v Hin) as Hs.
    rewrite length_app. cbn [List.length]. lia.
Qed.

Lemma RowMap_same_name_last_wins_witness :
  exists m,
    RowMap_loop (queue (fst first_batch_loaded)) same_name_columns 0 [] = Ok m
    /\ map_get m "a" = Some (any_val KString "1")
    /\ negb (len m =? len same_name_columns) = true.
Proof.
  destruct (RowMap_same_name_last_wins
              [i32_column [1; 2] [0]] [["a"; "INT_TYPE"]]
              (string_column ["1"; "2"] [0]) "a" "STRING_TYPE" 0
              (any_val KString "1") [("a", any_val KI32 1)]
              eq_refl eq_refl ltac:(discriminate) eq_refl)
    as (m & Hm & Hget & _ & Hlog).
  exists m. split; [ exact Hm | split; [ exact Hget | exact Hlog ] ].
Defined.

Lemma RowSlice_loop_length (cols : list TColumn) :
  forall (d : list (list string)) (ci : Z) (m : list any),
    RowSlice_loop cols d ci = Ok m -> List.length m = List.length cols.
Proof.
  induction cols as [ | col cols IH]; intros d ci m; cbn [RowSlice_loop].
  - intros [= <-]. reflexivity.
  - destruct d as [ | di d]; [ discriminate | ].
    destruct (at_index di 1) as [ty | | ]; cbn [obind]; try discriminate.
    destruct (row_value trim_decimal col ty ci) as [v | | ]; cbn [obind];
      try discriminate.
    destruct (RowSlice_loop cols d ci) as [m0 | | ] eqn:Hm0; cbn [obind];
      try discriminate.
    intros [= <-]. cbn [List.length]. f_equal. apply (IH d ci m0 Hm0).
Qed.

Section RowsAsValues.

Variable S : Type.
Variable env : Env S.
Variable GRM : TCLIServiceClient -> Context -> option TOperationHandle -> S ->
               option TGetResultSetMetadataResp * option string * S.

(** [Description] touches neither the batch nor the row counters. *)
Lemma Description_keeps_rows (c c1 : Cursor) (w w1 : World S)
      (d : option (list (list string))) :
  Description GRM c w = Ok (d, c1, w1) ->
  queue c1 = queue c /\ columnIndex c1 = columnIndex c /\ totalRows c1 = totalRows c.
Proof.
  intros H. destruct (description c) as [d0 | ] eqn:Hd.
  - unfold Description in H. rewrite Hd in H. injection H as _ <- _. auto.
  - apply Description_shape in H; [ | exact Hd ].
    destruct H as (cl & r & err & s & _ & _ & _ & _ & Hq & Hci & Htr & _). auto.
Qed.

(** [RowSlice] on a batch with an unread row. *)
Lemma RowSlice_unread (fuel : nat) (ctx : Context) (c : Cursor) (w : World S) :
  totalRows c <> columnIndex c ->
  RowSlice env GRM fuel ctx c w
  = (' (d, c1, w1) <- Description GRM (with_Err c None) w ;;
     if is_set (Err c1) || negb (len (description_or_nil d) =? len (queue c1))
     then Ok (None, c1, w1)
     else
       m <- RowSlice_loop (queue c1) (description_or_nil d) (columnIndex c1) ;;
       Ok (Some m, with_columnIndex c1 (int_wrap (columnIndex c1 + 1)), w1)).
Proof.
  intros Hne. apply Z.eqb_neq in Hne.
  unfold RowSlice, fetchIfEmpty. cursor_simpl. rewrite Hne. cursor_simpl.
  reflexivity.
Qed.

(** X23. On a batch with an unread row [RowSlice] either returns one
    value per column of the batch, leaves the error slot empty and
    moves the row index forward by one, or returns nil and leaves the
    row index where it was; the batch itself is never changed. *)
Theorem RowSlice_advances (fuel : nat) (ctx : Context) (c c' : Cursor)
        (w w' : World S) (r : option (list any)) :
  totalRows c <> columnIndex c ->
  RowSlice env GRM fuel ctx c w = Ok (r, c', w') ->
  queue c' = queue c
  /\ match r with
     | Some row =>
         List.length row = List.length (queue c)
         /\ columnIndex c' = int_wrap (columnIndex c + 1)
         /\ Err c' = None
     | None => columnIndex c' = columnIndex c
     end.
Proof.
  intros Hne H. rewrite (RowSlice_unread fuel ctx c w Hne) in H.
  destruct (Description GRM (with_Err c None) w) as [[[d c1] w1] | | ] eqn:HD;
    cbn [obind] in H; try discriminate H.
  destruct (Description_keeps_rows _ _ _ _ _ HD) as (Hq & Hci & _).
  cbn [with_Err queue columnIndex] in Hq, Hci.
  destruct (Err c1) as [e | ] eqn:He; cbn [is_set orb] in H.
  - injection H as <- <- _. auto.
  - destruct (negb (len (description_or_nil d) =? len (queue c1))).
    + injection H as <- <- _. auto.
    + destruct (RowSlice_loop (queue c1) (description_or_nil d) (columnIndex c1))
        as [m | | ] eqn:Hm; cbn [obind] in H; try discriminate H.
      injection H as <- <- _. cbn [with_columnIndex queue columnIndex Err].
      apply RowSlice_loop_length in Hm.
      rewrite <- Hq, <- Hci. auto.
Qed.

(** X24. [Finished] and [WaitForCompletion] disagree on a pending
    operation: [Finished] reports it as finished, while the loop of
    [WaitForCompletion] that sees the same status sleeps and polls
    again. *)
Theorem Finished_on_PENDING (fuel iter : nat) (ctx : Context) (c c1 : Cursor)
        (w w1 : World S) (os : TGetOperationStatusResp) (cfg : ConnectConfiguration) :
  Poll env true c w = Ok (Some os, c1, w1) ->
  OperationState os = Some PENDING_STATE ->
  Logs c1 = None ->
  conn_configuration c1 = Ok cfg ->
  ctx_done_at ctx iter = false ->
  Finished env c w = Ok (true, c1, w1)
  /\ WaitForCompletion_loop env (Datatypes.S fuel) iter ctx c w
     = WaitForCompletion_loop env fuel (Datatypes.S iter) ctx c1
         (with_server w1 (Sleep env (PollIntervalInMillis cfg) (server w1))).
Proof.
  intros Hpoll Hst Hl Hcfg Hlive.
  pose proof (Poll_response_clean _ _ _ _ _ _ _ _ Hpoll) as Hclean.
  split.
  - unfold Finished. rewrite Hpoll. cbn [obind]. rewrite Hclean.
    cbn [is_set deref obind]. rewrite Hst. reflexivity.
  - cbn [WaitForCompletion_loop]. rewrite Hpoll. cbn [obind]. rewrite Hclean.
    cbn [is_set deref obind]. rewrite Hst. cbn [deref obind].
    change (negb (TOperationState_eqb PENDING_STATE INITIALIZED_STATE
                  || TOperationState_eqb PENDING_STATE RUNNING_STATE
                  || TOperationState_eqb PENDING_STATE PENDING_STATE)) with false.
    cbn iota. rewrite Hl, Hcfg. cbn [obind]. rewrite Hlive. reflexivity.
Qed.

End RowsAsValues.

Lemma RowSlice_advances_witness :
  exists c' w',
    RowSlice paged_env (metadata_server table_columns) 0 ctx_Background
             (fst first_batch_loaded) (snd first_batch_loaded)
    = Ok (Some [any_val KI32 1; any_val KString "1"], c', w')
    /\ columnIndex c' = 1.
Proof.
  eexists. eexists.
  assert (H : RowSlice paged_env (metadata_server table_columns) 0 ctx_Background
                       (fst first_batch_loaded) (snd first_batch_loaded)
              = Ok (Some [any_val KI32 1; any_val KString "1"],
                    with_columnIndex
                      (with_description (with_Err (fst first_batch_loaded) None)
                         (Some [["a"; "INT_TYPE"]; ["b"; "STRING_TYPE"]])) 1,
                    snd first_batch_loaded))
    by (vm_compute; reflexivity).
  split; [ exact H | ].
  destruct (RowSlice_advances nat paged_env (metadata_server table_columns)
              0 ctx_Background (fst first_batch_loaded) _ (snd first_batch_loaded) _ _
              ltac:(vm_compute; discriminate) H) as (_ & _ & Hci & _).
  rewrite Hci. vm_compute. reflexivity.
Defined.

Lemma Finished_on_PENDING_witness :
  Finished pending_env submitted_cursor initial_world
  = Ok (true, submitted_cursor, initial_world)
  /\ WaitForCompletion_loop pending_env 2 0 ctx_Background submitted_cursor initial_world
     = WaitForCompletion_loop pending_env 1 1 ctx_Background submitted_cursor
         initial_world.
Proof.
  assert (Hpoll : Poll pending_env true submitted_cursor initial_world
                  = Ok (Some pending_poll, submitted_cursor, initial_world))
    by (vm_compute; reflexivity).
  exact (Finished_on_PENDING nat pending_env 1 0 ctx_Background
           submitted_cursor submitted_cursor initial_world initial_world
           pending_poll NewConnectConfiguration
           Hpoll eq_refl eq_refl eq_refl eq_refl).
Defined.


(** ** The end of the stream, with other calls in between *)

Section EndOfStreamCalls.

Variable S : Type.
Variable env : Env S.
Variable GRM : TCLIServiceClient -> Context -> option TOperationHandle -> S ->
               option TGetResultSetMetadataResp * option string * S.

Lemma at_end_with_Err (c : Cursor) (e : option error) :
  at_end c -> at_end (with_Err c e).
Proof. intros H. exact H. Qed.

Lemma fetchIfEmpty_at_end (fuel : nat) (ctx : Context) (c : Cursor) (w : World S) :
  at_end c ->
  fetchIfEmpty env fuel ctx c w
  = Ok (with_Err (with_queue c []) (Some no_more_rows), w).
Proof.
  intros [Hidx Hst]. unfold fetchIfEmpty.
  cbn [with_Err totalRows columnIndex].
  rewrite Hidx, Z.eqb_refl.
  rewrite HasMore_finished by (destruct c; cbn in *; assumption).
  destruct c; reflexivity.
Qed.

Lemma RowMap_at_end (fuel : nat) (ctx : Context) (c : Cursor) (w : World S) :
  at_end c ->
  RowMap env GRM fuel ctx c w
  = Ok (None, false, with_Err (with_queue c []) (Some no_more_rows), w).
Proof.
  intros H. unfold RowMap.
  rewrite (fetchIfEmpty_at_end fuel ctx (with_Err c None) w (at_end_with_Err c None H)).
  cbn [obind with_Err Err is_set]. destruct c; reflexivity.
Qed.

Lemma RowSlice_at_end (fuel : nat) (ctx : Context) (c : Cursor) (w : World S) :
  at_end c ->
  RowSlice env GRM fuel ctx c w
  = Ok (None, with_Err (with_queue c []) (Some no_more_rows), w).
Proof.
  intros H. unfold RowSlice.
  rewrite (fetchIfEmpty_at_end fuel ctx (with_Err c None) w (at_end_with_Err c None H)).
  cbn [obind with_Err Err is_set]. destruct c; reflexivity.
Qed.

Lemma Description_state (c c1 : Cursor) (w w1 : World S)
      (d : option (list (list string))) :
  Description GRM c w = Ok (d, c1, w1) -> state c1 = state c.
Proof.
  unfold Description.
  destruct (description c) as [d0 | ]; [ intros [= _ <- _]; reflexivity | ].
  set (c0 := if negb (is_set (operationHandle c)) then _ else c).
  assert (Hc0 : state c0 = state c)
    by (subst c0; destruct (negb (is_set (operationHandle c))); reflexivity).
  clearbody c0.
  destruct (conn_client c0) as [cl | | ]; cbn [obind]; try discriminate.
  destruct (GRM cl ctx_Background (operationHandle c0) (server w)) as [[r err] s].
  destruct err as [e | ]; [ intros [= _ <- _]; exact Hc0 | ].
  destruct r as [r | ]; cbn [deref obind]; [ | discriminate ].
  destruct (meta_Status r) as [st | ]; cbn [deref obind]; [ | discriminate ].
  destruct (negb (TStatusCode_eqb (StatusCode st) SUCCESS_STATUS));
    [ intros [= _ <- _]; exact Hc0 | ].
  destruct (Schema r) as [schema | ]; cbn [deref obind]; [ | discriminate ].
  destruct (describe_columns (schema_Columns schema)) as [m | | ]; cbn [obind];
    try discriminate.
  intros [= _ <- _]. exact Hc0.
Qed.

Lemma Finished_only_Err (c c1 : Cursor) (w w1 : World S) (b : bool) :
  Finished env c w = Ok (b, c1, w1) -> exists e, c1 = with_Err c e.
Proof.
  unfold Finished.
  destruct (Poll env true c w) as [[[os c2] w2] | | ] eqn:Hpoll; cbn [obind];
    try discriminate.
  destruct (Poll_only_Err _ _ _ _ _ _ _ _ Hpoll) as (e & ->).
  destruct (is_set (Err (with_Err c e))); [ intros [= _ <- _]; eauto | ].
  destruct os as [os | ]; cbn [deref obind]; [ | discriminate ].
  destruct (OperationState os) as [st | ]; cbn [deref obind]; [ | discriminate ].
  intros [= _ <- _]. eauto.
Qed.

(** Each of the calls keeps the cursor at the end of the stream. *)
Lemma run_call_at_end (k : call) (c c1 : Cursor) (w w1 : World S) :
  at_end c ->
  run_call S env GRM k c w = Ok (c1, w1) ->
  at_end c1
  /\ (is_FetchOne k = true -> Err c1 = Some no_more_rows /\ w1 = w).
Proof.
  intros Hend. pose proof Hend as [Hidx Hst].
  destruct k as [fuel ctx dests | fuel ctx | fuel ctx | fuel ctx | b | | | | | ];
    cbn [run_call is_FetchOne].
  - rewrite (FetchOne_finished S env fuel ctx dests c w Hidx Hst). cbn [obind].
    intros [= <- <-]. split; [ exact Hend | intros _; split; reflexivity ].
  - rewrite (HasMore_finished S env fuel ctx c w Hidx Hst). cbn [obind].
    intros [= <- <-]. split; [ exact Hend | discriminate ].
  - rewrite (RowMap_at_end fuel ctx c w Hend). cbn [obind].
    intros [= <- <-]. split; [ exact Hend | discriminate ].
  - rewrite (RowSlice_at_end fuel ctx c w Hend). cbn [obind].
    intros [= <- <-]. split; [ exact Hend | discriminate ].
  - destruct (Poll env b c w) as [[[os c2] w2] | | ] eqn:Hp; cbn [obind];
      try discriminate.
    intros [= <- <-]. destruct (Poll_only_Err _ _ _ _ _ _ _ _ Hp) as (e & ->).
    split; [ exact Hend | discriminate ].
  - destruct (Finished env c w) as [[[b c2] w2] | | ] eqn:Hf; cbn [obind];
      try discriminate.
    intros [= <- <-]. destruct (Finished_only_Err _ _ _ _ _ Hf) as (e & ->).
    split; [ exact Hend | discriminate ].
  - destruct (FetchLogs env c w) as [[[logs c2] w2] | | ] eqn:Hl; cbn [obind];
      try discriminate.
    intros [= <- <-]. destruct (FetchLogs_only_Err _ _ _ _ _ _ _ Hl) as (e & ->).
    split; [ exact Hend | discriminate ].
  - intros Hc. destruct (Cancel_only_Err _ _ _ _ _ _ Hc) as (e & ->).
    split; [ exact Hend | discriminate ].
  - destruct (Description GRM c w) as [[[d c2] w2] | | ] eqn:Hd; cbn [obind];
      try discriminate.
    intros [= <- <-].
    destruct (Description_keeps_rows _ _ _ _ _ _ _ Hd) as (_ & Hci & Htr).
    pose proof (Description_state _ _ _ _ _ Hd) as Hs.
    split; [ | discriminate ]. split; congruence.
  - intros [= <- <-]. split; [ exact Hend | discriminate ].
Qed.


End EndOfStreamCalls.


